(** * The Split aggregate and its reconciling SQL repository

    A shallow embedding of

      - [internal/domain]: [errors.go], [common.go], [page_entity.go],
        [document_entity.go], [split_entity.go];
      - [internal/infrastructure/db/repositories/splits]: the SQL
        repository ([Get], [Save] and the three private loaders), over the
        schema of the initial migration.

    Modelling decisions.

      - Go's [*Page] is a pointer.  Pages live in a heap ([Heap], a total
        map from addresses to [Page.t]); a [[]*Page] is a list of addresses,
        so that two lists holding the same pointer see each other's
        [AssignToDocument] / [Unassign].  Pointers are non-nil.
      - A [Document] inside [Split.Documents] is a value ([[]Document]); the
        code that takes [&s.Documents[i]] is modelled by an update of the
        list at index [i].  Every slice is modelled as a list of its own:
        two slices are not assumed to share a backing array.
      - A method that mutates returns the new heap and the new receiver
        next to its [error] ([None] is Go's [nil] error).
      - Library code the program calls is a field of [GoLib]:
        [slices.SortFunc], [fmt.Sscanf] with the format of [NewPage],
        [uuid.New], [json.Unmarshal] into [NewSplit]'s local struct and the
        [ORDER BY] of SQLite.  The theorems assume of it only what its
        documentation promises (a sort permutes and sorts, [uuid.New] does
        not repeat itself); [exampleLib] is an instance to run examples.
      - The database is the three tables of the migration, each the list of
        its rows; every statement of [Get] and [Save] is a function on it.
        Errors of the driver are not modelled.
      - [int] is [Z] (page numbers are only compared, never computed with),
        [time.Time] is an instant in [Z]. *)

From Stdlib Require Import ZArith List String Ascii Bool Lia Permutation Sorted.
From Stdlib Require Import DecimalString DecimalNat.
Import ListNotations.
Local Open Scope string_scope.
Local Open Scope Z_scope.

Set Implicit Arguments.

(* ================================================================== *)
(** * errors.go                                                        *)
(* ================================================================== *)

(** [type DomainErrorKind string] and its four constants. *)
Definition DomainErrorKind := string.
Definition DomainErrorValidation : DomainErrorKind := "validation".
Definition DomainErrorNotFound   : DomainErrorKind := "not_found".
Definition DomainErrorConflict   : DomainErrorKind := "conflict".
Definition DomainErrorInternal   : DomainErrorKind := "internal".

(** Go's [error] values as this package builds them: a [*DomainError]
    (kind, message, cause) or the result of [fmt.Errorf], whose text is kept
    with its [%w] unexpanded and whose wrapped error is what [Unwrap]
    returns. *)
#[warnings="-register-all"]
Inductive error : Type :=
| DomainError (Kind : DomainErrorKind) (Message : string) (Cause : option error)
| Errorf (text : string) (wrapped : option error).

Definition NewDomainError (kind : DomainErrorKind) (message : string)
  (cause : option error) : error := DomainError kind message cause.
Definition NewValidationError := NewDomainError DomainErrorValidation.
Definition NewNotFoundError   := NewDomainError DomainErrorNotFound.
Definition NewConflictError   := NewDomainError DomainErrorConflict.
Definition NewInternalError   := NewDomainError DomainErrorInternal.

(** [DomainError.Unwrap] and the [Unwrap] of a [fmt.Errorf] value. *)
Definition Unwrap (e : error) : option error :=
  match e with
  | DomainError _ _ c => c
  | Errorf _ w => w
  end.

(** [errors.As(err, &domainErr)] with [domainErr *DomainError]: the first
    [*DomainError] met walking the [Unwrap] chain from the outside. *)
Fixpoint errors_As (e : error) : option error :=
  match e with
  | DomainError _ _ _ => Some e
  | Errorf _ (Some w) => errors_As w
  | Errorf _ None => None
  end.

(** The kind a caller reads after [errors.As]: [domainErr.Kind]. *)
Definition KindOf (e : error) : option DomainErrorKind :=
  match errors_As e with
  | Some (DomainError k _ _) => Some k
  | _ => None
  end.

(** Some [*DomainError] of kind [k] occurs somewhere on the [Unwrap] chain. *)
Fixpoint chainHasKind (k : DomainErrorKind) (e : error) : bool :=
  match e with
  | DomainError k' _ c =>
      String.eqb k' k || match c with Some c' => chainHasKind k c' | None => false end
  | Errorf _ w => match w with Some w' => chainHasKind k w' | None => false end
  end.

(* ================================================================== *)
(** * common.go                                                        *)
(* ================================================================== *)

(** [type SplitStatus string]: any string can be stored (the JSON and the
    [status] column are not checked against the two constants). *)
Definition SplitStatus := string.
Definition SplitStatusDraft     : SplitStatus := "draft".
Definition SplitStatusFinalized : SplitStatus := "finalized".

Definition Time := Z.

(* ================================================================== *)
(** * page_entity.go                                                   *)
(* ================================================================== *)

Definition addr := nat.

Module Page.

Record t : Type := mk {
  ID : string;
  SplitID : string;
  DocumentID : option string;   (* *string, nil if unassigned *)
  PageNumber : Z;
  URL : string
}.

Definition set_DocumentID (p : t) (d : option string) : t :=
  mk (ID p) (SplitID p) d (PageNumber p) (URL p).

(** [func (p *Page) Valid() error] *)
Definition Valid (p : t) : option error :=
  if String.eqb (ID p) "" then
    Some (NewValidationError "page id is required" None)
  else if String.eqb (SplitID p) "" then
    Some (NewValidationError "split id is required" None)
  else if String.eqb (URL p) "" then
    Some (NewValidationError "url is required" None)
  else None.

End Page.

(** The heap of [Page] objects: what a [*Page] points to. *)
Definition Heap := addr -> Page.t.

Definition upd (h : Heap) (a : addr) (p : Page.t) : Heap :=
  fun b => if Nat.eqb b a then p else h b.

(** [func (p *Page) IsAssigned() bool] *)
Definition IsAssigned (h : Heap) (p : addr) : bool :=
  match Page.DocumentID (h p) with Some _ => true | None => false end.

(** [func (p *Page) AssignToDocument(docID string) error] *)
Definition AssignToDocument (h : Heap) (p : addr) (docID : string)
  : Heap * option error :=
  if IsAssigned h p then
    (h, Some (NewConflictError "page is already assigned to a document" None))
  else (upd h p (Page.set_DocumentID (h p) (Some docID)), None).

(** [func (p *Page) Unassign()] *)
Definition Unassign (h : Heap) (p : addr) : Heap :=
  upd h p (Page.set_DocumentID (h p) None).

(* ================================================================== *)
(** * Library functions                                                *)
(* ================================================================== *)

(** The local struct [json.Unmarshal] fills in [NewSplit]. *)
Record docData : Type := mkDocData {
  dd_ID : string;
  dd_Classification : string;
  dd_Filename : string;
  dd_Name : string;
  dd_ShortDescription : string;
  dd_PageURLs : list string
}.

Record splitData : Type := mkSplitData {
  sd_ID : string;
  sd_ClientID : string;
  sd_Status : SplitStatus;
  sd_Documents : list docData
}.

Class GoLib : Type := {
  (** [slices.SortFunc(x, cmp)], as the function from the old contents of
      the slice to the new. *)
  slices_SortFunc : forall A : Type, (A -> A -> Z) -> list A -> list A;
  (** [fmt.Sscanf(url, "page_%d.png", &pageNumber)]: the number scanned, or
      [None] when it returns an error. *)
  fmt_Sscanf_page : string -> option Z;
  (** [uuid.New().String()]: the [n]-th identifier the generator gives. *)
  uuid_New : nat -> string;
  (** [json.Unmarshal([]byte(jsonRepr), &splitData)]: [None] on error. *)
  json_Unmarshal : string -> option splitData;
  (** SQLite's [ORDER BY col] on a [TEXT] column: the rows a query selected
      (in rowid order), put in the order of their texts in [col]. *)
  sql_OrderBy : forall R : Type, (R -> string) -> list R -> list R
}.

(** The comparison function literal of [updatePageNumbers], for any key. *)
Definition cmpBy (A : Type) (key : A -> Z) (a b : A) : Z :=
  if key a <? key b then -1
  else if key a >? key b then 1
  else 0.

(** A Go result pair [(v, err)] where exactly one side is meaningful. *)
Inductive result (A : Type) : Type :=
| Ok (v : A)
| Err (e : error).
Arguments Ok {A} v.
Arguments Err {A} e.

(** Update of a slice element through its index ([&s[i]] then a write);
    the callers only use indices they have just found in the slice. *)
Fixpoint set_nth (A : Type) (i : nat) (x : A) (l : list A) : list A :=
  match l, i with
  | [], _ => []
  | _ :: t, O => x :: t
  | y :: t, S j => y :: set_nth j x t
  end.

(* ================================================================== *)
(** * document_entity.go                                               *)
(* ================================================================== *)

Module Document.

Record t : Type := mk {
  ID : string;
  SplitID : string;
  Name : string;
  Classification : string;
  Filename : string;
  ShortDescription : string;
  Pages : list addr;            (* []*Page *)
  StartPage : string;
  EndPage : string
}.

(** [type DocumentMetadata struct]: three optional strings. *)
Record Metadata : Type := mkMetadata {
  mName : option string;
  mClassification : option string;
  mShortDescription : option string
}.

Definition set_Pages (d : t) (ps : list addr) : t :=
  mk (ID d) (SplitID d) (Name d) (Classification d) (Filename d)
     (ShortDescription d) ps (StartPage d) (EndPage d).

Definition set_Bounds (d : t) (s e : string) : t :=
  mk (ID d) (SplitID d) (Name d) (Classification d) (Filename d)
     (ShortDescription d) (Pages d) s e.

Section WithLib.
Context {L : GoLib}.

(** [func (d *Document) updatePageNumbers()] *)
Definition updatePageNumbers (h : Heap) (d : t) : t :=
  let ps := slices_SortFunc (cmpBy (fun a => Page.PageNumber (h a))) (Pages d) in
  let d := set_Pages d ps in
  match ps with
  | first :: _ =>
      set_Bounds d (Page.URL (h first)) (Page.URL (h (last ps first)))
  | [] => set_Bounds d "" ""
  end.

(** The loop of [AddPages]: [acc] is [d.Pages] so far. *)
Fixpoint AddPages_loop (h : Heap) (docID : string) (acc : list addr)
  (pages : list addr) : Heap * list addr * option error :=
  match pages with
  | [] => (h, acc, None)
  | newPage :: rest =>
      match AssignToDocument h newPage docID with
      | (h', Some assignErr) =>
          (h', acc,
           Some (NewValidationError "failed to assign page to document"
                   (Some assignErr)))
      | (h', None) => AddPages_loop h' docID (acc ++ [newPage]) rest
      end
  end.

(** [func (d *Document) AddPages(pages []*Page) error] *)
Definition AddPages (h : Heap) (d : t) (pages : list addr)
  : Heap * t * option error :=
  match AddPages_loop h (ID d) (Pages d) pages with
  | (h', ps, Some e) => (h', set_Pages d ps, Some e)
  | (h', ps, None) => (h', updatePageNumbers h' (set_Pages d ps), None)
  end.

(** [_, shouldRemove := idsToRemove[page.ID]] *)
Definition shouldRemove (h : Heap) (pageIDs : list string) (page : addr) : bool :=
  existsb (String.eqb (Page.ID (h page))) pageIDs.

(** [func (d *Document) RemovePages(pageIDs []string) ([]*Page, error)] *)
Definition RemovePages (h : Heap) (d : t) (pageIDs : list string)
  : Heap * t * list addr * option error :=
  match pageIDs with
  | [] => (h, d, [], None)
  | _ :: _ =>
      let removed := filter (shouldRemove h pageIDs) (Pages d) in
      let remaining :=
        filter (fun p => negb (shouldRemove h pageIDs p)) (Pages d) in
      match removed with
      | [] =>
          (h, d, [],
           Some (NewNotFoundError
                   "none of the specified pages found in document" None))
      | _ :: _ =>
          let h' := fold_left Unassign removed h in
          (h', updatePageNumbers h' (set_Pages d remaining), removed, None)
      end
  end.

End WithLib.

(** [func (d *Document) UpdateMetadata(metadata DocumentMetadata) error] *)
Definition UpdateMetadata (d : t) (metadata : Metadata) : t * option error :=
  let name := match mName metadata with Some n => n | None => Name d end in
  let class := match mClassification metadata with
               | Some c => c | None => Classification d end in
  let descr := match mShortDescription metadata with
               | Some s => s | None => ShortDescription d end in
  (mk (ID d) (SplitID d) name class (Filename d) descr (Pages d)
      (StartPage d) (EndPage d), None).

(** The loop over [d.Pages] of [Valid]. *)
Fixpoint Valid_pages (h : Heap) (ps : list addr) : option error :=
  match ps with
  | [] => None
  | page :: rest =>
      match Page.Valid (h page) with
      | Some err => Some (NewValidationError "invalid page in document" (Some err))
      | None => Valid_pages h rest
      end
  end.

(** [func (d *Document) Valid() error] *)
Definition Valid (h : Heap) (d : t) : option error :=
  if String.eqb (ID d) "" then
    Some (NewValidationError "document ID is required" None)
  else if String.eqb (SplitID d) "" then
    Some (NewValidationError "split ID is required" None)
  else if String.eqb (Name d) "" then
    Some (NewValidationError "document name is required" None)
  else if String.eqb (Classification d) "" then
    Some (NewValidationError "document classification is required" None)
  else if String.eqb (Filename d) "" then
    Some (NewValidationError "document filename is required" None)
  else if Nat.eqb (List.length (Pages d)) 0 then
    Some (NewValidationError "document must have at least one page" None)
  else Valid_pages h (Pages d).

(** [func NewDocument(id, splitID, name, classification, filename,
    shortDescription string, pages []*Page)], returning the document or
    the error. *)
Definition NewDocument {L : GoLib} (h : Heap)
  (id splitID name classification filename shortDescription : string)
  (pages : list addr) : result t :=
  let d := mk id splitID name classification filename shortDescription
              pages "" "" in
  let d := updatePageNumbers h d in
  match Valid h d with
  | Some err => Err (Errorf "invalid document: %w" (Some err))
  | None => Ok d
  end.

End Document.

(* ================================================================== *)
(** * split_entity.go                                                  *)
(* ================================================================== *)

(** [for i, x := range l { if f(x) { ...; return } }]: the first index. *)
Fixpoint find_first (A : Type) (f : A -> bool) (l : list A) : option nat :=
  match l with
  | [] => None
  | x :: t => if f x then Some O else option_map S (find_first f t)
  end.

(** [for i := range l { if f(l[i]) { found = &l[i] } }] with no [break]:
    the last index. *)
Fixpoint find_last (A : Type) (f : A -> bool) (l : list A) : option nat :=
  match l with
  | [] => None
  | x :: t =>
      match find_last f t with
      | Some j => Some (S j)
      | None => if f x then Some O else None
      end
  end.

Module Split.

Record t : Type := mk {
  ID : string;
  ClientID : string;
  Status : SplitStatus;
  Documents : list Document.t;     (* []Document *)
  UnassignedPages : list addr;     (* []*Page *)
  CreatedAt : Time;
  UpdatedAt : Time;
  FinalizedAt : option Time        (* *time.Time *)
}.

Definition set_Documents (s : t) (ds : list Document.t) : t :=
  mk (ID s) (ClientID s) (Status s) ds (UnassignedPages s)
     (CreatedAt s) (UpdatedAt s) (FinalizedAt s).

(** The loop over [s.Documents] of [Valid]. *)
Fixpoint Valid_docs (h : Heap) (sid : string) (ds : list Document.t)
  : option error :=
  match ds with
  | [] => None
  | doc :: rest =>
      match Document.Valid h doc with
      | Some docErr =>
          Some (Errorf ("invalid document in split " ++ sid ++ ": %w")
                  (Some docErr))
      | None => Valid_docs h sid rest
      end
  end.

(** [func (s *Split) Valid() error] *)
Definition Valid (h : Heap) (s : t) : option error :=
  if String.eqb (ID s) "" then
    Some (NewValidationError "split ID is required" None)
  else if String.eqb (ClientID s) "" then
    Some (NewValidationError "client ID is required" None)
  else Valid_docs h (ID s) (Documents s).

(** [func (s *Split) Finalize(finalizedAt time.Time) error] *)
Definition Finalize (h : Heap) (s : t) (finalizedAt : Time)
  : t * option error :=
  if String.eqb (Status s) SplitStatusFinalized then
    (s, Some (NewConflictError "split already finalized" None))
  else match UnassignedPages s with
  | _ :: _ =>
      (s, Some (NewValidationError
                  "cannot finalize split with unassigned pages" None))
  | [] =>
      match Valid h s with
      | Some validErr =>
          (s, Some (NewValidationError "invalid split" (Some validErr)))
      | None =>
          (mk (ID s) (ClientID s) SplitStatusFinalized (Documents s)
              (UnassignedPages s) (CreatedAt s) (UpdatedAt s)
              (Some finalizedAt), None)
      end
  end.

(** [func (s *Split) AddDocument(doc *Document) error] *)
Definition AddDocument (h : Heap) (s : t) (doc : Document.t)
  : t * option error :=
  if String.eqb (Status s) SplitStatusFinalized then
    (s, Some (NewConflictError "cannot add document to finalized split" None))
  else match Document.Valid h doc with
  | Some err => (s, Some (NewValidationError "invalid document" (Some err)))
  | None =>
      if existsb (fun existingDoc =>
                    String.eqb (Document.ID existingDoc) (Document.ID doc))
           (Documents s)
      then (s, Some (NewConflictError "document with ID already exists" None))
      else if existsb (IsAssigned h) (Document.Pages doc)
      then (s, Some (NewConflictError
                       "cannot add document with already assigned pages" None))
      else (set_Documents s (Documents s ++ [doc]), None)
  end.

Section WithLib.
Context {L : GoLib}.

(** [func (s *Split) RemoveDocument(docID string) error] *)
Definition RemoveDocument (h : Heap) (s : t) (docID : string)
  : Heap * t * option error :=
  if String.eqb (Status s) SplitStatusFinalized then
    (h, s, Some (NewConflictError
                   "cannot remove document from finalized split" None))
  else
    match find_first (fun doc => String.eqb (Document.ID doc) docID)
            (Documents s) with
    | None => (h, s, Some (NewNotFoundError "document not found in split" None))
    | Some i =>
        match nth_error (Documents s) i with
        | None => (h, s, Some (NewNotFoundError "document not found in split" None))
        | Some doc =>
            let pageIDs := map (fun p => Page.ID (h p)) (Document.Pages doc) in
            match Document.RemovePages h doc pageIDs with
            | (h', _, _, Some err) =>
                match errors_As err with
                | Some _ => (h', s, Some err)
                | None =>
                    (h', s,
                     Some (NewValidationError
                             "failed to remove pages from document" (Some err)))
                end
            | (h', _, removedPages, None) =>
                (h',
                 mk (ID s) (ClientID s) (Status s)
                    (firstn i (Documents s) ++ skipn (S i) (Documents s))
                    (UnassignedPages s ++ removedPages)
                    (CreatedAt s) (UpdatedAt s) (FinalizedAt s),
                 None)
            end
        end
    end.

(** [func (s *Split) MovePages(fromDocID, toDocID string, pageIDs []string) error] *)
Definition MovePages (h : Heap) (s : t) (fromDocID toDocID : string)
  (pageIDs : list string) : Heap * t * option error :=
  if String.eqb (Status s) SplitStatusFinalized then
    (h, s, Some (NewConflictError "cannot move pages in finalized split" None))
  else
    let docs := Documents s in
    match find_last (fun d => String.eqb (Document.ID d) fromDocID) docs with
    | None => (h, s, Some (NewNotFoundError "source document not found" None))
    | Some i =>
    match find_last (fun d => String.eqb (Document.ID d) toDocID) docs with
    | None => (h, s, Some (NewNotFoundError "target document not found" None))
    | Some j =>
    match nth_error docs i, nth_error docs j with
    | Some fromDoc, Some toDoc =>
        if existsb (fun pid =>
             existsb (fun p => String.eqb (Page.ID (h p)) pid)
               (Document.Pages toDoc)) pageIDs
        then (h, s, Some (NewValidationError
               "cannot move pages that are already assigned to target document"
               None))
        else
          match Document.RemovePages h fromDoc pageIDs with
          | (h1, fromDoc', _, Some err) =>
              (h1, set_Documents s (set_nth i fromDoc' docs),
               Some (NewValidationError
                       "failed to remove pages from source document" (Some err)))
          | (h1, fromDoc', removedPages, None) =>
              let docs1 := set_nth i fromDoc' docs in
              match nth_error docs1 j with
              | None => (h1, set_Documents s docs1, None)
              | Some toDoc1 =>
                  match Document.AddPages h1 toDoc1 removedPages with
                  | (h2, toDoc', Some err) =>
                      (h2, set_Documents s (set_nth j toDoc' docs1),
                       Some (NewValidationError
                               "failed to add pages to target document"
                               (Some err)))
                  | (h2, toDoc', None) =>
                      (h2, set_Documents s (set_nth j toDoc' docs1), None)
                  end
              end
          end
    | _, _ => (h, s, Some (NewNotFoundError "source document not found" None))
    end end end.

End WithLib.

(** [func (s *Split) UpdateDocumentMetadata(docID string, meta DocumentMetadata) error] *)
Definition UpdateDocumentMetadata (s : t) (docID : string)
  (meta : Document.Metadata) : t * option error :=
  if String.eqb (Status s) SplitStatusFinalized then
    (s, Some (Errorf ("cannot update document in finalized split " ++ ID s) None))
  else
    match find_first (fun d => String.eqb (Document.ID d) docID) (Documents s) with
    | Some i =>
        match nth_error (Documents s) i with
        | Some d =>
            let '(d', err) := Document.UpdateMetadata d meta in
            (set_Documents s (set_nth i d' (Documents s)), err)
        | None =>
            (s, Some (Errorf ("document " ++ docID ++ " not found in split " ++ ID s)
                        None))
        end
    | None =>
        (s, Some (Errorf ("document " ++ docID ++ " not found in split " ++ ID s)
                    None))
    end.

End Split.

(* ================================================================== *)
(** * Construction: NewPage and NewSplit                               *)
(* ================================================================== *)

(** What construction allocates from: the heap, the next free address and
    the number of identifiers [uuid.New] has given so far. *)
Record Store : Type := mkStore {
  cells : Heap;
  next : addr;
  drawn : nat
}.

(** The error [fmt.Sscanf] returns; its text depends on where the scan
    stopped and is not used by the program. *)
Definition Sscanf_error : error := Errorf "fmt.Sscanf" None.

(** The error of [json.Unmarshal]. *)
Definition Unmarshal_error : error := Errorf "json.Unmarshal" None.

Section Construction.
Context {L : GoLib}.

(** [func NewPage(splitID, url string)]: the new page or the error. *)
Definition NewPage (st : Store) (splitID url : string) : Store * result addr :=
  match fmt_Sscanf_page url with
  | None => (st, Err (Errorf "invalid page URL format: %w" (Some Sscanf_error)))
  | Some pageNumber =>
      let p := Page.mk (uuid_New (drawn st)) splitID None pageNumber url in
      let a := next st in
      let st' := mkStore (upd (cells st) a p) (S a) (S (drawn st)) in
      match Page.Valid p with
      | Some e => (st', Err (Errorf "invalid page: %w" (Some e)))
      | None => (st', Ok a)
      end
  end.

(** The inner loop of [NewSplit]: one [NewPage] per URL. *)
Fixpoint NewSplit_pages (st : Store) (splitID : string) (pages : list addr)
  (urls : list string) : Store * result (list addr) :=
  match urls with
  | [] => (st, Ok pages)
  | url :: rest =>
      match NewPage st splitID url with
      | (st', Err err) =>
          (st', Err (Errorf ("failed to create page from URL " ++ url ++ ": %w")
                       (Some err)))
      | (st', Ok page) => NewSplit_pages st' splitID (pages ++ [page]) rest
      end
  end.

(** The outer loop of [NewSplit]: one [NewDocument] per entry. *)
Fixpoint NewSplit_documents (st : Store) (splitID : string)
  (docs : list Document.t) (data : list docData)
  : Store * result (list Document.t) :=
  match data with
  | [] => (st, Ok docs)
  | docData :: rest =>
      match NewSplit_pages st splitID [] (dd_PageURLs docData) with
      | (st', Err err) => (st', Err err)
      | (st', Ok pages) =>
          match Document.NewDocument (cells st') (dd_ID docData) splitID
                  (dd_Name docData) (dd_Classification docData)
                  (dd_Filename docData) (dd_ShortDescription docData) pages with
          | Err err =>
              (st', Err (Errorf "failed to create document: %w" (Some err)))
          | Ok doc => NewSplit_documents st' splitID (docs ++ [doc]) rest
          end
      end
  end.

(** [func NewSplit(jsonRepr string)]; [createdAt] and
    [updatedAt] are the two readings of [time.Now()]. *)
Definition NewSplit (st : Store) (createdAt updatedAt : Time)
  (jsonRepr : string) : Store * result Split.t :=
  match json_Unmarshal jsonRepr with
  | None =>
      (st, Err (Errorf "failed to unmarshal split JSON: %w" (Some Unmarshal_error)))
  | Some data =>
      match NewSplit_documents st (sd_ID data) [] (sd_Documents data) with
      | (st', Err err) => (st', Err err)
      | (st', Ok docs) =>
          let split := Split.mk (sd_ID data) (sd_ClientID data) (sd_Status data)
                         docs [] createdAt updatedAt None in
          match Split.Valid (cells st') split with
          | Some err => (st', Err (Errorf "invalid split: %w" (Some err)))
          | None => (st', Ok split)
          end
      end
  end.

End Construction.

(* ================================================================== *)
(** * The relational store                                             *)
(* ================================================================== *)

(** The three tables of the initial migration.  A table is the list of its
    rows in rowid order.  Every column the repository binds a Go [string]
    to holds that string; [document_id] is the one column it writes [NULL]
    into.  Foreign keys are declared but the program never turns their
    enforcement on, so no statement of [Save] can be refused. *)
Record SplitRow : Type := mkSplitRow {
  sr_id : string;
  sr_client_id : string;
  sr_status : string;
  sr_created_at : Time;
  sr_updated_at : Time
}.

Record DocumentRow : Type := mkDocumentRow {
  dr_id : string;
  dr_split_id : string;
  dr_name : string;
  dr_classification : string;
  dr_filename : string;
  dr_short_description : string;
  dr_start_page : string;
  dr_end_page : string
}.

(** [page_number] is declared [TEXT NOT NULL]: the integer [Save] binds is
    stored as its decimal text ([page_number_text]) and is compared as text;
    [Scan] into the Go [int] reads the same integer back.  The row keeps the
    integer. *)
Record PageRow : Type := mkPageRow {
  pr_id : string;
  pr_split_id : string;
  pr_document_id : option string;
  pr_page_number : Z;
  pr_url : string
}.

Definition page_number_text (r : PageRow) : string :=
  NilZero.string_of_int (Z.to_int (pr_page_number r)).

Record DB : Type := mkDB {
  splits : list SplitRow;
  documents : list DocumentRow;
  pages : list PageRow
}.

Definition emptyDB : DB := mkDB [] [] [].

(** [INSERT ... ON CONFLICT(id) DO UPDATE SET ...]: the row whose key is
    already present is rewritten where it stands by [merge old new], else
    the new row is added at the end. *)
Fixpoint upsert (R : Type) (key : R -> string) (merge : R -> R -> R)
  (new : R) (rows : list R) : list R :=
  match rows with
  | [] => [new]
  | old :: rest =>
      if String.eqb (key old) (key new) then merge old new :: rest
      else old :: upsert key merge new rest
  end.

(** [DELETE FROM ... WHERE cond] *)
Definition delete_where (R : Type) (cond : R -> bool) (rows : list R) : list R :=
  filter (fun r => negb (cond r)) rows.

Definition opt_eqb (o : option string) (s : string) : bool :=
  match o with Some x => String.eqb x s | None => false end.

Definition is_null (o : option string) : bool :=
  match o with Some _ => false | None => true end.

Definition mem_string (x : string) (l : list string) : bool :=
  existsb (String.eqb x) l.

Section Repository.
Context {L : GoLib}.

(** The loop of [getPages] and of [getUnassignedPages] over the rows of
    the query: a fresh [Page] per row, filled by [Scan] with the four
    selected columns ([DocumentID] stays [nil]). *)
Fixpoint scanPages (st : Store) (pages : list addr) (rows : list PageRow)
  : Store * list addr :=
  match rows with
  | [] => (st, pages)
  | r :: rest =>
      let page := Page.mk (pr_id r) (pr_split_id r) None (pr_page_number r)
                    (pr_url r) in
      let a := next st in
      scanPages (mkStore (upd (cells st) a page) (S a) (drawn st))
        (pages ++ [a]) rest
  end.

(** [func (r *SplitRepositorySQL) getPages(ctx, documentID)] *)
Definition getPages (st : Store) (db : DB) (documentID : string)
  : Store * list addr :=
  scanPages st []
    (sql_OrderBy page_number_text
       (filter (fun r => opt_eqb (pr_document_id r) documentID) (pages db))).

(** [func (r *SplitRepositorySQL) getUnassignedPages(ctx, splitID)] *)
Definition getUnassignedPages (st : Store) (db : DB) (splitID : string)
  : Store * list addr :=
  scanPages st []
    (sql_OrderBy page_number_text
       (filter (fun r => String.eqb (pr_split_id r) splitID
                         && is_null (pr_document_id r)) (pages db))).

(** The loop of [getDocuments] over the rows of its query. *)
Fixpoint scanDocuments (st : Store) (db : DB) (docs : list Document.t)
  (rows : list DocumentRow) : Store * list Document.t :=
  match rows with
  | [] => (st, docs)
  | r :: rest =>
      let '(st', pages) := getPages st db (dr_id r) in
      let doc := Document.mk (dr_id r) (dr_split_id r) (dr_name r)
                   (dr_classification r) (dr_filename r)
                   (dr_short_description r) pages
                   (dr_start_page r) (dr_end_page r) in
      scanDocuments st' db (docs ++ [doc]) rest
  end.

(** [func (r *SplitRepositorySQL) getDocuments(ctx, splitID)] *)
Definition getDocuments (st : Store) (db : DB) (splitID : string)
  : Store * list Document.t :=
  scanDocuments st db []
    (sql_OrderBy dr_start_page
       (filter (fun r => String.eqb (dr_split_id r) splitID) (documents db))).

(** [func (r *SplitRepositorySQL) Get(ctx, id)]: [None] is the
    [nil, nil] returned when no row has the id. *)
Definition Get (st : Store) (db : DB) (id : string) : Store * option Split.t :=
  match filter (fun r => String.eqb (sr_id r) id) (splits db) with
  | [] => (st, None)
  | r :: _ =>
      let '(st1, documents) := getDocuments st db id in
      let '(st2, unassignedPages) := getUnassignedPages st1 db id in
      (st2, Some (Split.mk (sr_id r) (sr_client_id r) (sr_status r) documents
                    unassignedPages (sr_created_at r) (sr_updated_at r) None))
  end.

End Repository.

(** The first statement of [Save]: on conflict [created_at] is kept. *)
Definition save_split_row (split : Split.t) (db : DB) : DB :=
  mkDB (upsert sr_id
          (fun old new => mkSplitRow (sr_id old) (sr_client_id new)
                            (sr_status new) (sr_created_at old) (sr_updated_at new))
          (mkSplitRow (Split.ID split) (Split.ClientID split) (Split.Status split)
             (Split.CreatedAt split) (Split.UpdatedAt split))
          (splits db))
       (documents db) (pages db).

(** One turn of the loop over [toDeleteDocIDs]. *)
Definition delete_document (id : string) (db : DB) : DB :=
  mkDB (splits db)
       (delete_where (fun r => String.eqb (dr_id r) id) (documents db))
       (delete_where (fun r => opt_eqb (pr_document_id r) id) (pages db)).

(** "Delete documents not present in split.Documents". *)
Definition delete_absent_documents (split : Split.t) (db : DB) : DB :=
  let docIDs := map Document.ID (Split.Documents split) in
  let rows := filter (fun r => String.eqb (dr_split_id r) (Split.ID split))
                (documents db) in
  let toDeleteDocIDs :=
    filter (fun id => negb (mem_string id docIDs)) (map dr_id rows) in
  fold_left (fun db id => delete_document id db) toDeleteDocIDs db.

(** One turn of the loop over [toDeletePageIDs]. *)
Definition delete_page (id : string) (db : DB) : DB :=
  mkDB (splits db) (documents db)
       (delete_where (fun r => String.eqb (pr_id r) id) (pages db)).

(** "Delete pages not present in split.Documents or split.UnassignedPages". *)
Definition delete_absent_pages (h : Heap) (split : Split.t) (db : DB) : DB :=
  let pageIDs :=
    map (fun p => Page.ID (h p))
      (List.concat (map Document.Pages (Split.Documents split))
       ++ Split.UnassignedPages split) in
  let rows := filter (fun r => String.eqb (pr_split_id r) (Split.ID split))
                (pages db) in
  let toDeletePageIDs :=
    filter (fun id => negb (mem_string id pageIDs)) (map pr_id rows) in
  fold_left (fun db id => delete_page id db) toDeletePageIDs db.

(** The values bound to the page upsert. *)
Definition page_row (h : Heap) (document_id : option string) (page : addr)
  : PageRow :=
  mkPageRow (Page.ID (h page)) (Page.SplitID (h page)) document_id
    (Page.PageNumber (h page)) (Page.URL (h page)).

(** The values bound to the document upsert. *)
Definition document_row (doc : Document.t) : DocumentRow :=
  mkDocumentRow (Document.ID doc) (Document.SplitID doc) (Document.Name doc)
    (Document.Classification doc) (Document.Filename doc)
    (Document.ShortDescription doc) (Document.StartPage doc)
    (Document.EndPage doc).

(** The page upsert: on conflict every column is taken from the new row. *)
Definition save_page_row (h : Heap) (document_id : option string) (db : DB)
  (page : addr) : DB :=
  mkDB (splits db) (documents db)
       (upsert pr_id (fun _ new => new) (page_row h document_id page) (pages db)).

(** One turn of "Save documents": the document row (on conflict every
    column from the new row), then its pages with [document_id] bound to
    [doc.ID]. *)
Definition save_document (h : Heap) (db : DB) (doc : Document.t) : DB :=
  let db :=
    mkDB (splits db)
         (upsert dr_id (fun _ new => new) (document_row doc) (documents db))
         (pages db) in
  fold_left (save_page_row h (Some (Document.ID doc))) (Document.Pages doc) db.

(** [func (r *SplitRepositorySQL) Save(ctx, split) error].  The only errors
    [Save] returns are those of the driver, which the model leaves out: the
    result is the store after the last statement. *)
Definition Save (h : Heap) (db : DB) (split : Split.t) : DB :=
  let db := save_split_row split db in
  let db := delete_absent_documents split db in
  let db := delete_absent_pages h split db in
  let db := fold_left (save_document h) (Split.Documents split) db in
  fold_left (save_page_row h None) (Split.UnassignedPages split) db.

(* ================================================================== *)
(** * A concrete library, for running the model                         *)
(* ================================================================== *)

(** [insertionSortCmpFunc] of package [slices]: what [slices.SortFunc] runs
    on a slice of at most 12 elements.  [insert_back cmp x l] moves [x],
    appended after the sorted [l], towards the front while
    [cmp(x, previous) < 0]. *)
Fixpoint insert_back (A : Type) (cmp : A -> A -> Z) (x : A) (rev_sorted : list A)
  : list A :=
  match rev_sorted with
  | [] => [x]
  | y :: t => if cmp x y <? 0 then y :: insert_back cmp x t else x :: y :: t
  end.

(** The sorted prefix is kept reversed (its last element first). *)
Definition insertionSort (A : Type) (cmp : A -> A -> Z) (l : list A) : list A :=
  rev (fold_left (fun acc x => insert_back cmp x acc) l []).

(** Reading of a decimal digit string, most significant digit first. *)
Fixpoint digits_value (acc : Z) (s : string) : option Z :=
  match s with
  | EmptyString => Some acc
  | String c t =>
      let n := Z.of_nat (nat_of_ascii c) in
      if (48 <=? n) && (n <=? 57) then digits_value (10 * acc + (n - 48)) t
      else None
  end.

Fixpoint take_digits (s : string) : string * string :=
  match s with
  | EmptyString => (EmptyString, EmptyString)
  | String c t =>
      let n := Z.of_nat (nat_of_ascii c) in
      if (48 <=? n) && (n <=? 57)
      then let '(d, r) := take_digits t in (String c d, r)
      else (EmptyString, s)
  end.

Definition strip_prefix (p s : string) : option string :=
  if String.prefix p s
  then Some (String.substring (String.length p) (String.length s - String.length p) s)
  else None.

(** [fmt.Sscanf(url, "page_%d.png", &n)] on the inputs where the text after
    [page_] is an optional sign and a run of decimal digits: the literal
    text must match, the number must fit in 64 bits, nothing is required
    after [.png].  (The scanner also skips blanks before the number; an
    input with such blanks is answered [None] here, and none of the
    examples has one.) *)
Definition Sscanf_page (url : string) : option Z :=
  match strip_prefix "page_" url with
  | None => None
  | Some rest =>
      let '(neg, rest) :=
        match rest with
        | String "-"%char t => (true, t)
        | String "+"%char t => (false, t)
        | _ => (false, rest)
        end in
      let '(ds, rest) := take_digits rest in
      match ds with
      | EmptyString => None
      | _ =>
          match digits_value 0 ds, strip_prefix ".png" rest with
          | Some v, Some _ =>
              let n := if neg then - v else v in
              if (- 2 ^ 63 <=? n) && (n <? 2 ^ 63) then Some n else None
          | _, _ => None
          end
      end
  end.

(** Identifiers for the examples: the decimal numeral of the draw. *)
Definition uuid_example (n : nat) : string :=
  "id-" ++ NilEmpty.string_of_uint (Nat.to_uint n).

(** The library used to run examples; the JSON decoder is given per
    example as the decoded value of the one text the example uses, and
    [ORDER BY] leaves rows with equal texts in rowid order. *)
Definition exampleLib (decode : string -> option splitData) : GoLib :=
  {| slices_SortFunc := insertionSort;
     fmt_Sscanf_page := Sscanf_page;
     uuid_New := uuid_example;
     json_Unmarshal := decode;
     sql_OrderBy := fun R col =>
       insertionSort (fun a b => match String.compare (col a) (col b) with
                                 | Lt => -1 | Eq => 0 | Gt => 1 end) |}.

(** A heap whose cells hold nothing of interest yet. *)
Definition emptyHeap : Heap := fun _ => Page.mk "" "" None 0 "".
Definition emptyStore : Store := mkStore emptyHeap 0%nat 0%nat.

(* ================================================================== *)
(** * Single ownership and sequences of mutations                      *)
(* ================================================================== *)

(** Every place of the aggregate a page can be in: the page lists of the
    documents, in order, then the unassigned pool. *)
Definition all_pages (s : Split.t) : list addr :=
  List.concat (map Document.Pages (Split.Documents s)) ++ Split.UnassignedPages s.

Definition page_IDs (h : Heap) (l : list addr) : list string :=
  map (fun p => Page.ID (h p)) l.

(** Single ownership: no page ID occurs twice over all these places. *)
Definition SingleOwnership (h : Heap) (s : Split.t) : Prop :=
  NoDup (page_IDs h (all_pages s)).

(** The five mutation methods of [Split], as calls. *)
Inductive Op : Type :=
| CallAddDocument (doc : Document.t)
| CallRemoveDocument (docID : string)
| CallMovePages (fromDocID toDocID : string) (pageIDs : list string)
| CallUpdateDocumentMetadata (docID : string) (meta : Document.Metadata)
| CallFinalize (finalizedAt : Time).

(** One call: the heap and the split it leaves, whether it failed or not. *)
Definition step {L : GoLib} (st : Heap * Split.t) (op : Op) : Heap * Split.t :=
  let '(h, s) := st in
  match op with
  | CallAddDocument doc => (h, fst (Split.AddDocument h s doc))
  | CallRemoveDocument docID => fst (Split.RemoveDocument h s docID)
  | CallMovePages from to pageIDs => fst (Split.MovePages h s from to pageIDs)
  | CallUpdateDocumentMetadata docID meta =>
      (h, fst (Split.UpdateDocumentMetadata s docID meta))
  | CallFinalize finalizedAt => (h, fst (Split.Finalize h s finalizedAt))
  end.

(** The states after each call of a sequence. *)
Fixpoint trace {L : GoLib} (st : Heap * Split.t) (ops : list Op)
  : list (Heap * Split.t) :=
  match ops with
  | [] => []
  | op :: rest => let st' := step st op in st' :: trace st' rest
  end.

(** A document brings new pages: its page IDs are pairwise distinct and
    none is the ID of a page of the split. *)
Definition BringsNewPages (h : Heap) (s : Split.t) (doc : Document.t) : Prop :=
  NoDup (page_IDs h (all_pages s ++ Document.Pages doc)).

(** Every document handed to [AddDocument] along the sequence brings new
    pages when it is handed over. *)
Fixpoint AddsNewPages {L : GoLib} (st : Heap * Split.t) (ops : list Op) : Prop :=
  match ops with
  | [] => True
  | op :: rest =>
      match op with
      | CallAddDocument doc => BringsNewPages (fst st) (snd st) doc
      | _ => True
      end
      /\ AddsNewPages (step st op) rest
  end.


(** Two pages that differ at most in their [DocumentID]: no method of the
    aggregate changes anything else of a page. *)
Definition same_but_DocumentID (p q : Page.t) : Prop :=
  Page.ID p = Page.ID q /\ Page.SplitID p = Page.SplitID q
  /\ Page.PageNumber p = Page.PageNumber q /\ Page.URL p = Page.URL q.

Definition heap_same_but_DocumentID (h h' : Heap) : Prop :=
  forall a, same_but_DocumentID (h a) (h' a).

(** The heap after [AssignToDocument] has succeeded on each page of a list. *)
Definition assignAll (docID : string) (pages : list addr) (h : Heap) : Heap :=
  fold_left (fun h p => upd h p (Page.set_DocumentID (h p) (Some docID))) pages h.

(** How many pages of a list have a given ID. *)
Definition occ (h : Heap) (l : list addr) (x : string) : nat :=
  count_occ string_dec (page_IDs h l) x.

(** The pages of a list of documents, in order. *)
Definition docs_pages (ds : list Document.t) : list addr :=
  List.concat (map Document.Pages ds).

(** Two documents that differ at most in their pages and bounds. *)
Definition SameMetadata (d d' : Document.t) : Prop :=
  Document.ID d = Document.ID d' /\ Document.SplitID d = Document.SplitID d'
  /\ Document.Name d = Document.Name d'
  /\ Document.Classification d = Document.Classification d'
  /\ Document.Filename d = Document.Filename d'
  /\ Document.ShortDescription d = Document.ShortDescription d'.

(** The page upserts of [Save], in the order they are run: the pages of
    each document with the ID of the document, then the unassigned pages
    with [NULL]. *)
Definition page_writes (s : Split.t) : list (option string * addr) :=
  flat_map (fun d => map (pair (Some (Document.ID d))) (Document.Pages d))
    (Split.Documents s)
  ++ map (pair None) (Split.UnassignedPages s).

(** The page [Scan] fills from a row of [getPages] or
    [getUnassignedPages]. *)
Definition page_of_row (r : PageRow) : Page.t :=
  Page.mk (pr_id r) (pr_split_id r) None (pr_page_number r) (pr_url r).

(** The store when [Save] has run its two reconciliation deletes, before
    its upserts of documents and pages. *)
Definition reconciled (h : Heap) (db : DB) (s : Split.t) : DB :=
  delete_absent_pages h s (delete_absent_documents s (save_split_row s db)).

(* ================================================================== *)
(** * The rest of the domain package and of the repository             *)
(* ================================================================== *)

(** [var ErrNotFound = errors.New("not found")] of [common.go]. *)
Definition ErrNotFound : error := Errorf "not found" None.

(** [func (p *Page) UnassignFromDocument() error] *)
Definition UnassignFromDocument (h : Heap) (p : addr) : Heap * option error :=
  (upd h p (Page.set_DocumentID (h p) None), None).

(** [page.SplitID = splitID] *)
Definition set_page_SplitID (splitID : string) (h : Heap) (p : addr) : Heap :=
  upd h p (Page.mk (Page.ID (h p)) splitID (Page.DocumentID (h p))
             (Page.PageNumber (h p)) (Page.URL (h p))).

(** [func (d *Document) AssignToSplit(splitID string) error] *)
Definition AssignToSplit (h : Heap) (d : Document.t) (splitID : string)
  : Heap * Document.t * option error :=
  if negb (String.eqb (Document.SplitID d) "")
     && negb (String.eqb (Document.SplitID d) splitID)
  then (h, d, Some (NewConflictError
                      "document is already assigned to a different split" None))
  else
    (fold_left (set_page_SplitID splitID) (Document.Pages d) h,
     Document.mk (Document.ID d) splitID (Document.Name d)
       (Document.Classification d) (Document.Filename d)
       (Document.ShortDescription d) (Document.Pages d)
       (Document.StartPage d) (Document.EndPage d),
     None).

(** [func (s *Split) findDoc(fromDocID string)]: the index of the document
    the returned pointer points to. *)
Definition findDoc (s : Split.t) (fromDocID : string) : result nat :=
  match find_first (fun d => String.eqb (Document.ID d) fromDocID)
          (Split.Documents s) with
  | Some i => Ok i
  | None =>
      Err (Errorf ("document " ++ fromDocID ++ " not found in split " ++ Split.ID s)
             None)
  end.

(** [func (r *SplitRepositorySQL) Delete(ctx, id) error]: pages, then
    documents, then the split. *)
Definition Delete (db : DB) (id : string) : DB :=
  mkDB (delete_where (fun r => String.eqb (sr_id r) id) (splits db))
       (delete_where (fun r => String.eqb (dr_split_id r) id) (documents db))
       (delete_where (fun r => String.eqb (pr_split_id r) id) (pages db)).

(** [func (r *SplitRepositorySQL) GetSplitIDByDocumentID(ctx, documentID)]:
    on [sql.ErrNoRows] an error made by [fmt.Errorf] without [%w]. *)
Definition GetSplitIDByDocumentID (db : DB) (documentID : string) : result string :=
  match filter (fun r => String.eqb (dr_id r) documentID) (documents db) with
  | r :: _ => Ok (dr_split_id r)
  | [] => Err (Errorf ("document " ++ documentID ++ " not found") None)
  end.

(** [errors.Is(err, target)] for the errors of this program: [target] is
    met on the [Unwrap] chain.  Two errors are the same when they are built
    the same way (every [errors.New] and [fmt.Errorf] of the program has a
    text of its own). *)
Fixpoint error_eqb (a b : error) : bool :=
  match a, b with
  | DomainError k m c, DomainError k' m' c' =>
      String.eqb k k' && String.eqb m m'
      && match c, c' with
         | Some x, Some y => error_eqb x y
         | None, None => true
         | _, _ => false
         end
  | Errorf t w, Errorf t' w' =>
      String.eqb t t'
      && match w, w' with
         | Some x, Some y => error_eqb x y
         | None, None => true
         | _, _ => false
         end
  | _, _ => false
  end.

Fixpoint errors_Is (err target : error) : bool :=
  error_eqb err target
  || match err with
     | DomainError _ _ (Some c) => errors_Is c target
     | Errorf _ (Some w) => errors_Is w target
     | _ => false
     end.

(* ================================================================== *)
(** * What the methods establish                                       *)
(* ================================================================== *)

(** Pages in the order of their page numbers, equal numbers allowed. *)
Definition InOrder (h : Heap) (ps : list addr) : Prop :=
  StronglySorted (fun a b => Page.PageNumber (h a) <= Page.PageNumber (h b)) ps.

(** The bounds of a document are those of its page list: the URLs of the
    first and of the last page, empty when there is no page. *)
Definition BoundsOf (h : Heap) (d : Document.t) : Prop :=
  match Document.Pages d with
  | [] => Document.StartPage d = "" /\ Document.EndPage d = ""
  | first :: _ =>
      Document.StartPage d = Page.URL (h first)
      /\ Document.EndPage d = Page.URL (h (last (Document.Pages d) first))
  end.

(** The error a call returns ([step] gives the state it leaves). *)
Definition outcome {L : GoLib} (st : Heap * Split.t) (op : Op) : option error :=
  let '(h, s) := st in
  match op with
  | CallAddDocument doc => snd (Split.AddDocument h s doc)
  | CallRemoveDocument docID => snd (Split.RemoveDocument h s docID)
  | CallMovePages from to pageIDs => snd (Split.MovePages h s from to pageIDs)
  | CallUpdateDocumentMetadata docID meta =>
      snd (Split.UpdateDocumentMetadata s docID meta)
  | CallFinalize finalizedAt => snd (Split.Finalize h s finalizedAt)
  end.

(** The fields of a split no method is meant to write. *)
Definition SameIdentity (s s' : Split.t) : Prop :=
  Split.ID s' = Split.ID s /\ Split.ClientID s' = Split.ClientID s
  /\ Split.CreatedAt s' = Split.CreatedAt s
  /\ Split.UpdatedAt s' = Split.UpdatedAt s.

Definition doc_IDs (s : Split.t) : list string :=
  map Document.ID (Split.Documents s).

(** A page as [NewPage] makes it from a URL: unassigned, of the given
    split, with the number scanned from the URL. *)
Definition PageFromURL {L : GoLib} (h : Heap) (splitID url : string) (a : addr)
  : Prop :=
  Page.SplitID (h a) = splitID
  /\ Page.DocumentID (h a) = None
  /\ Page.URL (h a) = url
  /\ fmt_Sscanf_page url = Some (Page.PageNumber (h a))
  /\ Page.Valid (h a) = None.

(** A document as [NewSplit] makes it from an entry of the JSON: the
    strings of the entry, one page per URL, in the order of the page
    numbers, with the bounds derived from them. *)
Definition DocFromData {L : GoLib} (h : Heap) (splitID : string) (dd : docData)
  (d : Document.t) : Prop :=
  Document.ID d = dd_ID dd
  /\ Document.SplitID d = splitID
  /\ Document.Name d = dd_Name dd
  /\ Document.Classification d = dd_Classification dd
  /\ Document.Filename d = dd_Filename dd
  /\ Document.ShortDescription d = dd_ShortDescription dd
  /\ (exists ps, Forall2 (PageFromURL h splitID) (dd_PageURLs dd) ps
                 /\ Permutation (Document.Pages d) ps)
  /\ InOrder h (Document.Pages d)
  /\ BoundsOf h d
  /\ Document.Valid h d = None.

(** Rows written one after the other by an upsert that takes every column
    from the new row: each replaces the row of its key or goes to the end. *)
Definition upserts (R : Type) (key : R -> string) (ws rows : list R) : list R :=
  fold_left (fun rows w => upsert key (fun _ n => n) w rows) ws rows.

(** The IDs the first reconciliation loop of [Save] collects. *)
Definition toDeleteDocIDs (s : Split.t) (db : DB) : list string :=
  filter (fun id => negb (mem_string id (doc_IDs s)))
    (map dr_id (filter (fun r => String.eqb (dr_split_id r) (Split.ID s))
                  (documents db))).

(** The IDs the second reconciliation loop of [Save] collects, from the
    pages table the first loop has left. *)
Definition toDeletePageIDs (h : Heap) (s : Split.t) (rows : list PageRow)
  : list string :=
  filter (fun id => negb (mem_string id (page_IDs h (all_pages s))))
    (map pr_id (filter (fun r => String.eqb (pr_split_id r) (Split.ID s)) rows)).

(** The rows [Save] binds to its page upserts, in the order it runs them. *)
Definition page_rows (h : Heap) (s : Split.t) : list PageRow :=
  map (fun w => page_row h (fst w) (snd w)) (page_writes s).

(** A document as [getDocuments] loads it from a row: the columns of the
    row, and one page per row of [pages] whose [document_id] is its ID, in
    the order of the query of [getPages]. *)
Definition DocLoaded {L : GoLib} (db : DB) (h : Heap) (r : DocumentRow)
  (d : Document.t) : Prop :=
  Document.set_Pages d []
  = Document.mk (dr_id r) (dr_split_id r) (dr_name r) (dr_classification r)
      (dr_filename r) (dr_short_description r) [] (dr_start_page r)
      (dr_end_page r)
  /\ map h (Document.Pages d)
     = map page_of_row
         (sql_OrderBy page_number_text
            (filter (fun p => opt_eqb (pr_document_id p) (dr_id r)) (pages db))).

(** What [Get] can give back of a page that was saved: every field but
    [DocumentID], which no query reads. *)
Definition stored_page (p : Page.t) : Page.t := Page.set_DocumentID p None.

(** A loaded document [d'] is the saved document [d]: the same strings
    and bounds, and the same pages up to their order and [DocumentID]. *)
Definition SameDocument (h h' : Heap) (d d' : Document.t) : Prop :=
  Document.set_Pages d' [] = Document.set_Pages d []
  /\ Permutation (map h' (Document.Pages d'))
       (map (fun p => stored_page (h p)) (Document.Pages d)).

(* ================================================================== *)
(** * services/split_service.go                                        *)
(* ================================================================== *)

(** The service methods open a unit of work on the store, call the
    repository and the aggregate, and commit on success; on every error
    they return before [Commit] and the deferred [Rollback] leaves the
    store as it was.  A method is a function of the store of page objects
    and of the committed database; it returns both and its result.  The
    errors of the unit of work itself (factory, commit) are errors of the
    driver and are left out, as for [Save]. *)
Module SplitService.

Record PageResponse : Type := mkPageResponse {
pg_ID : string;
pg_PageNumber : string;
pg_URL : string
}.

Record DocumentResponse : Type := mkDocumentResponse {
doc_ID : string;
doc_SplitID : string;
doc_Name : string;
doc_Classification : string;
doc_Filename : string;
doc_ShortDescription : string;
doc_StartPage : string;
doc_EndPage : string;
doc_Pages : list PageResponse
}.

Record LoadSplitResponse : Type := mkLoadSplitResponse {
ls_ID : string;
ls_ClientID : string;
ls_Status : SplitStatus;
ls_Documents : list DocumentResponse;
ls_UnassignedPages : list PageResponse
}.

Record MovePagesRequest : Type := mkMovePagesRequest {
mp_SplitID : string;
mp_FromDocumentID : string;
mp_ToDocumentID : string;
mp_PageIDs : list string
}.

Record MovePagesResponse : Type := mkMovePagesResponse {
mp_FromDocument : DocumentResponse;
mp_ToDocument : DocumentResponse
}.

Record CreateDocumentRequest : Type := mkCreateDocumentRequest {
cd_SplitID : string;
cd_Name : string;
cd_Classification : string;
cd_Filename : string;
cd_ShortDescription : string;
cd_PageIDs : list string
}.

(** [strconv.Itoa(n)] and [fmt.Sprintf("%d", n)]. *)
Definition Itoa (n : Z) : string := NilZero.string_of_int (Z.to_int n).

(** [func convertPageToResponse(page *domain.Page) *PageResponse]: the URL
  is not copied. *)
Definition convertPageToResponse (h : Heap) (page : addr) : PageResponse :=
mkPageResponse (Page.ID (h page)) (Itoa (Page.PageNumber (h page))) "".

(** [func convertDocumentToResponse(doc *domain.Document) *DocumentResponse] *)
Definition convertDocumentToResponse (h : Heap) (doc : Document.t)
: DocumentResponse :=
mkDocumentResponse (Document.ID doc) (Document.SplitID doc) (Document.Name doc)
  (Document.Classification doc) (Document.Filename doc)
  (Document.ShortDescription doc) (Document.StartPage doc)
  (Document.EndPage doc)
  (map (fun page => mkPageResponse (Page.ID (h page))
                      (Itoa (Page.PageNumber (h page))) (Page.URL (h page)))
     (Document.Pages doc)).

(** The store of page objects after the aggregate has written its pages. *)
Definition with_cells (st : Store) (h : Heap) : Store :=
mkStore h (next st) (drawn st).

Section WithLib.
Context {L : GoLib}.

(** [func (s *SplitService) LoadSplit(ctx, id)] *)
Definition LoadSplit (st : Store) (db : DB) (id : string)
: Store * DB * result LoadSplitResponse :=
match Get st db id with
| (st1, None) => (st1, db, Err ErrNotFound)
| (st1, Some split) =>
  (st1, db,
   Ok (mkLoadSplitResponse (Split.ID split) (Split.ClientID split)
         (Split.Status split)
         (map (convertDocumentToResponse (cells st1)) (Split.Documents split))
         (map (convertPageToResponse (cells st1))
            (Split.UnassignedPages split))))
end.

(** [func (s *SplitService) UpdateDocumentMetadata(ctx, id, req)]; the
request has the three optional strings of [DocumentMetadata]. *)
Definition UpdateDocumentMetadata (st : Store) (db : DB) (id : string)
(req : Document.Metadata) : Store * DB * result DocumentResponse :=
match GetSplitIDByDocumentID db id with
| Err err => (st, db, Err err)
| Ok splitID =>
  if String.eqb splitID "" then (st, db, Err ErrNotFound)
  else
    match Get st db splitID with
    | (st1, None) => (st1, db, Err ErrNotFound)
    | (st1, Some split) =>
        let metadata :=
          Document.mkMetadata (Document.mName req)
            (Document.mClassification req) (Document.mShortDescription req) in
        match Split.UpdateDocumentMetadata split id metadata with
        | (_, Some err) => (st1, db, Err err)
        | (split, None) =>
            let db := Save (cells st1) db split in
            match find (fun doc => String.eqb (Document.ID doc) id)
                    (Split.Documents split) with
            | Some doc =>
                (st1, db, Ok (convertDocumentToResponse (cells st1) doc))
            | None => (st1, db, Err ErrNotFound)
            end
        end
    end
end.

(** The loop "Find the updated documents" of [MovePages], which keeps the
address of its loop variable [doc].  From Go 1.22 on each turn has a
variable of its own and the two pointers hold the last document of
each ID; before, the loop has one variable and both pointers hold what
the last turn left in it, the last document of the list.  The language
version is that of the module file, which is not among the sources:
[per_iteration] says which of the two holds. *)
Definition found_documents (per_iteration : bool) (docs : list Document.t)
(fromID toID : string) : option Document.t * option Document.t :=
let last_of id :=
match find_last (fun doc => String.eqb (Document.ID doc) id) docs with
| Some i => nth_error docs i
| None => None
end in
if per_iteration then (last_of fromID, last_of toID)
else
let shared := nth_error docs (List.length docs - 1) in
(match last_of fromID with Some _ => shared | None => None end,
 match last_of toID with Some _ => shared | None => None end).

(** [func (s *SplitService) MovePages(ctx, req)] *)
Definition MovePages (per_iteration : bool) (st : Store) (db : DB)
(req : MovePagesRequest) : Store * DB * result MovePagesResponse :=
match Get st db (mp_SplitID req) with
| (st1, None) => (st1, db, Err ErrNotFound)
| (st1, Some split) =>
  match Split.MovePages (cells st1) split (mp_FromDocumentID req)
          (mp_ToDocumentID req) (mp_PageIDs req) with
  | (h, _, Some err) => (with_cells st1 h, db, Err err)
  | (h, split, None) =>
      let db := Save h db split in
      match found_documents per_iteration (Split.Documents split)
              (mp_FromDocumentID req) (mp_ToDocumentID req) with
      | (Some fromDoc, Some toDoc) =>
          (with_cells st1 h, db,
           Ok (mkMovePagesResponse (convertDocumentToResponse h fromDoc)
                 (convertDocumentToResponse h toDoc)))
      | _ => (with_cells st1 h, db, Err ErrNotFound)
      end
  end
end.

(** [func (s *SplitService) CreateDocument(ctx, req)] *)
Definition CreateDocument (st : Store) (db : DB) (req : CreateDocumentRequest)
: Store * DB * result DocumentResponse :=
match Get st db (cd_SplitID req) with
| (st1, None) => (st1, db, Err ErrNotFound)
| (st1, Some split) =>
  let docID := uuid_New (drawn st1) in
  let st2 := mkStore (cells st1) (next st1) (S (drawn st1)) in
  let h := cells st1 in
  let pages :=
    filter (fun page => mem_string (Page.ID (h page)) (cd_PageIDs req))
      (Split.UnassignedPages split) in
  let remainingUnassigned :=
    filter (fun page => negb (mem_string (Page.ID (h page)) (cd_PageIDs req)))
      (Split.UnassignedPages split) in
  match pages with
  | [] =>
      (st2, db,
       Err (NewValidationError "no valid pages specified for new document"
              None))
  | _ :: _ =>
      let split :=
        Split.mk (Split.ID split) (Split.ClientID split) (Split.Status split)
          (Split.Documents split) remainingUnassigned (Split.CreatedAt split)
          (Split.UpdatedAt split) (Split.FinalizedAt split) in
      let doc :=
        Document.mk docID (cd_SplitID req) (cd_Name req)
          (cd_Classification req) (cd_Filename req)
          (cd_ShortDescription req) pages "" "" in
      match Split.AddDocument h split doc with
      | (_, Some err) => (st2, db, Err err)
      | (split, None) =>
          (st2, Save h db split, Ok (convertDocumentToResponse h doc))
      end
  end
end.

(** [func (s *SplitService) DeleteDocument(ctx, id) error] *)
Definition DeleteDocument (st : Store) (db : DB) (id : string)
: Store * DB * option error :=
match GetSplitIDByDocumentID db id with
| Err getByErr => (st, db, Some getByErr)
| Ok splitID =>
  if String.eqb splitID "" then (st, db, Some ErrNotFound)
  else
    match Get st db splitID with
    | (st1, None) => (st1, db, Some ErrNotFound)
    | (st1, Some split) =>
        match Split.RemoveDocument (cells st1) split id with
        | (h, _, Some remErr) => (with_cells st1 h, db, Some remErr)
        | (h, split, None) => (with_cells st1 h, Save h db split, None)
        end
    end
end.

(** [func (s *SplitService) FinalizeSplit(ctx, id) error]; [now] is the
reading of [time.Now()]. *)
Definition FinalizeSplit (st : Store) (db : DB) (id : string) (now : Time)
: Store * DB * option error :=
match Get st db id with
| (st1, None) => (st1, db, Some ErrNotFound)
| (st1, Some split) =>
  match Split.Finalize (cells st1) split now with
  | (_, Some err) => (st1, db, Some err)
  | (split, None) => (st1, Save (cells st1) db split, None)
  end
end.

End WithLib.

End SplitService.

(* ================================================================== *)
(** * Example aggregates                                               *)
(* ================================================================== *)

(** The decoded form of the scenario of the specification: one document
    [d1] with the pages [page_1.png] and [page_2.png]. *)
Definition w2_data : splitData :=
  mkSplitData "s1" "c1" "draft"
    [mkDocData "d1" "W-2" "w2.pdf" "W2" "" ["page_1.png"; "page_2.png"]].

Definition w2_lib : GoLib := exampleLib (fun _ => Some w2_data).

(** Two documents as the tests of [MovePages] build them: [doc1] with the
    pages 1, 2, 3 at the addresses 0, 1, 2 and [doc2] with the pages 4, 5 at
    the addresses 3, 4, all unassigned. *)
Definition page_n (n : Z) (id url : string) : Page.t :=
  Page.mk id "split123" None n url.

Definition two_docs_heap : Heap := fun a =>
  match a with
  | 0%nat => page_n 1 "p1" "page_1.png"
  | 1%nat => page_n 2 "p2" "page_2.png"
  | 2%nat => page_n 3 "p3" "page_3.png"
  | 3%nat => page_n 4 "p4" "page_4.png"
  | 4%nat => page_n 5 "p5" "page_5.png"
  | _ => Page.mk "" "" None 0 ""
  end.

Definition test_doc (id : string) (pages : list addr) (s e : string) : Document.t :=
  Document.mk id "split123" "Test Document" "W-2" "test.pdf" "Test Description"
    pages s e.

Definition two_docs_split (status : SplitStatus) : Split.t :=
  Split.mk "split123" "client456" status
    [test_doc "doc1" [0; 1; 2]%nat "page_1.png" "page_3.png";
     test_doc "doc2" [3; 4]%nat "page_4.png" "page_5.png"]
    [] 100 100 None.

(** A store where nothing has been allocated by the program yet and whose
    cells hold the pages above: what a caller holds before [NewSplit]. *)
Definition callerStore : Store := mkStore two_docs_heap 0%nat 0%nat.




(** The split of the test "cannot finalize split with unassigned pages". *)
Definition unassigned_split : Split.t :=
  Split.mk "split123" "client456" SplitStatusDraft [] [0; 1]%nat 100 100 None.

(** The heap above with the page at address 2 assigned to some document. *)
Definition assigned_heap : Heap :=
  upd two_docs_heap 2%nat (Page.set_DocumentID (two_docs_heap 2%nat) (Some "other")).

(** The heap above as a store in which its five pages are allocated. *)
Definition two_docs_store : Store := mkStore two_docs_heap 5%nat 0%nat.

(** One document whose pages are the pages 2 and 10 of the bundle. *)
Definition ten_data : splitData :=
  mkSplitData "s1" "c1" "draft"
    [mkDocData "d1" "W-2" "w2.pdf" "W2" "" ["page_2.png"; "page_10.png"]].

Definition ten_lib : GoLib := exampleLib (fun _ => Some ten_data).

(** A store that already holds the split of another client: one document
    of one page, and one unassigned page. *)
Definition other_db : DB :=
  mkDB [mkSplitRow "other" "client9" "draft" 5 6]
       [mkDocumentRow "od1" "other" "Other" "1099" "o.pdf" "" "page_7.png"
          "page_7.png"]
       [mkPageRow "op1" "other" (Some "od1") 7 "page_7.png";
        mkPageRow "op2" "other" None 8 "page_8.png"].

(** The same store after the split of the tests has been saved into it. *)
Definition saved_db : DB :=
  Save two_docs_heap other_db (two_docs_split SplitStatusDraft).

(** The split of the tests with [doc1] holding the pages 1 and 2 only and
    the page 3 in the unassigned pool, and the store it is saved in. *)
Definition pool_split : Split.t :=
  Split.mk "split123" "client456" SplitStatusDraft
    [test_doc "doc1" [0; 1]%nat "page_1.png" "page_2.png"]
    [2%nat] 100 100 None.

Definition pool_db : DB := Save two_docs_heap other_db pool_split.

(** The store in which the split of the tests is saved as finalized. *)
Definition finalized_db : DB :=
  Save two_docs_heap other_db (two_docs_split SplitStatusFinalized).

Definition new_document_request : SplitService.CreateDocumentRequest :=
  SplitService.mkCreateDocumentRequest "split123" "New" "W-2" "n.pdf" ""
    ["p3"; "p1"].
(* ================================================================== *)
(** * Properties of the aggregate                                      *)
(* ================================================================== *)

Local Open Scope list_scope.

(** ** Finalize *)

(** C2.  [Finalize] fails whenever unassigned pages remain; on a split not
    yet finalized, with no unassigned page and valid, it succeeds, sets the
    status to [finalized] and the finalize timestamp to a non-nil value, and
    leaves everything else as it was; once [Finalize] has succeeded, a
    second call fails, whatever the heap and the time, with an error of
    kind Conflict. *)
Theorem Finalize_gate (h : Heap) (s : Split.t) (finalizedAt : Time) :
  (Split.UnassignedPages s <> [] ->
     exists e, Split.Finalize h s finalizedAt = (s, Some e))
  /\ (Split.Status s <> SplitStatusFinalized ->
      Split.UnassignedPages s = [] ->
      Split.Valid h s = None ->
      Split.Finalize h s finalizedAt =
        (Split.mk (Split.ID s) (Split.ClientID s) SplitStatusFinalized
           (Split.Documents s) (Split.UnassignedPages s) (Split.CreatedAt s)
           (Split.UpdatedAt s) (Some finalizedAt), None))
  /\ (forall s', Split.Finalize h s finalizedAt = (s', None) ->
      Split.Status s' = SplitStatusFinalized
      /\ Split.FinalizedAt s' <> None
      /\ forall h' again, exists e,
           Split.Finalize h' s' again = (s', Some e)
           /\ KindOf e = Some DomainErrorConflict).
Proof.
  unfold Split.Finalize.
  split; [| split].
  - intros Hne.
    destruct (String.eqb (Split.Status s) SplitStatusFinalized); [eauto |].
    destruct (Split.UnassignedPages s); [congruence | eauto].
  - intros Hst Hun Hv.
    apply String.eqb_neq in Hst. rewrite Hst, Hun, Hv. reflexivity.
  - intros s' H.
    destruct (String.eqb (Split.Status s) SplitStatusFinalized); [discriminate |].
    destruct (Split.UnassignedPages s); [| discriminate].
    destruct (Split.Valid h s); [discriminate |].
    inversion H; subst; clear H. cbn.
    repeat split; [discriminate |].
    intros h' again. eexists. split; reflexivity.
Qed.

(** ** Lists, indices and the heap *)

Lemma find_first_None (A : Type) (f : A -> bool) (l : list A) :
  find_first f l = None <-> (forall x, In x l -> f x = false).
Proof.
  induction l as [| x t IH]; cbn.
  - split; [intros _ y [] | reflexivity].
  - destruct (f x) eqn:Hx.
    + split; [discriminate |]. intros H. rewrite (H x) in Hx by auto. discriminate.
    + destruct (find_first f t) eqn:Ht; cbn.
      * split; [discriminate |]. intros H.
        destruct IH as [_ IH]. discriminate IH. auto.
      * split; [| reflexivity]. intros _ y [<- | Hy]; [assumption |].
        apply IH; auto.
Qed.

(** The first index found is where the list splits into a prefix without
    match and a matching element. *)
Lemma find_first_split (A : Type) (f : A -> bool) (l1 l2 : list A) (x : A) :
  (forall y, In y l1 -> f y = false) -> f x = true ->
  find_first f (l1 ++ x :: l2) = Some (List.length l1).
Proof.
  induction l1 as [| y t IH]; cbn; intros Hl1 Hx.
  - now rewrite Hx.
  - rewrite (Hl1 y) by auto. rewrite IH; auto.
Qed.

Lemma find_first_Some (A : Type) (f : A -> bool) (l : list A) (i : nat) :
  find_first f l = Some i ->
  exists l1 x l2, l = l1 ++ x :: l2 /\ List.length l1 = i /\ f x = true
                  /\ (forall y, In y l1 -> f y = false).
Proof.
  revert i. induction l as [| y t IH]; cbn; intros i H; [discriminate |].
  destruct (f y) eqn:Hy.
  - inversion H; subst. exists [], y, t. repeat split; auto. intros ? [].
  - destruct (find_first f t) as [k |] eqn:Ht; [| discriminate].
    cbn in H. inversion H; subst.
    destruct (IH k eq_refl) as (l1 & x & l2 & -> & Hlen & Hx & Hl1).
    exists (y :: l1), x, l2. repeat split; cbn; auto.
    intros z [<- | Hz]; auto.
Qed.

Lemma find_last_Some (A : Type) (f : A -> bool) (l : list A) (i : nat) :
  find_last f l = Some i ->
  exists l1 x l2, l = l1 ++ x :: l2 /\ List.length l1 = i /\ f x = true
                  /\ (forall y, In y l2 -> f y = false).
Proof.
  revert i. induction l as [| y t IH]; cbn; intros i H; [discriminate |].
  destruct (find_last f t) as [k |] eqn:Ht.
  - inversion H; subst.
    destruct (IH k eq_refl) as (l1 & x & l2 & -> & Hlen & Hx & Hl2).
    exists (y :: l1), x, l2. repeat split; cbn; auto.
  - destruct (f y) eqn:Hy; [| discriminate]. inversion H; subst.
    exists [], y, t. repeat split; auto.
    clear - Ht. induction t as [| z t IH]; cbn in *; intros w Hw; [destruct Hw |].
    destruct (find_last f t); [discriminate |].
    destruct (f z) eqn:Hz; [discriminate |].
    destruct Hw as [<- | Hw]; auto.
Qed.

Lemma find_last_split (A : Type) (f : A -> bool) (l1 l2 : list A) (x : A) :
  (forall y, In y l2 -> f y = false) -> f x = true ->
  find_last f (l1 ++ x :: l2) = Some (List.length l1).
Proof.
  intros Hl2 Hx.
  assert (Hn : find_last f l2 = None).
  { clear - Hl2. induction l2 as [| z t IH]; cbn; [reflexivity |].
    rewrite IH by (intros; apply Hl2; cbn; auto).
    rewrite (Hl2 z) by (cbn; auto). reflexivity. }
  induction l1 as [| y t IH]; cbn.
  - now rewrite Hn, Hx.
  - now rewrite IH.
Qed.

Lemma nth_error_middle (A : Type) (l1 l2 : list A) (x : A) :
  nth_error (l1 ++ x :: l2) (List.length l1) = Some x.
Proof. induction l1; cbn; auto. Qed.

Lemma set_nth_middle (A : Type) (l1 l2 : list A) (x y : A) :
  set_nth (List.length l1) y (l1 ++ x :: l2) = l1 ++ y :: l2.
Proof. induction l1; cbn; [reflexivity | now f_equal]. Qed.

Lemma firstn_skipn_middle (A : Type) (l1 l2 : list A) (x : A) :
  firstn (List.length l1) (l1 ++ x :: l2)
    ++ skipn (S (List.length l1)) (l1 ++ x :: l2) = l1 ++ l2.
Proof. induction l1; cbn; [reflexivity | now f_equal]. Qed.

Lemma set_Documents_same (s : Split.t) : Split.set_Documents s (Split.Documents s) = s.
Proof. now destruct s. Qed.

Lemma upd_same (h : Heap) (a : addr) (p : Page.t) : upd h a p a = p.
Proof. unfold upd. now rewrite Nat.eqb_refl. Qed.

Lemma upd_other (h : Heap) (a b : addr) (p : Page.t) : b <> a -> upd h a p b = h b.
Proof. unfold upd. intros H. apply Nat.eqb_neq in H. now rewrite H. Qed.

(** [Unassign] over a list of pages: the pages of the list lose their
    document, every other cell is untouched. *)
Lemma Unassign_all_notin (l : list addr) (h : Heap) (a : addr) :
  ~ In a l -> fold_left Unassign l h a = h a.
Proof.
  revert h. induction l as [| b t IH]; cbn; intros h Ha; [reflexivity |].
  rewrite IH by tauto. unfold Unassign. apply upd_other. intros ->. tauto.
Qed.

Lemma Unassign_all_in (l : list addr) (h : Heap) (a : addr) :
  In a l -> fold_left Unassign l h a = Page.set_DocumentID (h a) None.
Proof.
  revert h. induction l as [| b t IH]; cbn; intros h Ha; [destruct Ha |].
  destruct (in_dec Nat.eq_dec a t) as [Hin | Hnin].
  - rewrite IH by assumption. unfold Unassign, upd.
    destruct (Nat.eqb a b) eqn:E; [| reflexivity].
    apply Nat.eqb_eq in E. subst. reflexivity.
  - destruct Ha as [-> | Ha]; [| contradiction].
    rewrite Unassign_all_notin by assumption. unfold Unassign. apply upd_same.
Qed.


Lemma heap_same_refl h : heap_same_but_DocumentID h h.
Proof. intros a. repeat split. Qed.

Lemma heap_same_trans h1 h2 h3 :
  heap_same_but_DocumentID h1 h2 -> heap_same_but_DocumentID h2 h3 ->
  heap_same_but_DocumentID h1 h3.
Proof.
  intros H12 H23 a. destruct (H12 a) as (?&?&?&?), (H23 a) as (?&?&?&?).
  repeat split; congruence.
Qed.

Lemma Unassign_same h a : heap_same_but_DocumentID h (Unassign h a).
Proof.
  intros b. unfold Unassign, upd. destruct (Nat.eqb b a) eqn:E.
  - apply Nat.eqb_eq in E; subst. repeat split.
  - repeat split.
Qed.

Lemma Unassign_all_same l h : heap_same_but_DocumentID h (fold_left Unassign l h).
Proof.
  revert h. induction l as [| b t IH]; cbn; intros h; [apply heap_same_refl |].
  eapply heap_same_trans; [apply Unassign_same | apply IH].
Qed.

Lemma AssignToDocument_same h a docID :
  heap_same_but_DocumentID h (fst (AssignToDocument h a docID)).
Proof.
  unfold AssignToDocument. destruct (IsAssigned h a); cbn; [apply heap_same_refl |].
  intros b. unfold upd. destruct (Nat.eqb b a) eqn:E.
  - apply Nat.eqb_eq in E; subst. repeat split.
  - repeat split.
Qed.

Lemma filter_all (A : Type) (f : A -> bool) (l : list A) :
  (forall x, In x l -> f x = true) -> filter f l = l.
Proof.
  induction l as [| x t IH]; cbn; intros H; [reflexivity |].
  rewrite (H x) by auto. f_equal. apply IH. auto.
Qed.

Lemma filter_none (A : Type) (f : A -> bool) (l : list A) :
  (forall x, In x l -> f x = false) -> filter f l = [].
Proof.
  induction l as [| x t IH]; cbn; intros H; [reflexivity |].
  rewrite (H x) by auto. apply IH. auto.
Qed.

Lemma shouldRemove_In (h : Heap) (pageIDs : list string) (p : addr) :
  Document.shouldRemove h pageIDs p = true <-> In (Page.ID (h p)) pageIDs.
Proof.
  unfold Document.shouldRemove. rewrite existsb_exists. split.
  - intros (x & Hx & E). apply String.eqb_eq in E. now subst.
  - intros H. exists (Page.ID (h p)). split; [assumption | apply String.eqb_refl].
Qed.

Lemma shouldRemove_not_In (h : Heap) (pageIDs : list string) (p : addr) :
  Document.shouldRemove h pageIDs p = false <-> ~ In (Page.ID (h p)) pageIDs.
Proof.
  rewrite <- shouldRemove_In. destruct (Document.shouldRemove h pageIDs p); split;
    intros; congruence.
Qed.

(** ** UpdateDocumentMetadata on a finalized split *)

(** On a finalized split [UpdateDocumentMetadata] fails whatever the
    document and the metadata, with an error made by [fmt.Errorf]: no
    [DomainError] is on its chain, so it has no kind at all. *)
Lemma UpdateDocumentMetadata_finalized (s : Split.t) (docID : string)
  (meta : Document.Metadata) :
  Split.Status s = SplitStatusFinalized ->
  exists e, Split.UpdateDocumentMetadata s docID meta = (s, Some e)
            /\ KindOf e = None
            /\ chainHasKind DomainErrorConflict e = false.
Proof.
  intros Hst. unfold Split.UpdateDocumentMetadata.
  rewrite Hst. cbn. eexists. repeat split.
Qed.

(** C6.  On the finalized split of the tests, [UpdateDocumentMetadata]
    returns the plain error of [fmt.Errorf]: [errors.As] finds no
    [DomainError] in it and no Conflict kind is anywhere on its chain,
    where [AddDocument], [RemoveDocument], [MovePages] and [Finalize]
    return a Conflict. *)
Theorem UpdateDocumentMetadata_finalized_not_Conflict :
  let s := two_docs_split SplitStatusFinalized in
  let meta := Document.mkMetadata (Some "Updated Name") None None in
  Split.UpdateDocumentMetadata s "doc1" meta
    = (s, Some (Errorf "cannot update document in finalized split split123" None))
  /\ (forall e, snd (Split.UpdateDocumentMetadata s "doc1" meta) = Some e ->
        KindOf e <> Some DomainErrorConflict)
  /\ (exists e, snd (Split.AddDocument two_docs_heap s
                       (test_doc "doc3" [5%nat] "" "")) = Some e
                /\ KindOf e = Some DomainErrorConflict)
  /\ (exists e, snd (@Split.RemoveDocument w2_lib two_docs_heap s "doc1") = Some e
                /\ KindOf e = Some DomainErrorConflict)
  /\ (exists e, snd (@Split.MovePages w2_lib two_docs_heap s "doc1" "doc2" ["p1"])
                  = Some e
                /\ KindOf e = Some DomainErrorConflict)
  /\ (exists e, snd (Split.Finalize two_docs_heap s 200) = Some e
                /\ KindOf e = Some DomainErrorConflict).
Proof.
  cbv zeta. split; [reflexivity |]. split.
  - intros e H. cbn in H. inversion H; subst. cbn. discriminate.
  - repeat split; eexists; split; reflexivity.
Qed.

(** ** MovePages when no requested page is in the source *)

Section MovePagesUnmatched.
Context {L : GoLib}.

Lemma RemovePages_unmatched (h : Heap) (d : Document.t) (pageIDs : list string) :
  pageIDs <> [] ->
  (forall p, In p (Document.Pages d) -> ~ In (Page.ID (h p)) pageIDs) ->
  Document.RemovePages h d pageIDs =
    (h, d, [], Some (NewNotFoundError
                       "none of the specified pages found in document" None)).
Proof.
  intros Hne Hno. unfold Document.RemovePages.
  destruct pageIDs as [| pid rest]; [congruence |].
  rewrite (filter_none (Document.shouldRemove h (pid :: rest))).
  - reflexivity.
  - intros p Hp. apply shouldRemove_not_In. auto.
Qed.

(** C5, as the code has it.  On a split that is not finalized, where
    [MovePages] finds the source and the target, no requested ID is in the
    target and none is in the source: with at least one ID requested the
    call fails and changes nothing; the error returned is of kind
    Validation and its cause, one [Unwrap] away, is the NotFound error of
    [RemovePages]. *)
Theorem MovePages_unmatched (h : Heap) (s : Split.t)
  (fromDocID toDocID : string) (pageIDs : list string)
  (i j : nat) (fromDoc toDoc : Document.t) :
  Split.Status s <> SplitStatusFinalized ->
  find_last (fun d => String.eqb (Document.ID d) fromDocID) (Split.Documents s)
    = Some i ->
  nth_error (Split.Documents s) i = Some fromDoc ->
  find_last (fun d => String.eqb (Document.ID d) toDocID) (Split.Documents s)
    = Some j ->
  nth_error (Split.Documents s) j = Some toDoc ->
  (forall p, In p (Document.Pages toDoc) -> ~ In (Page.ID (h p)) pageIDs) ->
  (forall p, In p (Document.Pages fromDoc) -> ~ In (Page.ID (h p)) pageIDs) ->
  pageIDs <> [] ->
  let notFound :=
    NewNotFoundError "none of the specified pages found in document" None in
  let e :=
    NewValidationError "failed to remove pages from source document"
      (Some notFound) in
  Split.MovePages h s fromDocID toDocID pageIDs = (h, s, Some e)
  /\ KindOf e = Some DomainErrorValidation
  /\ Unwrap e = Some notFound
  /\ KindOf notFound = Some DomainErrorNotFound
  /\ chainHasKind DomainErrorNotFound e = true.
Proof.
  intros Hst Hi Hfrom Hj Hto Hnt Hnf Hne. cbv zeta.
  split; [| repeat split].
  unfold Split.MovePages.
  apply String.eqb_neq in Hst. rewrite Hst, Hi, Hj, Hfrom, Hto.
  assert (Hchk : existsb (fun pid =>
             existsb (fun p => String.eqb (Page.ID (h p)) pid)
               (Document.Pages toDoc)) pageIDs = false).
  { apply not_true_is_false. intros H.
    apply existsb_exists in H. destruct H as (pid & Hpid & H).
    apply existsb_exists in H. destruct H as (p & Hp & E).
    apply String.eqb_eq in E. subst. exact (Hnt p Hp Hpid). }
  rewrite Hchk, RemovePages_unmatched by assumption.
  destruct (find_last_Some _ _ Hi) as (l1 & x & l2 & Hdocs & Hlen & _).
  subst i. rewrite Hdocs in Hfrom. rewrite nth_error_middle in Hfrom.
  inversion Hfrom; subst x. rewrite Hdocs, set_nth_middle, <- Hdocs.
  now rewrite set_Documents_same.
Qed.

End MovePagesUnmatched.

(** C5, as stated, fails twice on the two documents of the tests.  With no
    page requested every premise holds and [MovePages] returns no error; with
    the ID of the tests, which no page has, the error a caller gets from
    [errors.As] is of kind Validation, not NotFound. *)
Lemma MovePages_unmatched_not_NotFound :
  let h := two_docs_heap in
  let s := two_docs_split SplitStatusDraft in
  Split.Status s <> SplitStatusFinalized
  /\ (exists d, In d (Split.Documents s) /\ Document.ID d = "doc1")
  /\ (exists d, In d (Split.Documents s) /\ Document.ID d = "doc2")
  /\ snd (@Split.MovePages w2_lib h s "doc1" "doc2" []) = None
  /\ (forall d p, In d (Split.Documents s) -> In p (Document.Pages d) ->
        Page.ID (h p) <> "nonexistent.png")
  /\ exists e, snd (@Split.MovePages w2_lib h s "doc1" "doc2" ["nonexistent.png"])
                 = Some e
               /\ KindOf e = Some DomainErrorValidation
               /\ KindOf e <> Some DomainErrorNotFound.
Proof.
  cbv zeta. split; [discriminate |].
  split; [eexists; split; [left; reflexivity | reflexivity] |].
  split; [eexists; split; [right; left; reflexivity | reflexivity] |].
  split; [reflexivity |].
  split.
  - intros d p [<- | [<- | []]]; cbn; intros Hp;
      repeat (destruct Hp as [<- | Hp]; [cbn; discriminate |]); destruct Hp.
  - eexists. split; [reflexivity |]. split; [reflexivity | discriminate].
Qed.

(** ** RemoveDocument *)

Section RemoveDocument.
Context {L : GoLib}.

(** [RemovePages] asked for the IDs of all the pages of the document:
    all of them are removed, in the order of the list. *)
Lemma RemovePages_all (h : Heap) (d : Document.t) :
  exists d',
    Document.RemovePages h d (map (fun p => Page.ID (h p)) (Document.Pages d))
    = (fold_left Unassign (Document.Pages d) h, d', Document.Pages d, None).
Proof.
  unfold Document.RemovePages.
  destruct (Document.Pages d) as [| p ps] eqn:Hp; cbn [map].
  - exists d. reflexivity.
  - rewrite (filter_all (Document.shouldRemove h _) (p :: ps)).
    + eexists. reflexivity.
    + intros q Hq. apply shouldRemove_In.
      change (In (Page.ID (h q)) (map (fun p => Page.ID (h p)) (p :: ps))).
      apply in_map_iff. eauto.
Qed.

(** What [RemoveDocument] does with the first document of the ID. *)
Lemma RemoveDocument_first (h : Heap) (s : Split.t) (docID : string)
  (l1 : list Document.t) (doc : Document.t) (l2 : list Document.t) :
  Split.Status s <> SplitStatusFinalized ->
  Split.Documents s = l1 ++ doc :: l2 ->
  Document.ID doc = docID ->
  (forall d, In d l1 -> Document.ID d <> docID) ->
  Split.RemoveDocument h s docID =
    (fold_left Unassign (Document.Pages doc) h,
     Split.mk (Split.ID s) (Split.ClientID s) (Split.Status s)
       (l1 ++ l2) (Split.UnassignedPages s ++ Document.Pages doc)
       (Split.CreatedAt s) (Split.UpdatedAt s) (Split.FinalizedAt s),
     None).
Proof.
  intros Hst Hdocs Hid Hl1. apply String.eqb_neq in Hst.
  unfold Split.RemoveDocument. rewrite Hst, Hdocs.
  rewrite find_first_split, nth_error_middle, firstn_skipn_middle.
  - destruct (RemovePages_all h doc) as (d' & ->). reflexivity.
  - intros y Hy. apply String.eqb_neq. auto.
  - apply String.eqb_eq. assumption.
Qed.

(** C9.  On a split that is not finalized: when no document has the ID,
    [RemoveDocument] fails with a NotFound error and changes nothing; when
    one has it, the call succeeds, and with [doc] the first such document
    it takes [doc] out of the list, appends the pages of [doc], in their
    order, to the unassigned pool, and clears the [DocumentID] of each of
    them, touching nothing else of the heap. *)
Theorem RemoveDocument_spec (h : Heap) (s : Split.t) (docID : string) :
  Split.Status s <> SplitStatusFinalized ->
  ((forall d, In d (Split.Documents s) -> Document.ID d <> docID) ->
     exists e, Split.RemoveDocument h s docID = (h, s, Some e)
               /\ KindOf e = Some DomainErrorNotFound)
  /\ ((exists d, In d (Split.Documents s) /\ Document.ID d = docID) ->
        snd (Split.RemoveDocument h s docID) = None)
  /\ (forall l1 doc l2,
        Split.Documents s = l1 ++ doc :: l2 ->
        Document.ID doc = docID ->
        (forall d, In d l1 -> Document.ID d <> docID) ->
        let h' := fold_left Unassign (Document.Pages doc) h in
        Split.RemoveDocument h s docID =
          (h',
           Split.mk (Split.ID s) (Split.ClientID s) (Split.Status s)
             (l1 ++ l2) (Split.UnassignedPages s ++ Document.Pages doc)
             (Split.CreatedAt s) (Split.UpdatedAt s) (Split.FinalizedAt s),
           None)
        /\ (forall p, In p (Document.Pages doc) ->
              Page.DocumentID (h' p) = None /\ IsAssigned h' p = false)
        /\ (forall a, ~ In a (Document.Pages doc) -> h' a = h a)
        /\ heap_same_but_DocumentID h h').
Proof.
  intros Hst. pose proof Hst as Hst'. apply String.eqb_neq in Hst'.
  split; [| split].
  - intros Hno. unfold Split.RemoveDocument. rewrite Hst'.
    assert (Hn : find_first (fun doc => String.eqb (Document.ID doc) docID)
                   (Split.Documents s) = None).
    { apply find_first_None. intros d Hd. apply String.eqb_neq. auto. }
    rewrite Hn. eexists. split; reflexivity.
  - intros (d & Hd & Hid).
    destruct (find_first (fun doc => String.eqb (Document.ID doc) docID)
                (Split.Documents s)) as [i |] eqn:Hf.
    + destruct (find_first_Some _ _ Hf) as (l1 & x & l2 & Hdocs & _ & Hx & Hl1).
      rewrite (@RemoveDocument_first h s docID l1 x l2 Hst Hdocs).
      * reflexivity.
      * apply String.eqb_eq. assumption.
      * intros y Hy. apply String.eqb_neq. auto.
    + rewrite find_first_None in Hf. specialize (Hf d Hd).
      apply String.eqb_neq in Hf. contradiction.
  - intros l1 doc l2 Hdocs Hid Hl1 h'. subst h'.
    split; [apply RemoveDocument_first; assumption |].
    split; [| split].
    + intros p Hp. unfold IsAssigned. rewrite Unassign_all_in by assumption.
      split; reflexivity.
    + intros a Ha. apply Unassign_all_notin. assumption.
    + apply Unassign_all_same.
Qed.

End RemoveDocument.

(** ** AddPages stopped by an assigned page *)


Lemma assignAll_notin (docID : string) (l : list addr) (h : Heap) (a : addr) :
  ~ In a l -> assignAll docID l h a = h a.
Proof.
  unfold assignAll. revert h. induction l as [| b t IH]; cbn; intros h Ha;
    [reflexivity |].
  rewrite IH by tauto. apply upd_other. intros ->. tauto.
Qed.

Lemma assignAll_in (docID : string) (l : list addr) (h : Heap) (a : addr) :
  In a l -> assignAll docID l h a = Page.set_DocumentID (h a) (Some docID).
Proof.
  unfold assignAll. revert h. induction l as [| b t IH]; cbn; intros h Ha;
    [destruct Ha |].
  destruct (in_dec Nat.eq_dec a t) as [Hin | Hnin].
  - rewrite IH by assumption. unfold upd.
    destruct (Nat.eqb a b) eqn:E; [| reflexivity].
    apply Nat.eqb_eq in E. subst. reflexivity.
  - destruct Ha as [-> | Ha]; [| contradiction].
    fold (assignAll docID t (upd h a (Page.set_DocumentID (h a) (Some docID)))).
    rewrite assignAll_notin by assumption. apply upd_same.
Qed.

Lemma assignAll_same (docID : string) (l : list addr) (h : Heap) :
  heap_same_but_DocumentID h (assignAll docID l h).
Proof.
  unfold assignAll. revert h. induction l as [| b t IH]; cbn; intros h;
    [apply heap_same_refl |].
  eapply heap_same_trans; [| apply IH].
  intros a. unfold upd. destruct (Nat.eqb a b) eqn:E.
  - apply Nat.eqb_eq in E; subst. repeat split.
  - repeat split.
Qed.

Section AddPages.
Context {L : GoLib}.

(** The loop of [AddPages] runs through a prefix of distinct unassigned
    pages, assigning and appending each. *)
Lemma AddPages_loop_prefix (docID : string) (pre rest : list addr) :
  forall (h : Heap) (acc : list addr),
  NoDup pre ->
  (forall q, In q pre -> IsAssigned h q = false) ->
  Document.AddPages_loop h docID acc (pre ++ rest) =
  Document.AddPages_loop (assignAll docID pre h) docID (acc ++ pre) rest.
Proof.
  induction pre as [| q pre IH]; intros h acc Hnd Hun.
  - cbn. now rewrite app_nil_r.
  - cbn [app Document.AddPages_loop]. unfold AssignToDocument.
    rewrite (Hun q) by (cbn; auto).
    inversion Hnd as [| ? ? Hq Hnd']; subst.
    rewrite IH.
    + replace ((acc ++ [q]) ++ pre) with (acc ++ q :: pre)
        by (rewrite <- app_assoc; reflexivity).
      reflexivity.
    + assumption.
    + intros r Hr. unfold IsAssigned. rewrite upd_other.
      * apply (Hun r). cbn; auto.
      * intros ->. contradiction.
Qed.


End AddPages.

(** ** Counting the places of a page ID *)

Lemma page_IDs_same (h h' : Heap) (l : list addr) :
  heap_same_but_DocumentID h h' -> page_IDs h' l = page_IDs h l.
Proof.
  intros H. unfold page_IDs. apply map_ext. intros a.
  destruct (H a) as (E & _). now rewrite E.
Qed.

Lemma occ_same (h h' : Heap) (l : list addr) (x : string) :
  heap_same_but_DocumentID h h' -> occ h' l x = occ h l x.
Proof. intros H. unfold occ. now rewrite (page_IDs_same l H). Qed.

Lemma occ_nil (h : Heap) (x : string) : occ h [] x = 0%nat.
Proof. reflexivity. Qed.

Lemma occ_app (h : Heap) (l1 l2 : list addr) (x : string) :
  occ h (l1 ++ l2) x = (occ h l1 x + occ h l2 x)%nat.
Proof. unfold occ, page_IDs. now rewrite map_app, count_occ_app. Qed.

Lemma occ_Permutation (h : Heap) (l1 l2 : list addr) (x : string) :
  Permutation l1 l2 -> occ h l1 x = occ h l2 x.
Proof.
  intros H. unfold occ, page_IDs.
  apply Permutation_count_occ. now apply Permutation_map.
Qed.

Lemma occ_filter (h : Heap) (f : addr -> bool) (l : list addr) (x : string) :
  (occ h (filter f l) x + occ h (filter (fun a => negb (f a)) l) x)%nat = occ h l x.
Proof.
  induction l as [| a t IH]; [reflexivity |].
  cbn [filter]. change (a :: t) with ([a] ++ t). rewrite occ_app, <- IH.
  destruct (f a); cbn [negb].
  - change (a :: filter f t) with ([a] ++ filter f t). rewrite occ_app. lia.
  - change (a :: filter (fun a => negb (f a)) t)
      with ([a] ++ filter (fun a => negb (f a)) t).
    rewrite occ_app. lia.
Qed.

Lemma SingleOwnership_occ (h : Heap) (s : Split.t) :
  SingleOwnership h s <-> forall x, (occ h (all_pages s) x <= 1)%nat.
Proof. unfold SingleOwnership, occ. apply NoDup_count_occ. Qed.

Lemma docs_pages_app (l1 l2 : list Document.t) :
  docs_pages (l1 ++ l2) = docs_pages l1 ++ docs_pages l2.
Proof. unfold docs_pages. now rewrite map_app, concat_app. Qed.

Lemma docs_pages_cons (d : Document.t) (l : list Document.t) :
  docs_pages (d :: l) = Document.Pages d ++ docs_pages l.
Proof. reflexivity. Qed.

(** Replacing the document at an index moves its pages out and the new
    pages in. *)
Lemma occ_set_nth (h : Heap) (ds : list Document.t) (i : nat)
  (d d' : Document.t) (x : string) :
  nth_error ds i = Some d ->
  (occ h (docs_pages (set_nth i d' ds)) x + occ h (Document.Pages d) x)%nat
  = (occ h (docs_pages ds) x + occ h (Document.Pages d') x)%nat.
Proof.
  intros H. destruct (nth_error_split ds i H) as (l1 & l2 & -> & <-).
  rewrite set_nth_middle, !docs_pages_app, !docs_pages_cons, !occ_app. lia.
Qed.

Lemma nth_error_set_nth_same (A : Type) (l : list A) (i : nat) (x d : A) :
  nth_error l i = Some d -> nth_error (set_nth i x l) i = Some x.
Proof.
  intros H. destruct (nth_error_split l i H) as (l1 & l2 & -> & <-).
  now rewrite set_nth_middle, nth_error_middle.
Qed.

Lemma nth_error_set_nth_other (A : Type) (l : list A) (i j : nat) (x : A) :
  i <> j -> nth_error (set_nth i x l) j = nth_error l j.
Proof.
  revert i j. induction l as [| y t IH]; intros [| i] [| j] H; cbn; try reflexivity.
  - congruence.
  - apply IH. congruence.
Qed.

(** ** What each method does to the places of the pages *)

Section Places.
Context {L : GoLib}.
Hypothesis SortFunc_Permutation :
  forall (A : Type) (cmp : A -> A -> Z) (l : list A),
    Permutation (slices_SortFunc cmp l) l.

Lemma updatePageNumbers_Pages (h : Heap) (d : Document.t) :
  Document.Pages (Document.updatePageNumbers h d)
  = slices_SortFunc (cmpBy (fun a => Page.PageNumber (h a))) (Document.Pages d).
Proof.
  unfold Document.updatePageNumbers. cbn.
  destruct (slices_SortFunc _ (Document.Pages d)); reflexivity.
Qed.

Lemma occ_updatePageNumbers (h h0 : Heap) (d : Document.t) (x : string) :
  occ h0 (Document.Pages (Document.updatePageNumbers h d)) x
  = occ h0 (Document.Pages d) x.
Proof.
  rewrite updatePageNumbers_Pages. apply occ_Permutation, SortFunc_Permutation.
Qed.

Lemma RemovePages_places (h : Heap) (d : Document.t) (pageIDs : list string)
  (h' : Heap) (d' : Document.t) (removed : list addr) (err : option error) :
  Document.RemovePages h d pageIDs = (h', d', removed, err) ->
  heap_same_but_DocumentID h h'
  /\ forall x, (occ h (Document.Pages d') x + occ h removed x)%nat
               = occ h (Document.Pages d) x.
Proof.
  unfold Document.RemovePages. intros H.
  destruct pageIDs as [| pid rest].
  { inversion H; subst. split; [apply heap_same_refl |].
    intros x. rewrite occ_nil. lia. }
  destruct (filter (Document.shouldRemove h (pid :: rest)) (Document.Pages d))
    as [| r rs] eqn:Hrem.
  { inversion H; subst. split; [apply heap_same_refl |].
    intros x. rewrite occ_nil. lia. }
  inversion H; subst; clear H. split; [apply (Unassign_all_same (r :: rs)) |].
  intros x. rewrite occ_updatePageNumbers. cbn [Document.Pages Document.set_Pages].
  rewrite <- Hrem, Nat.add_comm. apply occ_filter.
Qed.

Lemma AddPages_loop_places (docID : string) (pages : list addr) :
  forall (h : Heap) (acc : list addr) (h' : Heap) (ps : list addr)
         (err : option error),
  Document.AddPages_loop h docID acc pages = (h', ps, err) ->
  heap_same_but_DocumentID h h'
  /\ forall x, (occ h ps x <= occ h acc x + occ h pages x)%nat.
Proof.
  induction pages as [| p rest IH]; intros h acc h' ps err H; cbn in H.
  - inversion H; subst. split; [apply heap_same_refl |]. intros x. lia.
  - pose proof (AssignToDocument_same h p docID) as Hs.
    destruct (AssignToDocument h p docID) as [h1 [e |]]; cbn in Hs.
    + inversion H; subst. split; [assumption |]. intros x. lia.
    + destruct (IH _ _ _ _ _ H) as (Hs' & Hc).
      split; [eapply heap_same_trans; eassumption |].
      intros x. specialize (Hc x).
      rewrite !(occ_same _ _ Hs) in Hc. rewrite occ_app in Hc.
      change (p :: rest) with ([p] ++ rest). rewrite occ_app. lia.
Qed.

Lemma AddPages_places (h : Heap) (d : Document.t) (pages : list addr)
  (h' : Heap) (d' : Document.t) (err : option error) :
  Document.AddPages h d pages = (h', d', err) ->
  heap_same_but_DocumentID h h'
  /\ forall x, (occ h (Document.Pages d') x
                <= occ h (Document.Pages d) x + occ h pages x)%nat.
Proof.
  unfold Document.AddPages. intros H.
  destruct (Document.AddPages_loop h (Document.ID d) (Document.Pages d) pages)
    as [[h1 ps] e] eqn:Hl.
  destruct (AddPages_loop_places _ _ _ _ Hl) as (Hs & Hc).
  destruct e; inversion H; subst; clear H; (split; [assumption |]); intros x.
  - apply Hc.
  - rewrite occ_updatePageNumbers. apply Hc.
Qed.

(** [MovePages], failed or not, keeps the unassigned pool and adds no
    place to any page ID. *)
Lemma MovePages_places (h : Heap) (s : Split.t) (fromDocID toDocID : string)
  (pageIDs : list string) (h' : Heap) (s' : Split.t) (err : option error) :
  Split.MovePages h s fromDocID toDocID pageIDs = (h', s', err) ->
  heap_same_but_DocumentID h h'
  /\ Split.UnassignedPages s' = Split.UnassignedPages s
  /\ forall x, (occ h (docs_pages (Split.Documents s')) x
                <= occ h (docs_pages (Split.Documents s)) x)%nat.
Proof.
  unfold Split.MovePages. intros H.
  assert (Hsame : heap_same_but_DocumentID h h
                  /\ Split.UnassignedPages s = Split.UnassignedPages s
                  /\ forall x, (occ h (docs_pages (Split.Documents s)) x
                                <= occ h (docs_pages (Split.Documents s)) x)%nat).
  { split; [apply heap_same_refl |]. split; [reflexivity |]. intros; lia. }
  destruct (String.eqb (Split.Status s) SplitStatusFinalized);
    [inversion H; subst; assumption |].
  destruct (find_last _ (Split.Documents s)) as [i |];
    [| inversion H; subst; assumption].
  destruct (find_last _ (Split.Documents s)) as [j |];
    [| inversion H; subst; assumption].
  destruct (nth_error (Split.Documents s) i) as [fromDoc |] eqn:Hi;
    [| inversion H; subst; assumption].
  destruct (nth_error (Split.Documents s) j) as [toDoc |] eqn:Hj;
    [| inversion H; subst; assumption].
  destruct (existsb _ pageIDs); [inversion H; subst; assumption |].
  clear Hsame.
  destruct (Document.RemovePages h fromDoc pageIDs)
    as [[[h1 fromDoc'] removed] e1] eqn:Hrm.
  destruct (RemovePages_places _ _ _ Hrm) as (Hs1 & Hc1).
  pose proof (fun x => occ_set_nth h (Split.Documents s) i fromDoc' x Hi) as Hset1.
  destruct e1.
  { inversion H; subst. split; [assumption |]. split; [reflexivity |].
    intros x. cbn [Split.Documents Split.set_Documents]. specialize (Hc1 x).
    specialize (Hset1 x). lia. }
  destruct (nth_error (set_nth i fromDoc' (Split.Documents s)) j)
    as [toDoc1 |] eqn:Hj1.
  2:{ inversion H; subst. split; [assumption |]. split; [reflexivity |].
      intros x. cbn [Split.Documents Split.set_Documents]. specialize (Hc1 x).
    specialize (Hset1 x). lia. }
  destruct (Document.AddPages h1 toDoc1 removed) as [[h2 toDoc'] e2] eqn:Hadd.
  destruct (AddPages_places _ _ _ Hadd) as (Hs2 & Hc2).
  pose proof (fun x => occ_set_nth h (set_nth i fromDoc' (Split.Documents s))
                         j toDoc' x Hj1) as Hset2.
  assert (Hres : h' = h2
                 /\ s' = Split.set_Documents s
                           (set_nth j toDoc' (set_nth i fromDoc' (Split.Documents s)))).
  { destruct e2; inversion H; subst; auto. }
  destruct Hres as (-> & ->).
  split; [eapply heap_same_trans; eassumption |]. split; [reflexivity |].
  intros x. cbn [Split.Documents Split.set_Documents]. specialize (Hc1 x).
    specialize (Hset1 x).
  specialize (Hc2 x). specialize (Hset2 x).
  rewrite !(occ_same _ _ Hs1) in Hc2. lia.
Qed.

(** [RemoveDocument], failed or not, adds no place to any page ID. *)
Lemma RemoveDocument_places (h : Heap) (s : Split.t) (docID : string)
  (h' : Heap) (s' : Split.t) (err : option error) :
  Split.RemoveDocument h s docID = (h', s', err) ->
  heap_same_but_DocumentID h h'
  /\ forall x, (occ h (all_pages s') x <= occ h (all_pages s) x)%nat.
Proof.
  unfold Split.RemoveDocument. intros H.
  assert (Hsame : heap_same_but_DocumentID h h
                  /\ forall x, (occ h (all_pages s) x <= occ h (all_pages s) x)%nat).
  { split; [apply heap_same_refl | intros; lia]. }
  destruct (String.eqb (Split.Status s) SplitStatusFinalized);
    [inversion H; subst; assumption |].
  destruct (find_first _ (Split.Documents s)) as [i |] eqn:Hf;
    [| inversion H; subst; assumption].
  destruct (nth_error (Split.Documents s) i) as [doc |] eqn:Hi;
    [| inversion H; subst; assumption].
  clear Hsame.
  destruct (Document.RemovePages h doc _) as [[[h1 doc'] removed] e1] eqn:Hrm.
  destruct (RemovePages_places _ _ _ Hrm) as (Hs1 & Hc1).
  destruct e1 as [e |].
  { assert (Hres : h' = h1 /\ s' = s) by (destruct (errors_As e); inversion H; auto).
    destruct Hres as (-> & ->). split; [assumption | intros; lia]. }
  inversion H; subst; clear H. split; [assumption |].
  intros x. unfold all_pages. cbn [Split.Documents Split.UnassignedPages].
  destruct (nth_error_split _ _ Hi) as (l1 & l2 & Hd & Hlen).
  rewrite Hd. subst i. rewrite firstn_skipn_middle.
  change (List.concat (map Document.Pages (l1 ++ l2))) with (docs_pages (l1 ++ l2)).
  change (List.concat (map Document.Pages (l1 ++ doc :: l2)))
    with (docs_pages (l1 ++ doc :: l2)).
  rewrite !docs_pages_app, docs_pages_cons, !occ_app.
  specialize (Hc1 x). lia.
Qed.

End Places.

(** ** Single ownership along a sequence of calls *)

Section Sequences.
Context {L : GoLib}.
Hypothesis SortFunc_Permutation :
  forall (A : Type) (cmp : A -> A -> Z) (l : list A),
    Permutation (slices_SortFunc cmp l) l.

Lemma UpdateDocumentMetadata_places (s : Split.t) (docID : string)
  (meta : Document.Metadata) (h : Heap) (x : string) :
  occ h (all_pages (fst (Split.UpdateDocumentMetadata s docID meta))) x
  = occ h (all_pages s) x.
Proof.
  unfold Split.UpdateDocumentMetadata.
  destruct (String.eqb (Split.Status s) SplitStatusFinalized); [reflexivity |].
  destruct (find_first _ (Split.Documents s)) as [i |]; [| reflexivity].
  destruct (nth_error (Split.Documents s) i) as [d |] eqn:Hi; [| reflexivity].
  cbn [Document.UpdateMetadata fst]. unfold all_pages.
  cbn [Split.Documents Split.UnassignedPages Split.set_Documents].
  rewrite !occ_app. f_equal.
  pose proof (occ_set_nth h (Split.Documents s) i
    (Document.mk (Document.ID d) (Document.SplitID d)
       match Document.mName meta with Some n => n | None => Document.Name d end
       match Document.mClassification meta with
       | Some c => c | None => Document.Classification d end
       (Document.Filename d)
       match Document.mShortDescription meta with
       | Some s0 => s0 | None => Document.ShortDescription d end
       (Document.Pages d) (Document.StartPage d) (Document.EndPage d))
    x Hi) as Hset.
  cbn [Document.Pages] in Hset. unfold docs_pages in Hset. lia.
Qed.

(** One call keeps single ownership, provided the document given to
    [AddDocument] brings new pages. *)
Lemma step_SingleOwnership (st : Heap * Split.t) (op : Op) :
  SingleOwnership (fst st) (snd st) ->
  match op with
  | CallAddDocument doc => BringsNewPages (fst st) (snd st) doc
  | _ => True
  end ->
  SingleOwnership (fst (step st op)) (snd (step st op)).
Proof.
  destruct st as [h s]. cbn [fst snd]. intros Hso Hop.
  rewrite SingleOwnership_occ in *.
  destruct op as [doc | docID | fromDocID toDocID pageIDs | docID meta | t];
    cbn [step].
  - (* AddDocument *)
    cbn [fst snd]. unfold Split.AddDocument.
    destruct (String.eqb (Split.Status s) SplitStatusFinalized); [exact Hso |].
    destruct (Document.Valid h doc); [exact Hso |].
    destruct (existsb _ (Split.Documents s)); [exact Hso |].
    destruct (existsb _ (Document.Pages doc)); [exact Hso |].
    cbn [fst]. intros x.
    unfold BringsNewPages in Hop.
    assert (Hx := proj1 (NoDup_count_occ string_dec _) Hop x).
    fold (occ h (all_pages s ++ Document.Pages doc) x) in Hx.
    unfold all_pages in *.
    cbn [Split.Documents Split.UnassignedPages Split.set_Documents].
    change (List.concat (map Document.Pages (Split.Documents s ++ [doc])))
      with (docs_pages (Split.Documents s ++ [doc])).
    change (List.concat (map Document.Pages (Split.Documents s)))
      with (docs_pages (Split.Documents s)) in Hx.
    rewrite docs_pages_app, docs_pages_cons, !occ_app in *.
    unfold docs_pages at 2. cbn [map List.concat]. rewrite occ_nil. lia.
  - (* RemoveDocument *)
    destruct (Split.RemoveDocument h s docID) as [[h' s'] err] eqn:H.
    cbn [fst snd]. destruct (RemoveDocument_places SortFunc_Permutation _ _ _ H)
      as (Hs & Hc).
    intros x. rewrite (occ_same _ _ Hs). specialize (Hc x). specialize (Hso x). lia.
  - (* MovePages *)
    destruct (Split.MovePages h s fromDocID toDocID pageIDs)
      as [[h' s'] err] eqn:H.
    cbn [fst snd]. destruct (MovePages_places SortFunc_Permutation _ _ _ _ _ H)
      as (Hs & Hu & Hc).
    intros x. rewrite (occ_same _ _ Hs). specialize (Hc x). specialize (Hso x).
    unfold all_pages in *. rewrite Hu.
    change (List.concat (map Document.Pages (Split.Documents s')))
      with (docs_pages (Split.Documents s')).
    change (List.concat (map Document.Pages (Split.Documents s)))
      with (docs_pages (Split.Documents s)) in Hso.
    rewrite occ_app in *. lia.
  - (* UpdateDocumentMetadata *)
    cbn [fst snd]. intros x. rewrite UpdateDocumentMetadata_places. apply Hso.
  - (* Finalize *)
    cbn [fst snd]. unfold Split.Finalize.
    destruct (String.eqb (Split.Status s) SplitStatusFinalized); [exact Hso |].
    destruct (Split.UnassignedPages s) eqn:Hu; [| exact Hso].
    destruct (Split.Valid h s); [exact Hso |].
    cbn [fst]. intros x. specialize (Hso x). unfold all_pages in *.
    cbn [Split.Documents Split.UnassignedPages]. rewrite Hu in *. exact Hso.
Qed.

Lemma trace_SingleOwnership (ops : list Op) :
  forall st : Heap * Split.t,
  SingleOwnership (fst st) (snd st) ->
  AddsNewPages st ops ->
  Forall (fun st' => SingleOwnership (fst st') (snd st')) (trace st ops).
Proof.
  induction ops as [| op rest IH]; intros st Hso Hadm; cbn [trace].
  - constructor.
  - destruct Hadm as (Hop & Hrest).
    assert (Hso' : SingleOwnership (fst (step st op)) (snd (step st op))).
    { apply step_SingleOwnership; [assumption |].
      destruct op; try exact I. exact Hop. }
    constructor; [assumption |]. apply IH; assumption.
Qed.

(** *** The split [NewSplit] builds *)

Lemma NewPage_Ok (st : Store) (splitID url : string) (st' : Store) (a : addr) :
  NewPage st splitID url = (st', Ok a) ->
  a = next st /\ next st' = S (next st) /\ drawn st' = S (drawn st)
  /\ Page.ID (cells st' a) = uuid_New (drawn st)
  /\ forall b, b <> a -> cells st' b = cells st b.
Proof.
  unfold NewPage. intros H.
  destruct (fmt_Sscanf_page url) as [n |]; [| discriminate].
  destruct (Page.Valid _); [discriminate |].
  inversion H; subst; clear H. cbn.
  repeat split; [now rewrite upd_same |].
  intros b Hb. now apply upd_other.
Qed.

Lemma NewSplit_pages_Ok (splitID : string) (urls : list string) :
  forall (st : Store) (acc : list addr) (st' : Store) (pages : list addr),
  NewSplit_pages st splitID acc urls = (st', Ok pages) ->
  let n := List.length urls in
  pages = acc ++ seq (next st) n
  /\ next st' = (next st + n)%nat
  /\ drawn st' = (drawn st + n)%nat
  /\ (forall k, (k < n)%nat ->
        Page.ID (cells st' (next st + k)%nat) = uuid_New (drawn st + k)%nat)
  /\ (forall b, (b < next st)%nat -> cells st' b = cells st b).
Proof.
  induction urls as [| url rest IH]; intros st acc st' pages H; cbn in H.
  - inversion H; subst. cbn. rewrite app_nil_r, !Nat.add_0_r.
    repeat split; auto. intros k Hk. lia.
  - destruct (NewPage st splitID url) as [st1 [a | e]] eqn:Hp; [| discriminate].
    destruct (NewPage_Ok _ _ _ Hp) as (-> & Hn & Hd & Hid & Hcells).
    destruct (IH _ _ _ _ H) as (Hpages & Hn' & Hd' & Hids & Hcells').
    cbn [List.length]. cbv zeta. rewrite Hn, Hd in *.
    split; [| split; [| split; [| split]]].
    + rewrite Hpages, <- app_assoc. reflexivity.
    + lia.
    + lia.
    + intros [| k] Hk.
      * rewrite !Nat.add_0_r, Hcells' by lia. exact Hid.
      * replace (next st + S k)%nat with (S (next st) + k)%nat by lia.
        replace (drawn st + S k)%nat with (S (drawn st) + k)%nat by lia.
        apply Hids. lia.
    + intros b Hb. rewrite Hcells' by lia. apply Hcells. lia.
Qed.

Lemma NewDocument_Pages (h : Heap)
  (id splitID name classification filename shortDescription : string)
  (pages : list addr) (d : Document.t) :
  Document.NewDocument h id splitID name classification filename
    shortDescription pages = Ok d ->
  Permutation (Document.Pages d) pages.
Proof.
  unfold Document.NewDocument. intros H.
  destruct (Document.Valid h _); [discriminate |].
  inversion H; subst. rewrite updatePageNumbers_Pages. apply SortFunc_Permutation.
Qed.

Lemma NewSplit_documents_Ok (splitID : string) (data : list docData) :
  forall (st : Store) (acc : list Document.t) (st' : Store)
         (docs : list Document.t),
  NewSplit_documents st splitID acc data = (st', Ok docs) ->
  exists (new : list Document.t) (n : nat),
    docs = acc ++ new
    /\ next st' = (next st + n)%nat
    /\ drawn st' = (drawn st + n)%nat
    /\ Permutation (docs_pages new) (seq (next st) n)
    /\ (forall k, (k < n)%nat ->
          Page.ID (cells st' (next st + k)%nat) = uuid_New (drawn st + k)%nat)
    /\ (forall b, (b < next st)%nat -> cells st' b = cells st b).
Proof.
  induction data as [| dd rest IH]; intros st acc st' docs H; cbn in H.
  - inversion H; subst. exists [], 0%nat. rewrite app_nil_r, !Nat.add_0_r.
    repeat split; auto. intros k Hk. lia.
  - destruct (NewSplit_pages st splitID [] (dd_PageURLs dd))
      as [st1 [pages | e]] eqn:Hp; [| discriminate].
    destruct (NewSplit_pages_Ok _ _ _ _ Hp) as (Hpages & Hn & Hd & Hids & Hcells).
    cbn [app] in Hpages.
    destruct (Document.NewDocument (cells st1) _ _ _ _ _ _ pages)
      as [doc | e] eqn:Hdoc; [| discriminate].
    apply NewDocument_Pages in Hdoc.
    destruct (IH _ _ _ _ H) as (new & n & Hdocs & Hn' & Hd' & Hperm & Hids' & Hcells').
    set (m := List.length (dd_PageURLs dd)) in *.
    exists (doc :: new), (m + n)%nat.
    split; [| split; [| split; [| split; [| split]]]].
    + rewrite Hdocs, <- app_assoc. reflexivity.
    + lia.
    + lia.
    + rewrite docs_pages_cons, seq_app. apply Permutation_app.
      * now rewrite Hdoc, Hpages.
      * now rewrite <- Hn.
    + intros k Hk. destruct (Nat.lt_ge_cases k m) as [Hlt | Hge].
      * rewrite Hcells' by lia. now apply Hids.
      * replace (next st + k)%nat with (next st1 + (k - m))%nat by lia.
        replace (drawn st + k)%nat with (drawn st1 + (k - m))%nat by lia.
        apply Hids'. lia.
    + intros b Hb. rewrite Hcells' by lia. now apply Hcells.
Qed.

Hypothesis uuid_New_injective :
  forall m n : nat, uuid_New m = uuid_New n -> m = n.

Lemma NewSplit_SingleOwnership (st : Store) (createdAt updatedAt : Time)
  (jsonRepr : string) (st' : Store) (s : Split.t) :
  NewSplit st createdAt updatedAt jsonRepr = (st', Ok s) ->
  SingleOwnership (cells st') s.
Proof.
  unfold NewSplit. intros H.
  destruct (json_Unmarshal jsonRepr) as [data |]; [| discriminate].
  destruct (NewSplit_documents st (sd_ID data) [] (sd_Documents data))
    as [st1 [docs | e]] eqn:Hd; [| discriminate].
  destruct (Split.Valid (cells st1) _); [discriminate |].
  inversion H; subst; clear H.
  destruct (NewSplit_documents_Ok _ _ _ _ Hd)
    as (new & n & Hdocs & _ & _ & Hperm & Hids & _).
  cbn [app] in Hdocs. subst new.
  unfold SingleOwnership, all_pages, page_IDs. cbn [Split.Documents Split.UnassignedPages].
  rewrite app_nil_r. fold (docs_pages docs).
  eapply Permutation_NoDup.
  - apply Permutation_map. symmetry. exact Hperm.
  - apply NoDup_map_NoDup_ForallPairs; [| apply seq_NoDup].
    intros a b Ha Hb Hab. apply in_seq in Ha, Hb.
    replace a with (next st + (a - next st))%nat in Hab by lia.
    replace b with (next st + (b - next st))%nat in Hab by lia.
    rewrite !Hids in Hab by lia.
    apply uuid_New_injective in Hab. lia.
Qed.

(** C1, as the code has it.  Take the split [NewSplit] returns and any
    sequence of calls of the five mutation methods in which every
    document handed to [AddDocument] brings pages whose IDs are new to
    the split and pairwise distinct (and let [uuid.New] never give the
    same identifier twice).  Then no page ID is in two places, at the
    start and after every call, failed or not. *)
Theorem SingleOwnership_preserved (st : Store) (createdAt updatedAt : Time)
  (jsonRepr : string) (st' : Store) (s : Split.t) (ops : list Op) :
  NewSplit st createdAt updatedAt jsonRepr = (st', Ok s) ->
  AddsNewPages (cells st', s) ops ->
  Forall (fun st => SingleOwnership (fst st) (snd st))
    ((cells st', s) :: trace (cells st', s) ops).
Proof.
  intros Hnew Hadm.
  pose proof (NewSplit_SingleOwnership _ _ _ _ Hnew) as Hso.
  constructor; [exact Hso |].
  apply trace_SingleOwnership; assumption.
Qed.

End Sequences.

(** ** The library of the examples meets what the proofs ask of a library *)

Lemma insert_back_Permutation (A : Type) (cmp : A -> A -> Z) (x : A) (l : list A) :
  Permutation (insert_back cmp x l) (x :: l).
Proof.
  induction l as [| y t IH]; cbn; [reflexivity |].
  destruct (cmp x y <? 0); [| reflexivity].
  rewrite IH. apply perm_swap.
Qed.

Lemma insertionSort_Permutation (A : Type) (cmp : A -> A -> Z) (l : list A) :
  Permutation (insertionSort cmp l) l.
Proof.
  unfold insertionSort. rewrite <- Permutation_rev.
  assert (H : forall acc,
    Permutation (fold_left (fun acc x => insert_back cmp x acc) l acc) (l ++ acc)).
  { induction l as [| x t IH]; intros acc; cbn; [reflexivity |].
    rewrite IH, insert_back_Permutation. symmetry. apply Permutation_middle. }
  rewrite H. now rewrite app_nil_r.
Qed.

Lemma exampleLib_SortFunc_Permutation (decode : string -> option splitData) :
  forall (A : Type) (cmp : A -> A -> Z) (l : list A),
    Permutation (@slices_SortFunc (exampleLib decode) A cmp l) l.
Proof. intros. apply insertionSort_Permutation. Qed.

Lemma uuid_example_injective (m n : nat) : uuid_example m = uuid_example n -> m = n.
Proof.
  unfold uuid_example. intros H. cbn in H. inversion H as [H'].
  assert (E : Some (Nat.to_uint m) = Some (Nat.to_uint n)).
  { rewrite <- !NilEmpty.usu, H'. reflexivity. }
  inversion E as [E']. apply (f_equal Nat.of_uint) in E'.
  now rewrite !DecimalNat.Unsigned.of_to in E'.
Qed.

(** ** Single ownership: an example run and a run that breaks it *)

(** A run on the scenario of the specification, in a heap where the caller
    holds two more pages at the addresses 3 and 4: no page is moved from
    [d1] to itself, [d1] is removed, a document made of the caller's two
    pages is added, and the split is finalized (which fails: two pages are
    unassigned). *)
Lemma SingleOwnership_preserved_witness :
  Forall (fun st => SingleOwnership (fst st) (snd st))
    ((cells (fst (@NewSplit w2_lib callerStore 100 100 "w2.json")),
      Split.mk "s1" "c1" "draft"
        [Document.mk "d1" "s1" "W2" "W-2" "w2.pdf" "" [0; 1]%nat
           "page_1.png" "page_2.png"] [] 100 100 None)
     :: @trace w2_lib
          (cells (fst (@NewSplit w2_lib callerStore 100 100 "w2.json")),
           Split.mk "s1" "c1" "draft"
             [Document.mk "d1" "s1" "W2" "W-2" "w2.pdf" "" [0; 1]%nat
                "page_1.png" "page_2.png"] [] 100 100 None)
          [CallMovePages "d1" "d1" [];
           CallRemoveDocument "d1";
           CallAddDocument (test_doc "d2" [3; 4]%nat "" "");
           CallFinalize 200]).
Proof.
  apply (@SingleOwnership_preserved w2_lib
           (exampleLib_SortFunc_Permutation _) uuid_example_injective
           callerStore 100 100 "w2.json").
  - reflexivity.
  - cbn [AddsNewPages]. repeat split.
    unfold BringsNewPages. vm_compute.
    repeat (constructor; [cbn; intuition discriminate |]). constructor.
Defined.

(** C1, as stated, fails.  On the split [NewSplit] builds for the scenario
    of the specification, [AddDocument] accepts a second document that
    holds the first page of [d1] (as the tests of [MovePages] build their
    split): the ID of that page is then in two documents. *)
Lemma AddDocument_shares_a_page :
  exists (st : Store) (s : Split.t),
    @NewSplit w2_lib emptyStore 100 100 "w2.json" = (st, Ok s)
    /\ SingleOwnership (cells st) s
    /\ snd (Split.AddDocument (cells st) s (test_doc "d2" [0%nat] "" "")) = None
    /\ ~ Forall (fun st' => SingleOwnership (fst st') (snd st'))
           (@trace w2_lib (cells st, s)
              [CallAddDocument (test_doc "d2" [0%nat] "" "")]).
Proof.
  eexists. eexists. split; [reflexivity |]. split; [| split].
  - vm_compute. repeat (constructor; [cbn; intuition discriminate |]). constructor.
  - reflexivity.
  - intros H. inversion H as [| st' rest Hso _]; subst.
    unfold SingleOwnership in Hso.
    apply (NoDup_count_occ string_dec) with (x := "id-0") in Hso.
    vm_compute in Hso. lia.
Qed.

(** ** Sorted lists of pages *)


Lemma filter_split_Permutation (A : Type) (f : A -> bool) (l : list A) :
  Permutation (filter (fun a => negb (f a)) l ++ filter f l) l.
Proof.
  induction l as [| x t IH]; cbn; [constructor |].
  destruct (f x); cbn.
  - rewrite <- Permutation_middle. now constructor.
  - now constructor.
Qed.

Lemma StronglySorted_filter (A : Type) (R : A -> A -> Prop) (f : A -> bool)
  (l : list A) :
  StronglySorted R l -> StronglySorted R (filter f l).
Proof.
  induction 1 as [| x l Hs IH Hx]; cbn; [constructor |].
  destruct (f x); [| assumption].
  constructor; [assumption |].
  rewrite Forall_forall in *. intros y Hy. apply Hx.
  apply filter_In in Hy. tauto.
Qed.

Lemma StronglySorted_impl (A : Type) (R R' : A -> A -> Prop) (l : list A) :
  (forall a b, R a b -> R' a b) -> StronglySorted R l -> StronglySorted R' l.
Proof.
  intros H. induction 1 as [| x l Hs IH Hx]; constructor; [assumption |].
  eapply Forall_impl; [| eassumption]. intros. now apply H.
Qed.



Lemma set_nth_same (A : Type) (l : list A) (i : nat) (d : A) :
  nth_error l i = Some d -> set_nth i d l = l.
Proof.
  intros H. destruct (nth_error_split l i H) as (l1 & l2 & -> & <-).
  apply set_nth_middle.
Qed.





Lemma heap_same_sym (h h' : Heap) :
  heap_same_but_DocumentID h h' -> heap_same_but_DocumentID h' h.
Proof. intros H a. destruct (H a) as (?&?&?&?). repeat split; congruence. Qed.

Lemma find_last_found (A : Type) (f : A -> bool) (l : list A) (i : nat) (d : A) :
  find_last f l = Some i -> nth_error l i = Some d -> f d = true.
Proof.
  intros Hf Hn. destruct (find_last_Some _ _ Hf) as (l1 & x & l2 & -> & <- & Hx & _).
  rewrite nth_error_middle in Hn. now inversion Hn; subst.
Qed.

(** ** Moving pages and moving them back *)

Section RoundTrip.
Context {L : GoLib}.
Hypothesis SortFunc_Permutation :
  forall (A : Type) (cmp : A -> A -> Z) (l : list A),
    Permutation (slices_SortFunc cmp l) l.
Hypothesis SortFunc_sorted :
  forall (A : Type) (key : A -> Z) (l : list A),
    StronglySorted (fun a b => key a <= key b) (slices_SortFunc (cmpBy key) l).


Lemma updatePageNumbers_SameMetadata (h : Heap) (d : Document.t) :
  SameMetadata (Document.updatePageNumbers h d) d.
Proof.
  unfold Document.updatePageNumbers.
  destruct (slices_SortFunc _ (Document.Pages d)); repeat split.
Qed.

Lemma AddPages_all (h : Heap) (d : Document.t) (pages : list addr) :
  NoDup pages ->
  (forall q, In q pages -> IsAssigned h q = false) ->
  Document.AddPages h d pages =
    (assignAll (Document.ID d) pages h,
     Document.updatePageNumbers (assignAll (Document.ID d) pages h)
       (Document.set_Pages d (Document.Pages d ++ pages)),
     None).
Proof.
  intros Hnd Hun. unfold Document.AddPages.
  rewrite <- (app_nil_r pages) at 1.
  rewrite AddPages_loop_prefix by assumption. reflexivity.
Qed.

(** A call of [MovePages] that returns no error got past the check on
    the target, and either was asked for no page or found one. *)
Lemma MovePages_None (h : Heap) (s : Split.t) (fromDocID toDocID : string)
  (pageIDs : list string) (i j : nat) (fromDoc toDoc : Document.t)
  (h' : Heap) (s' : Split.t) :
  find_last (fun d => String.eqb (Document.ID d) fromDocID) (Split.Documents s)
    = Some i ->
  nth_error (Split.Documents s) i = Some fromDoc ->
  find_last (fun d => String.eqb (Document.ID d) toDocID) (Split.Documents s)
    = Some j ->
  nth_error (Split.Documents s) j = Some toDoc ->
  Split.MovePages h s fromDocID toDocID pageIDs = (h', s', None) ->
  (forall p, In p (Document.Pages toDoc) -> ~ In (Page.ID (h p)) pageIDs)
  /\ (pageIDs = []
      \/ filter (Document.shouldRemove h pageIDs) (Document.Pages fromDoc) <> []).
Proof.
  intros Hi Hfrom Hj Hto H. unfold Split.MovePages in H.
  destruct (String.eqb (Split.Status s) SplitStatusFinalized); [discriminate |].
  rewrite Hi, Hj, Hfrom, Hto in H.
  destruct (existsb _ pageIDs) eqn:Hchk; [discriminate |].
  split.
  - intros p Hp Hin.
    assert (Ht : existsb (fun pid =>
               existsb (fun p => String.eqb (Page.ID (h p)) pid)
                 (Document.Pages toDoc)) pageIDs = true).
    { apply existsb_exists. exists (Page.ID (h p)). split; [assumption |].
      apply existsb_exists. exists p. split; [assumption | apply String.eqb_refl]. }
    congruence.
  - destruct pageIDs as [| pid rest]; [now left | right].
    intros Hnone. unfold Document.RemovePages in H. rewrite Hnone in H.
    discriminate.
Qed.

(** What a call of [MovePages] that finds pages to move does. *)
Lemma MovePages_moves (h : Heap) (s : Split.t) (fromDocID toDocID : string)
  (pageIDs : list string) (i j : nat) (fromDoc toDoc : Document.t) :
  Split.Status s <> SplitStatusFinalized ->
  find_last (fun d => String.eqb (Document.ID d) fromDocID) (Split.Documents s)
    = Some i ->
  nth_error (Split.Documents s) i = Some fromDoc ->
  find_last (fun d => String.eqb (Document.ID d) toDocID) (Split.Documents s)
    = Some j ->
  nth_error (Split.Documents s) j = Some toDoc ->
  i <> j ->
  (forall p, In p (Document.Pages toDoc) -> ~ In (Page.ID (h p)) pageIDs) ->
  let removed := filter (Document.shouldRemove h pageIDs) (Document.Pages fromDoc) in
  let remaining :=
    filter (fun p => negb (Document.shouldRemove h pageIDs p))
      (Document.Pages fromDoc) in
  removed <> [] ->
  NoDup removed ->
  let h1 := fold_left Unassign removed h in
  let h2 := assignAll (Document.ID toDoc) removed h1 in
  Split.MovePages h s fromDocID toDocID pageIDs =
    (h2,
     Split.set_Documents s
       (set_nth j
          (Document.updatePageNumbers h2
             (Document.set_Pages toDoc (Document.Pages toDoc ++ removed)))
          (set_nth i
             (Document.updatePageNumbers h1 (Document.set_Pages fromDoc remaining))
             (Split.Documents s))),
     None).
Proof.
  intros Hst Hi Hfrom Hj Hto Hij Hchk. cbv zeta. intros Hne Hnd.
  unfold Split.MovePages.
  apply String.eqb_neq in Hst. rewrite Hst, Hi, Hj, Hfrom, Hto.
  assert (Hchk' : existsb (fun pid =>
             existsb (fun p => String.eqb (Page.ID (h p)) pid)
               (Document.Pages toDoc)) pageIDs = false).
  { apply not_true_is_false. intros H.
    apply existsb_exists in H. destruct H as (pid & Hpid & H).
    apply existsb_exists in H. destruct H as (p & Hp & E).
    apply String.eqb_eq in E. subst. exact (Hchk p Hp Hpid). }
  rewrite Hchk'. unfold Document.RemovePages.
  destruct pageIDs as [| pid rest].
  { exfalso. apply Hne. apply filter_none. reflexivity. }
  destruct (filter (Document.shouldRemove h (pid :: rest)) (Document.Pages fromDoc))
    as [| r rs] eqn:Hrem; [congruence |].
  rewrite nth_error_set_nth_other by assumption. rewrite Hto.
  rewrite AddPages_all.
  - reflexivity.
  - assumption.
  - intros q Hq. unfold IsAssigned. now rewrite Unassign_all_in.
Qed.


End RoundTrip.

(** *** The insertion sort of the examples sorts *)

Lemma StronglySorted_snoc (A : Type) (R : A -> A -> Prop) (l : list A) (x : A) :
  StronglySorted R l -> Forall (fun a => R a x) l -> StronglySorted R (l ++ [x]).
Proof.
  induction 1 as [| y l Hs IH Hy]; intros Hx; cbn.
  - repeat constructor.
  - inversion Hx as [| ? ? Hyx Hlx]; subst.
    constructor; [now apply IH |].
    apply Forall_app. split; [assumption | now repeat constructor].
Qed.

Lemma StronglySorted_rev (A : Type) (R : A -> A -> Prop) (l : list A) :
  StronglySorted (fun a b => R b a) l -> StronglySorted R (rev l).
Proof.
  induction 1 as [| x l Hs IH Hx]; cbn; [constructor |].
  apply StronglySorted_snoc; [assumption |].
  rewrite Forall_forall in *. intros a Ha. apply Hx. now apply in_rev.
Qed.

Lemma insert_back_sorted (A : Type) (key : A -> Z) (x : A) (l : list A) :
  StronglySorted (fun a b => key b <= key a) l ->
  StronglySorted (fun a b => key b <= key a) (insert_back (cmpBy key) x l).
Proof.
  induction 1 as [| y l Hs IH Hy]; cbn; [repeat constructor |].
  unfold cmpBy at 1.
  destruct (key x <? key y) eqn:Hlt.
  - apply Z.ltb_lt in Hlt. cbn. constructor; [assumption |].
    eapply Permutation_Forall; [symmetry; apply insert_back_Permutation |].
    constructor; [lia | assumption].
  - apply Z.ltb_ge in Hlt.
    assert (E : ((if key x >? key y then 1 else 0) <? 0) = false)
      by (destruct (key x >? key y); reflexivity).
    rewrite E. constructor; [now constructor |].
    constructor; [assumption |].
    eapply Forall_impl; [| exact Hy]. cbn. intros; lia.
Qed.

Lemma insertionSort_sorted (A : Type) (key : A -> Z) (l : list A) :
  StronglySorted (fun a b => key a <= key b) (insertionSort (cmpBy key) l).
Proof.
  unfold insertionSort. apply StronglySorted_rev.
  assert (H : forall acc,
    StronglySorted (fun a b => key b <= key a) acc ->
    StronglySorted (fun a b => key b <= key a)
      (fold_left (fun acc x => insert_back (cmpBy key) x acc) l acc)).
  { induction l as [| x t IH]; intros acc Hacc; cbn; [assumption |].
    apply IH. now apply insert_back_sorted. }
  apply H. constructor.
Qed.

Lemma exampleLib_SortFunc_sorted (decode : string -> option splitData) :
  forall (A : Type) (key : A -> Z) (l : list A),
    StronglySorted (fun a b => key a <= key b)
      (@slices_SortFunc (exampleLib decode) A (cmpBy key) l).
Proof. intros. apply insertionSort_sorted. Qed.

(** *** A round trip, and two that do not give the bounds back *)



(** ** The theorems above at concrete aggregates *)

Lemma Finalize_gate_witness :
  (exists e, Split.Finalize two_docs_heap unassigned_split 200
             = (unassigned_split, Some e))
  /\ Split.Finalize two_docs_heap (two_docs_split SplitStatusDraft) 200
     = (Split.mk "split123" "client456" SplitStatusFinalized
          (Split.Documents (two_docs_split SplitStatusDraft)) [] 100 100 (Some 200),
        None)
  /\ (exists e, Split.Finalize two_docs_heap
                  (Split.mk "split123" "client456" SplitStatusFinalized
                     (Split.Documents (two_docs_split SplitStatusDraft)) []
                     100 100 (Some 200)) 300
                = (Split.mk "split123" "client456" SplitStatusFinalized
                     (Split.Documents (two_docs_split SplitStatusDraft)) []
                     100 100 (Some 200), Some e)
                /\ KindOf e = Some DomainErrorConflict).
Proof.
  split; [| split].
  - apply (proj1 (Finalize_gate two_docs_heap unassigned_split 200)). discriminate.
  - apply (proj1 (proj2 (Finalize_gate two_docs_heap
                           (two_docs_split SplitStatusDraft) 200)));
      [discriminate | reflexivity | reflexivity].
  - destruct (proj2 (proj2 (Finalize_gate two_docs_heap
                              (two_docs_split SplitStatusDraft) 200))
                _ eq_refl) as (_ & _ & H).
    apply (H two_docs_heap 300).
Defined.

Lemma MovePages_unmatched_witness :
  @Split.MovePages w2_lib two_docs_heap (two_docs_split SplitStatusDraft)
    "doc1" "doc2" ["nonexistent.png"]
  = (two_docs_heap, two_docs_split SplitStatusDraft,
     Some (NewValidationError "failed to remove pages from source document"
             (Some (NewNotFoundError
                      "none of the specified pages found in document" None)))).
Proof.
  apply (@MovePages_unmatched w2_lib two_docs_heap (two_docs_split SplitStatusDraft)
           "doc1" "doc2" ["nonexistent.png"] 0%nat 1%nat
           (test_doc "doc1" [0; 1; 2]%nat "page_1.png" "page_3.png")
           (test_doc "doc2" [3; 4]%nat "page_4.png" "page_5.png")).
  - discriminate.
  - reflexivity.
  - reflexivity.
  - reflexivity.
  - reflexivity.
  - cbn. intros p [<- | [<- | []]]; cbn; intuition discriminate.
  - cbn. intros p [<- | [<- | [<- | []]]]; cbn; intuition discriminate.
  - discriminate.
Defined.

Lemma RemoveDocument_spec_witness :
  (exists e, @Split.RemoveDocument w2_lib two_docs_heap
               (two_docs_split SplitStatusDraft) "nonexistent"
             = (two_docs_heap, two_docs_split SplitStatusDraft, Some e)
             /\ KindOf e = Some DomainErrorNotFound)
  /\ @Split.RemoveDocument w2_lib two_docs_heap
       (two_docs_split SplitStatusDraft) "doc1"
     = (fold_left Unassign [0; 1; 2]%nat two_docs_heap,
        Split.mk "split123" "client456" SplitStatusDraft
          [test_doc "doc2" [3; 4]%nat "page_4.png" "page_5.png"]
          [0; 1; 2]%nat 100 100 None,
        None).
Proof.
  assert (Hst : Split.Status (two_docs_split SplitStatusDraft) <> SplitStatusFinalized)
    by discriminate.
  destruct (@RemoveDocument_spec w2_lib two_docs_heap _ "nonexistent" Hst)
    as (Hnf & _).
  destruct (@RemoveDocument_spec w2_lib two_docs_heap _ "doc1" Hst)
    as (_ & _ & Hok).
  split.
  - apply Hnf. intros d [<- | [<- | []]]; discriminate.
  - apply (Hok [] (test_doc "doc1" [0; 1; 2]%nat "page_1.png" "page_3.png")
             [test_doc "doc2" [3; 4]%nat "page_4.png" "page_5.png"]).
    + reflexivity.
    + reflexivity.
    + intros d [].
Defined.


(* ================================================================== *)
(** * Properties of the repository                                     *)
(* ================================================================== *)

(** ** Upserts and deletes on a table *)

Section Tables.
Variables (R : Type) (key : R -> string) (merge : R -> R -> R).
Hypothesis merge_key : forall old new, key old = key new -> key (merge old new) = key new.

Lemma upsert_keys (new : R) (rows : list R) :
  map key (upsert key merge new rows)
  = if mem_string (key new) (map key rows) then map key rows
    else map key rows ++ [key new].
Proof.
  induction rows as [| old rest IH]; cbn; [reflexivity |].
  rewrite (String.eqb_sym (key new) (key old)).
  destruct (String.eqb (key old) (key new)) eqn:E; cbn.
  - apply String.eqb_eq in E. rewrite merge_key by assumption. now rewrite E.
  - rewrite IH. unfold mem_string.
    destruct (existsb (String.eqb (key new)) (map key rest)); reflexivity.
Qed.

Lemma mem_string_In (x : string) (l : list string) :
  mem_string x l = true <-> In x l.
Proof.
  unfold mem_string. rewrite existsb_exists. split.
  - intros (y & Hy & E). apply String.eqb_eq in E. now subst.
  - intros H. exists x. split; [assumption | apply String.eqb_refl].
Qed.

Lemma mem_string_not_In (x : string) (l : list string) :
  mem_string x l = false <-> ~ In x l.
Proof.
  rewrite <- mem_string_In. destruct (mem_string x l); split; intros; congruence.
Qed.

Lemma upsert_NoDup (new : R) (rows : list R) :
  NoDup (map key rows) -> NoDup (map key (upsert key merge new rows)).
Proof.
  intros H. rewrite upsert_keys.
  destruct (mem_string (key new) (map key rows)) eqn:E; [assumption |].
  apply mem_string_not_In in E.
  apply NoDup_app; repeat split; try assumption.
  - repeat constructor. intros [].
  - intros a Ha [<- | []]. contradiction.
Qed.

(** A row of the table after the upsert was there before, or has the key
    of the new row. *)
Lemma upsert_In_inv (new r : R) (rows : list R) :
  In r (upsert key merge new rows) -> In r rows \/ key r = key new.
Proof.
  induction rows as [| old rest IH]; cbn.
  - intros [<- | []]. now right.
  - destruct (String.eqb (key old) (key new)) eqn:E; cbn.
    + apply String.eqb_eq in E. intros [<- | H]; [right | left; now right].
      now apply merge_key.
    + intros [<- | H]; [left; now left |].
      destruct (IH H) as [H' | H']; [left; now right | now right].
Qed.

(** Rows with another key stay. *)
Lemma upsert_In_other (new r : R) (rows : list R) :
  In r rows -> key r <> key new -> In r (upsert key merge new rows).
Proof.
  induction rows as [| old rest IH]; cbn; [tauto |].
  intros [<- | H] Hk.
  - apply String.eqb_neq in Hk. rewrite Hk. now left.
  - destruct (String.eqb (key old) (key new)); [now right |].
    right. now apply IH.
Qed.

Lemma upsert_Forall (Q : R -> Prop) (new : R) (rows : list R) :
  Forall Q rows -> Q new ->
  (forall old, Q old -> key old = key new -> Q (merge old new)) ->
  Forall Q (upsert key merge new rows).
Proof.
  intros H Hnew Hm. induction H as [| old rest Hold Hrest IH]; cbn.
  - now repeat constructor.
  - destruct (String.eqb (key old) (key new)) eqn:E.
    + apply String.eqb_eq in E. constructor; [now apply Hm | assumption].
    + now constructor.
Qed.

End Tables.

Section Replace.
Variables (R : Type) (key : R -> string).

(** With the merge of the page and document upserts (every column from
    the new row) the new row is in the table afterwards. *)
Lemma upsert_In_new (new : R) (rows : list R) :
  In new (upsert key (fun _ n => n) new rows).
Proof.
  induction rows as [| old rest IH]; cbn; [now left |].
  destruct (String.eqb (key old) (key new)); [now left | now right].
Qed.

(** A sequence of upserts: for every key written, the table holds a row
    written with that key. *)
Lemma upserts_In (W : Type) (row : W -> R) (ws : list W) :
  forall rows x,
  In x (map (fun w => key (row w)) ws) ->
  exists w, In w ws /\ key (row w) = x
            /\ In (row w) (fold_left (fun rows w => upsert key (fun _ n => n)
                                                    (row w) rows) ws rows).
Proof.
  induction ws as [| w ws IH] using rev_ind; intros rows x Hx; [destruct Hx |].
  rewrite fold_left_app. cbn [fold_left].
  destruct (String.eqb_spec (key (row w)) x) as [E | N].
  - exists w. split; [apply in_or_app; right; now left |].
    split; [assumption | apply upsert_In_new].
  - rewrite map_app in Hx. apply in_app_or in Hx.
    destruct Hx as [Hx | [Hx | []]]; [| contradiction].
    destruct (IH rows x Hx) as (w' & Hw' & Hk & Hin).
    exists w'. split; [apply in_or_app; now left |].
    split; [assumption |].
    apply upsert_In_other; [assumption | congruence].
Qed.

Lemma upserts_NoDup (W : Type) (row : W -> R) (ws : list W) :
  forall rows,
  NoDup (map key rows) ->
  NoDup (map key (fold_left (fun rows w => upsert key (fun _ n => n)
                                             (row w) rows) ws rows)).
Proof.
  induction ws as [| w ws IH]; intros rows H; cbn; [assumption |].
  apply IH. apply upsert_NoDup; auto.
Qed.

Lemma upserts_Forall (Q : R -> Prop) (W : Type) (row : W -> R) (ws : list W) :
  forall rows,
  Forall Q rows -> (forall w, In w ws -> Q (row w)) ->
  Forall Q (fold_left (fun rows w => upsert key (fun _ n => n) (row w) rows)
              ws rows).
Proof.
  induction ws as [| w ws IH]; intros rows H Hw; cbn; [assumption |].
  apply IH; [| intros; apply Hw; now right].
  apply upsert_Forall;
    [assumption | apply Hw; now left | intros; apply Hw; now left].
Qed.

(** In a table where keys are unique, a row is the only one of its key. *)
Lemma NoDup_key_unique (rows : list R) (r r' : R) :
  NoDup (map key rows) -> In r rows -> In r' rows -> key r = key r' -> r = r'.
Proof.
  induction rows as [| a rest IH]; cbn; intros Hnd Hr Hr' E; [destruct Hr |].
  inversion Hnd as [| ? ? Ha Hrest]; subst.
  destruct Hr as [<- | Hr], Hr' as [<- | Hr']; auto.
  - exfalso. apply Ha. rewrite E. now apply in_map.
  - exfalso. apply Ha. rewrite <- E. now apply in_map.
Qed.

End Replace.

(** ** The tables after Save *)

Lemma filter_filter (A : Type) (f g : A -> bool) (l : list A) :
  filter f (filter g l) = filter (fun x => g x && f x) l.
Proof.
  induction l as [| x t IH]; cbn; [reflexivity |].
  destruct (g x); cbn; [destruct (f x) |]; now rewrite IH.
Qed.

Lemma NoDup_map_filter (A B : Type) (k : A -> B) (f : A -> bool) (l : list A) :
  NoDup (map k l) -> NoDup (map k (filter f l)).
Proof.
  induction l as [| x t IH]; cbn; intros H; [constructor |].
  inversion H as [| ? ? Hx Ht]; subst.
  destruct (f x); cbn; [| now apply IH].
  constructor; [| now apply IH].
  intros Hin. apply Hx. apply in_map_iff in Hin. destruct Hin as (y & E & Hy).
  apply filter_In in Hy. rewrite <- E. apply in_map. tauto.
Qed.

(** The loop over [toDeleteDocIDs] as one pass over the two tables. *)
Lemma delete_documents_closed (ids : list string) :
  forall db,
  fold_left (fun db id => delete_document id db) ids db
  = mkDB (splits db)
      (filter (fun r => negb (mem_string (dr_id r) ids)) (documents db))
      (filter (fun r => negb (match pr_document_id r with
                              | Some x => mem_string x ids
                              | None => false
                              end)) (pages db)).
Proof.
  induction ids as [| id rest IH]; intros db; cbn [fold_left].
  - destruct db as [sp ds ps]. cbn. f_equal.
    + symmetry. now apply filter_all.
    + symmetry. apply filter_all. intros r _. now destruct (pr_document_id r).
  - rewrite IH. unfold delete_document, delete_where. cbn [splits documents pages].
    rewrite !filter_filter. f_equal.
    + apply filter_ext. intros r. cbn. now rewrite negb_orb.
    + apply filter_ext. intros r. unfold opt_eqb.
      destruct (pr_document_id r); cbn; [now rewrite negb_orb | reflexivity].
Qed.

(** The loop over [toDeletePageIDs] as one pass over the table. *)
Lemma delete_pages_closed (ids : list string) :
  forall db,
  fold_left (fun db id => delete_page id db) ids db
  = mkDB (splits db) (documents db)
      (filter (fun r => negb (mem_string (pr_id r) ids)) (pages db)).
Proof.
  induction ids as [| id rest IH]; intros db; cbn [fold_left].
  - destruct db as [sp ds ps]. cbn. f_equal. symmetry. now apply filter_all.
  - rewrite IH. unfold delete_page, delete_where. cbn [splits documents pages].
    rewrite !filter_filter. f_equal.
    apply filter_ext. intros r. cbn. now rewrite negb_orb.
Qed.

Lemma save_pages_tables (h : Heap) (document_id : option string) (ps : list addr) :
  forall db,
  fold_left (save_page_row h document_id) ps db
  = mkDB (splits db) (documents db)
      (fold_left (fun rows w => upsert pr_id (fun _ n => n)
                                  (page_row h (fst w) (snd w)) rows)
         (map (pair document_id) ps) (pages db)).
Proof.
  induction ps as [| p rest IH]; intros db; cbn [fold_left map].
  - now destruct db.
  - rewrite IH. reflexivity.
Qed.

Lemma save_documents_tables (h : Heap) (ds : list Document.t) :
  forall db,
  fold_left (save_document h) ds db
  = mkDB (splits db)
      (fold_left (fun rows d => upsert dr_id (fun _ n => n) (document_row d) rows)
         ds (documents db))
      (fold_left (fun rows w => upsert pr_id (fun _ n => n)
                                  (page_row h (fst w) (snd w)) rows)
         (flat_map (fun d => map (pair (Some (Document.ID d))) (Document.Pages d)) ds)
         (pages db)).
Proof.
  induction ds as [| d rest IH]; intros db; cbn [fold_left flat_map].
  - now destruct db.
  - rewrite IH. unfold save_document. rewrite save_pages_tables.
    cbn [splits documents pages]. now rewrite fold_left_app.
Qed.

(** [Save] table by table: the rows left by the two reconciliation
    deletes, then the upserts in the order of the aggregate. *)
Lemma Save_tables (h : Heap) (db : DB) (s : Split.t) :
  Save h db s
  = mkDB (splits (save_split_row s db))
      (fold_left (fun rows d => upsert dr_id (fun _ n => n) (document_row d) rows)
         (Split.Documents s) (documents (reconciled h db s)))
      (fold_left (fun rows w => upsert pr_id (fun _ n => n)
                                  (page_row h (fst w) (snd w)) rows)
         (page_writes s) (pages (reconciled h db s))).
Proof.
  unfold Save. rewrite save_pages_tables, save_documents_tables.
  cbn [splits documents pages]. unfold page_writes. rewrite fold_left_app.
  unfold reconciled, delete_absent_pages, delete_absent_documents.
  rewrite !delete_pages_closed, !delete_documents_closed. reflexivity.
Qed.

Lemma reconciled_pages_incl (h : Heap) (db : DB) (s : Split.t) (r : PageRow) :
  In r (pages (reconciled h db s)) -> In r (pages db).
Proof.
  unfold reconciled, delete_absent_pages, delete_absent_documents.
  rewrite delete_pages_closed, delete_documents_closed. cbn [pages splits documents].
  intros H. apply filter_In in H. destruct H as (H & _).
  apply filter_In in H. tauto.
Qed.

Lemma reconciled_pages_NoDup (h : Heap) (db : DB) (s : Split.t) :
  NoDup (map pr_id (pages db)) -> NoDup (map pr_id (pages (reconciled h db s))).
Proof.
  intros H. unfold reconciled, delete_absent_pages, delete_absent_documents.
  rewrite delete_pages_closed, delete_documents_closed. cbn [pages splits documents].
  now do 2 apply NoDup_map_filter.
Qed.

(** [Save] keeps the primary key of [pages]. *)
Lemma Save_pages_NoDup (h : Heap) (db : DB) (s : Split.t) :
  NoDup (map pr_id (pages db)) -> NoDup (map pr_id (pages (Save h db s))).
Proof.
  intros H. rewrite Save_tables. cbn [pages].
  apply upserts_NoDup. now apply reconciled_pages_NoDup.
Qed.

(** [Save] never reads the [DocumentID] of a page. *)
Lemma Save_ignores_DocumentID (h h' : Heap) (db : DB) (s : Split.t) :
  heap_same_but_DocumentID h h' -> Save h db s = Save h' db s.
Proof.
  intros Hs.
  assert (Hrow : forall d p, page_row h d p = page_row h' d p).
  { intros d p. unfold page_row. destruct (Hs p) as (E1 & E2 & E3 & E4).
    now rewrite E1, E2, E3, E4. }
  assert (Hsave : forall d db0 p, save_page_row h d db0 p = save_page_row h' d db0 p).
  { intros. unfold save_page_row. now rewrite Hrow. }
  assert (Hfold : forall d ps db0,
    fold_left (save_page_row h d) ps db0 = fold_left (save_page_row h' d) ps db0).
  { intros d ps. induction ps as [| p rest IH]; intros db0; cbn; [reflexivity |].
    now rewrite Hsave, IH. }
  unfold Save. rewrite Hfold. f_equal.
  assert (Hdocs : forall ds db0,
    fold_left (save_document h) ds db0 = fold_left (save_document h') ds db0).
  { induction ds as [| d rest IH]; intros db0; cbn; [reflexivity |].
    unfold save_document at 2 4. now rewrite Hfold, IH. }
  rewrite Hdocs. f_equal.
  unfold delete_absent_pages. cbv zeta.
  assert (E : forall l, map (fun p => Page.ID (h p)) l = map (fun p => Page.ID (h' p)) l).
  { intros l. apply map_ext. intros p. destruct (Hs p) as (E & _). now rewrite E. }
  now rewrite E.
Qed.

(** ** What Get loads *)

Section Loading.
Context {L : GoLib}.
Hypothesis OrderBy_Permutation :
  forall (R : Type) (col : R -> string) (l : list R),
    Permutation (sql_OrderBy col l) l.

Lemma scanPages_spec (rows : list PageRow) :
  forall (st : Store) (acc : list addr) (st' : Store) (ps : list addr),
  scanPages st acc rows = (st', ps) ->
  ps = acc ++ seq (next st) (List.length rows)
  /\ next st' = (next st + List.length rows)%nat
  /\ (forall k r, nth_error rows k = Some r ->
        cells st' (next st + k)%nat = page_of_row r)
  /\ (forall b, (b < next st)%nat -> cells st' b = cells st b).
Proof.
  induction rows as [| r rest IH]; intros st acc st' ps H; cbn in H.
  - inversion H; subst. cbn. rewrite app_nil_r, Nat.add_0_r.
    repeat split; auto. intros k r Hk. destruct k; discriminate.
  - apply IH in H. cbn [next cells] in H.
    destruct H as (Hps & Hn & Hcells & Hold).
    split; [| split; [| split]].
    + rewrite Hps, <- app_assoc. reflexivity.
    + cbn [List.length]. lia.
    + intros [| k] r' Hk; cbn in Hk.
      * inversion Hk; subst r'. rewrite Nat.add_0_r, Hold by lia.
        apply upd_same.
      * replace (next st + S k)%nat with (S (next st) + k)%nat by lia.
        now apply Hcells.
    + intros b Hb. rewrite Hold by lia. apply upd_other. lia.
Qed.

(** The pages a scan returns are fresh cells, one per row, each filled
    from its row. *)
Lemma scanPages_pages (rows : list PageRow) (st st' : Store) (ps : list addr) :
  scanPages st [] rows = (st', ps) ->
  (next st <= next st')%nat
  /\ (forall a, In a ps ->
        (next st <= a < next st')%nat
        /\ exists r, In r rows /\ cells st' a = page_of_row r)
  /\ (forall r, In r rows -> exists a, In a ps /\ cells st' a = page_of_row r)
  /\ (forall b, (b < next st)%nat -> cells st' b = cells st b).
Proof.
  intros H. apply scanPages_spec in H. cbn [app] in H.
  destruct H as (-> & Hn & Hcells & Hold).
  split; [lia |]. split; [| split; [| assumption]].
  - intros a Ha. apply in_seq in Ha. split; [lia |].
    destruct (nth_error rows (a - next st)) as [r |] eqn:Hr.
    + exists r. split; [eapply nth_error_In; eassumption |].
      rewrite <- (Hcells _ _ Hr). f_equal. lia.
    + apply nth_error_None in Hr. lia.
  - intros r Hr. apply In_nth_error in Hr. destruct Hr as (k & Hk).
    exists (next st + k)%nat. split; [| now apply Hcells].
    apply in_seq. split; [lia |].
    assert (k < List.length rows)%nat by (apply nth_error_Some; congruence). lia.
Qed.

Lemma getPages_pages (st : Store) (db : DB) (documentID : string)
  (st' : Store) (ps : list addr) :
  getPages st db documentID = (st', ps) ->
  (next st <= next st')%nat
  /\ (forall a, In a ps ->
        (next st <= a < next st')%nat
        /\ exists r, In r (pages db) /\ pr_document_id r = Some documentID
                     /\ cells st' a = page_of_row r)
  /\ (forall b, (b < next st)%nat -> cells st' b = cells st b).
Proof.
  unfold getPages. intros H. apply scanPages_pages in H.
  destruct H as (Hn & Hps & _ & Hold).
  split; [assumption |]. split; [| assumption].
  intros a Ha. destruct (Hps a Ha) as (Hrange & r & Hr & Hc).
  split; [assumption |]. exists r.
  eapply Permutation_in in Hr; [| apply OrderBy_Permutation].
  apply filter_In in Hr. destruct Hr as (Hr & Hd).
  split; [assumption |]. split; [| assumption].
  unfold opt_eqb in Hd. destruct (pr_document_id r) as [x |]; [| discriminate].
  apply String.eqb_eq in Hd. now subst.
Qed.

Lemma getUnassignedPages_pages (st : Store) (db : DB) (splitID : string)
  (st' : Store) (ps : list addr) :
  getUnassignedPages st db splitID = (st', ps) ->
  (forall a, In a ps ->
     exists r, In r (pages db) /\ pr_split_id r = splitID
               /\ pr_document_id r = None /\ cells st' a = page_of_row r)
  /\ (forall r, In r (pages db) -> pr_split_id r = splitID ->
        pr_document_id r = None ->
        exists a, In a ps /\ cells st' a = page_of_row r)
  /\ (forall b, (b < next st)%nat -> cells st' b = cells st b).
Proof.
  unfold getUnassignedPages. intros H. apply scanPages_pages in H.
  destruct H as (_ & Hps & Hrows & Hold).
  split; [| split; [| assumption]].
  - intros a Ha. destruct (Hps a Ha) as (_ & r & Hr & Hc). exists r.
    eapply Permutation_in in Hr; [| apply OrderBy_Permutation].
    apply filter_In in Hr. destruct Hr as (Hr & Hd).
    apply andb_true_iff in Hd. destruct Hd as (Hs & Hnull).
    apply String.eqb_eq in Hs.
    repeat split; try assumption.
    destruct (pr_document_id r); [discriminate | reflexivity].
  - intros r Hr Hs Hnull. apply Hrows.
    eapply Permutation_in; [symmetry; apply OrderBy_Permutation |].
    apply filter_In. split; [assumption |].
    rewrite Hs, Hnull, String.eqb_refl. reflexivity.
Qed.

(** Each document [getDocuments] adds comes from a row of the query and
    holds pages loaded from the rows whose [document_id] is its ID. *)
Lemma scanDocuments_spec (db : DB) (rows : list DocumentRow) :
  forall (st : Store) (acc : list Document.t) (st' : Store)
         (docs : list Document.t),
  scanDocuments st db acc rows = (st', docs) ->
  exists new,
    docs = acc ++ new
    /\ (next st <= next st')%nat
    /\ (forall d, In d new ->
          (exists r, In r rows /\ Document.ID d = dr_id r)
          /\ forall a, In a (Document.Pages d) ->
               (next st <= a < next st')%nat
               /\ exists r, In r (pages db)
                            /\ pr_document_id r = Some (Document.ID d)
                            /\ cells st' a = page_of_row r)
    /\ (forall b, (b < next st)%nat -> cells st' b = cells st b).
Proof.
  induction rows as [| r rest IH]; intros st acc st' docs H; cbn in H.
  - inversion H; subst. exists []. rewrite app_nil_r.
    split; [reflexivity |]. split; [lia |].
    split; [intros ? [] | auto].
  - destruct (getPages st db (dr_id r)) as [st1 ps] eqn:Hp.
    apply getPages_pages in Hp. destruct Hp as (Hn1 & Hps & Hold1).
    apply IH in H. destruct H as (new & Hdocs & Hn & Hnew & Hold).
    exists (Document.mk (dr_id r) (dr_split_id r) (dr_name r)
              (dr_classification r) (dr_filename r) (dr_short_description r)
              ps (dr_start_page r) (dr_end_page r) :: new).
    split; [| split; [| split]].
    + rewrite Hdocs, <- app_assoc. reflexivity.
    + lia.
    + intros d [<- | Hd].
      * cbn [Document.ID Document.Pages]. split.
        { exists r. split; [now left | reflexivity]. }
        intros a Ha. destruct (Hps a Ha) as (Hrange & r' & Hr' & Hd' & Hc).
        split; [lia |]. exists r'. repeat split; try assumption.
        rewrite Hold by lia. assumption.
      * destruct (Hnew d Hd) as ((r' & Hr' & E) & Hpages). split.
        { exists r'. split; [now right | assumption]. }
        intros a Ha. destruct (Hpages a Ha) as (Hrange & Hrow).
        split; [lia | assumption].
    + intros b Hb. rewrite Hold by lia. now apply Hold1.
Qed.

(** What [Get] returns when the split has a row. *)
Lemma Get_Some (st : Store) (db : DB) (id : string) (st' : Store) (s : Split.t) :
  Get st db id = (st', Some s) ->
  (forall d, In d (Split.Documents s) ->
     (exists r, In r (documents db) /\ dr_split_id r = id
                /\ Document.ID d = dr_id r)
     /\ forall a, In a (Document.Pages d) ->
          exists r, In r (pages db) /\ pr_document_id r = Some (Document.ID d)
                    /\ cells st' a = page_of_row r)
  /\ (forall a, In a (Split.UnassignedPages s) ->
        exists r, In r (pages db) /\ pr_split_id r = id
                  /\ pr_document_id r = None /\ cells st' a = page_of_row r)
  /\ (forall r, In r (pages db) -> pr_split_id r = id ->
        pr_document_id r = None ->
        exists a, In a (Split.UnassignedPages s) /\ cells st' a = page_of_row r).
Proof.
  unfold Get. intros H.
  destruct (filter _ (splits db)) as [| r _]; [discriminate |].
  destruct (getDocuments st db id) as [st1 docs] eqn:Hd.
  destruct (getUnassignedPages st1 db id) as [st2 ups] eqn:Hu.
  inversion H; subst; clear H. cbn [Split.Documents Split.UnassignedPages].
  unfold getDocuments in Hd. apply scanDocuments_spec in Hd.
  destruct Hd as (new & Hdocs & Hn & Hnew & _). cbn [app] in Hdocs. subst new.
  apply getUnassignedPages_pages in Hu. destruct Hu as (Hups & Hrows & Hold).
  split; [| split; assumption].
  intros d Hd. destruct (Hnew d Hd) as ((r' & Hr' & E) & Hpages). split.
  - exists r'. eapply Permutation_in in Hr'; [| apply OrderBy_Permutation].
    apply filter_In in Hr'. destruct Hr' as (Hr' & Hs).
    apply String.eqb_eq in Hs. repeat split; assumption.
  - intros a Ha. destruct (Hpages a Ha) as (Hrange & r0 & Hr0 & Hd0 & Hc).
    exists r0. repeat split; try assumption. rewrite Hold by lia. assumption.
Qed.

Lemma Get_found (st : Store) (db : DB) (id : string) :
  (exists r, In r (splits db) /\ sr_id r = id) ->
  exists st' s, Get st db id = (st', Some s).
Proof.
  intros (r & Hr & E). unfold Get.
  destruct (filter (fun r => String.eqb (sr_id r) id) (splits db)) as [| r0 l] eqn:Hf.
  - exfalso. assert (Hin : In r (filter (fun r => String.eqb (sr_id r) id) (splits db))).
    { apply filter_In. split; [assumption |]. subst. apply String.eqb_refl. }
    rewrite Hf in Hin. destruct Hin.
  - destruct (getDocuments st db id) as [st1 docs].
    destruct (getUnassignedPages st1 db id) as [st2 ups]. eauto.
Qed.

End Loading.

(** ** Assignment is list membership at the repository boundary *)

Lemma page_writes_pages (s : Split.t) : map snd (page_writes s) = all_pages s.
Proof.
  unfold page_writes, all_pages. rewrite map_app. f_equal.
  - induction (Split.Documents s) as [| d rest IH]; cbn; [reflexivity |].
    rewrite map_app, IH. f_equal. rewrite map_map. cbn. apply map_id.
  - rewrite map_map. cbn. apply map_id.
Qed.

Lemma page_writes_In_document (s : Split.t) (d : Document.t) (p : addr) :
  In d (Split.Documents s) -> In p (Document.Pages d) ->
  In (Some (Document.ID d), p) (page_writes s).
Proof.
  intros Hd Hp. unfold page_writes. apply in_or_app. left.
  apply in_flat_map. exists d. split; [assumption |]. now apply in_map.
Qed.

Lemma upsert_has_key (R : Type) (key : R -> string) (merge : R -> R -> R)
  (new : R) (rows : list R) :
  (forall old new, key old = key new -> key (merge old new) = key new) ->
  exists r, In r (upsert key merge new rows) /\ key r = key new.
Proof.
  intros Hm. induction rows as [| old rest IH]; cbn.
  - exists new. split; [now left | reflexivity].
  - destruct (String.eqb (key old) (key new)) eqn:E.
    + apply String.eqb_eq in E. exists (merge old new).
      split; [now left | now apply Hm].
    + destruct IH as (r & Hr & Hk). exists r. split; [now right | assumption].
Qed.

Section Boundary.
Context {L : GoLib}.
Hypothesis OrderBy_Permutation :
  forall (R : Type) (col : R -> string) (l : list R),
    Permutation (sql_OrderBy col l) l.

(** C10.  (1) [Save] does not read [Page.DocumentID]: two heaps that
    differ only there give the same store.  (2) When no page ID is in two
    places of the aggregate, [Save] leaves, for each page of the page list
    of a document, the row that has the ID of that document as
    [document_id], and where the table had unique keys it is the only row
    with the ID of the page.  (3) Every page in the page list of a
    document [Get] returns has a nil [DocumentID], so [IsAssigned] is
    false for it, while it was loaded from a row whose [document_id] is the
    ID of that document. *)
Theorem assignment_is_list_membership :
  (forall (h h' : Heap) (db : DB) (s : Split.t),
     heap_same_but_DocumentID h h' -> Save h db s = Save h' db s)
  /\ (forall (h : Heap) (db : DB) (s : Split.t) (d : Document.t) (p : addr),
        SingleOwnership h s ->
        In d (Split.Documents s) -> In p (Document.Pages d) ->
        In (page_row h (Some (Document.ID d)) p) (pages (Save h db s))
        /\ (NoDup (map pr_id (pages db)) ->
            forall r, In r (pages (Save h db s)) -> pr_id r = Page.ID (h p) ->
                      r = page_row h (Some (Document.ID d)) p))
  /\ (forall (st : Store) (db : DB) (id : string) (st' : Store) (s : Split.t)
             (d : Document.t) (p : addr),
        Get st db id = (st', Some s) ->
        In d (Split.Documents s) -> In p (Document.Pages d) ->
        Page.DocumentID (cells st' p) = None
        /\ IsAssigned (cells st') p = false
        /\ exists r, In r (pages db) /\ pr_id r = Page.ID (cells st' p)
                     /\ pr_document_id r = Some (Document.ID d)).
Proof.
  split; [exact Save_ignores_DocumentID |]. split.
  - intros h db s d p Hso Hd Hp.
    assert (Hin : In (page_row h (Some (Document.ID d)) p) (pages (Save h db s))).
    { rewrite Save_tables. cbn [pages].
      pose proof (page_writes_In_document s d p Hd Hp) as Hw.
      destruct (upserts_In pr_id (fun w => page_row h (fst w) (snd w))
                  (page_writes s) (pages (reconciled h db s)) (Page.ID (h p)))
        as (w & Hw' & Hk & Hrow).
      { apply in_map_iff. exists (Some (Document.ID d), p). now split. }
      assert (E : w = (Some (Document.ID d), p)).
      { apply NoDup_key_unique
          with (key := fun w : option string * addr => Page.ID (h (snd w)))
               (rows := page_writes s); try assumption.
        unfold SingleOwnership, page_IDs in Hso.
        rewrite <- page_writes_pages, map_map in Hso. exact Hso. }
      subst w. exact Hrow. }
    split; [exact Hin |].
    intros Hkey r Hr Hid.
    apply NoDup_key_unique with (key := pr_id) (rows := pages (Save h db s));
      try assumption.
    now apply Save_pages_NoDup.
  - intros st db id st' s d p HG Hd Hp.
    destruct (Get_Some OrderBy_Permutation _ _ _ HG) as (Hdocs & _).
    destruct (Hdocs d Hd) as (_ & Hpages).
    destruct (Hpages p Hp) as (r & Hr & Hdoc & Hc).
    unfold IsAssigned. rewrite Hc. cbn.
    split; [reflexivity |]. split; [reflexivity |].
    exists r. repeat split; assumption.
Qed.

(** ** Saving after a document was removed *)

(** C4.  Let a split be saved, one of its documents (the only one of its
    ID, carrying the ID of the split as do its pages and the unassigned
    pages) be removed by [RemoveDocument], and the split be saved again.
    Then the store holds no document row of that ID and no page row whose
    [document_id] is that ID; and [Get] returns the split with no document
    of that ID, with each page of the removed document in its unassigned
    pool, not assigned, and in the page list of none of its documents. *)
Theorem Save_after_RemoveDocument (h : Heap) (db0 : DB) (s : Split.t)
  (l1 : list Document.t) (doc : Document.t) (l2 : list Document.t) (st : Store) :
  Split.Status s <> SplitStatusFinalized ->
  Split.Documents s = l1 ++ doc :: l2 ->
  (forall d, In d (l1 ++ l2) -> Document.ID d <> Document.ID doc) ->
  Document.SplitID doc = Split.ID s ->
  (forall p, In p (Split.UnassignedPages s ++ Document.Pages doc) ->
             Page.SplitID (h p) = Split.ID s) ->
  NoDup (map pr_id (pages db0)) ->
  exists h' s',
    Split.RemoveDocument h s (Document.ID doc) = (h', s', None)
    /\ let db2 := Save h' (Save h db0 s) s' in
       (forall r, In r (documents db2) -> dr_id r <> Document.ID doc)
       /\ (forall r, In r (pages db2) ->
             pr_document_id r <> Some (Document.ID doc))
       /\ exists st' loaded,
            Get st db2 (Split.ID s) = (st', Some loaded)
            /\ (forall d, In d (Split.Documents loaded) ->
                  Document.ID d <> Document.ID doc)
            /\ forall p, In p (Document.Pages doc) ->
                 (exists a, In a (Split.UnassignedPages loaded)
                            /\ Page.ID (cells st' a) = Page.ID (h p)
                            /\ IsAssigned (cells st') a = false)
                 /\ (forall d a, In d (Split.Documents loaded) ->
                       In a (Document.Pages d) ->
                       Page.ID (cells st' a) <> Page.ID (h p)).
Proof.
  intros Hst Hdocs Huniq Hsid Hpsid Hkey.
  set (docID := Document.ID doc) in *.
  assert (Hl1 : forall d, In d l1 -> Document.ID d <> docID).
  { intros d Hd. apply Huniq. apply in_or_app. now left. }
  pose proof (@RemoveDocument_first L h s docID l1 doc l2 Hst Hdocs eq_refl Hl1)
    as Hrm.
  pose proof (Unassign_all_same (Document.Pages doc) h) as Hsame.
  set (h' := fold_left Unassign (Document.Pages doc) h) in *.
  set (s' := Split.mk (Split.ID s) (Split.ClientID s) (Split.Status s)
               (l1 ++ l2) (Split.UnassignedPages s ++ Document.Pages doc)
               (Split.CreatedAt s) (Split.UpdatedAt s) (Split.FinalizedAt s)) in *.
  exists h', s'. split; [exact Hrm |]. cbv zeta.
  set (db1 := Save h db0 s). set (db2 := Save h' db1 s').
  (* the row of the document is in the store after the first Save *)
  assert (Hrow1 : In (document_row doc) (documents db1)).
  { unfold db1. rewrite Save_tables. cbn [documents].
    destruct (upserts_In dr_id document_row (Split.Documents s)
                (documents (reconciled h db0 s)) docID) as (d' & Hd' & Hk & Hin).
    { apply in_map_iff. exists doc. split; [reflexivity |].
      rewrite Hdocs. apply in_or_app. right. now left. }
    assert (E : d' = doc).
    { rewrite Hdocs in Hd'. apply in_app_or in Hd'.
      destruct Hd' as [Hd' | [Hd' | Hd']]; [| now symmetry |].
      - exfalso. apply (Huniq d'); [apply in_or_app; now left | exact Hk].
      - exfalso. apply (Huniq d'); [apply in_or_app; now right | exact Hk]. }
    now subst d'. }
  (* so the second Save puts its ID in toDeleteDocIDs *)
  assert (Hdel : In docID
    (filter (fun id => negb (mem_string id (map Document.ID (Split.Documents s'))))
       (map dr_id (filter (fun r => String.eqb (dr_split_id r) (Split.ID s'))
                     (documents (save_split_row s' db1)))))).
  { apply filter_In. split.
    - apply in_map_iff. exists (document_row doc). split; [reflexivity |].
      apply filter_In. split; [exact Hrow1 |].
      cbn. rewrite Hsid. apply String.eqb_refl.
    - apply negb_true_iff. apply mem_string_not_In. cbn.
      intros Hin. apply in_map_iff in Hin. destruct Hin as (d & E & Hd).
      exact (Huniq d Hd E). }
  apply mem_string_In in Hdel.
  assert (Hdocs2 : forall r, In r (documents db2) -> dr_id r <> docID).
  { apply Forall_forall. unfold db2. rewrite Save_tables. cbn [documents].
    apply upserts_Forall.
    - apply Forall_forall. intros r Hr.
      unfold reconciled, delete_absent_pages, delete_absent_documents in Hr.
      rewrite delete_pages_closed, delete_documents_closed in Hr.
      cbn [documents] in Hr. apply filter_In in Hr. destruct Hr as (_ & Hr).
      intros E. rewrite E, Hdel in Hr. discriminate.
    - intros d Hd. cbn. now apply Huniq. }
  assert (Hpages2 : forall r, In r (pages db2) -> pr_document_id r <> Some docID).
  { apply Forall_forall. unfold db2. rewrite Save_tables. cbn [pages].
    apply upserts_Forall.
    - apply Forall_forall. intros r Hr.
      unfold reconciled, delete_absent_pages, delete_absent_documents in Hr.
      rewrite delete_pages_closed, delete_documents_closed in Hr.
      cbn [pages] in Hr. apply filter_In in Hr. destruct Hr as (Hr & _).
      apply filter_In in Hr. destruct Hr as (_ & Hr).
      intros E. rewrite E, Hdel in Hr. discriminate.
    - intros [d p] Hw. cbn. unfold page_writes in Hw. apply in_app_or in Hw.
      destruct Hw as [Hw | Hw].
      + apply in_flat_map in Hw. destruct Hw as (d' & Hd' & Hw).
        apply in_map_iff in Hw. destruct Hw as (q & E & _).
        inversion E; subst. intros E'. inversion E' as [E''].
        exact (Huniq d' Hd' E'').
      + apply in_map_iff in Hw. destruct Hw as (q & E & _).
        inversion E; subst. discriminate. }
  split; [exact Hdocs2 |]. split; [exact Hpages2 |].
  (* the split has its row, so Get returns it *)
  destruct (@Get_found L st db2 (Split.ID s)) as (st' & loaded & HG).
  { unfold db2. rewrite Save_tables. cbn [splits]. unfold save_split_row.
    cbn [splits].
    apply (upsert_has_key sr_id
             (fun old new => mkSplitRow (sr_id old) (sr_client_id new)
                               (sr_status new) (sr_created_at old)
                               (sr_updated_at new))).
    intros old new E. exact E. }
  exists st', loaded. split; [exact HG |].
  destruct (Get_Some OrderBy_Permutation _ _ _ HG) as (Hld & _ & Hlu).
  split.
  - intros d Hd. destruct (Hld d Hd) as ((r & Hr & _ & E) & _).
    rewrite E. now apply Hdocs2.
  - intros p Hp.
    (* the last upserts of the second Save are those of the unassigned pool *)
    assert (Hrow : exists q,
              In q (Split.UnassignedPages s')
              /\ Page.ID (h' q) = Page.ID (h p)
              /\ In (page_row h' None q) (pages db2)).
    { unfold db2. rewrite Save_tables. cbn [pages]. unfold page_writes.
      rewrite fold_left_app.
      destruct (upserts_In pr_id (fun w => page_row h' (fst w) (snd w))
                  (map (pair (@None string)) (Split.UnassignedPages s'))
                  (fold_left
                     (fun rows w => upsert pr_id (fun _ n => n)
                                      (page_row h' (fst w) (snd w)) rows)
                     (flat_map
                        (fun d => map (pair (Some (Document.ID d)))
                                    (Document.Pages d)) (Split.Documents s'))
                     (pages (reconciled h' db1 s')))
                  (Page.ID (h p))) as (w & Hw & Hk & Hin).
      { apply in_map_iff. exists (None, p). split.
        - cbn. destruct (Hsame p) as (E & _). now rewrite E.
        - apply in_map. cbn. apply in_or_app. now right. }
      apply in_map_iff in Hw. destruct Hw as (q & E & Hq). subst w.
      exists q. repeat split; assumption. }
    destruct Hrow as (q & Hq & Hqid & Hrow).
    assert (Hqsid : pr_split_id (page_row h' None q) = Split.ID s).
    { cbn. destruct (Hsame q) as (_ & E & _). rewrite <- E. apply Hpsid.
      exact Hq. }
    split.
    + destruct (Hlu _ Hrow Hqsid eq_refl) as (a & Ha & Hc).
      exists a. split; [assumption |]. unfold IsAssigned. rewrite Hc. cbn.
      split; [assumption | reflexivity].
    + intros d a Hd Ha Hida.
      destruct (Hld d Hd) as (_ & Hpages).
      destruct (Hpages a Ha) as (r & Hr & Hrd & Hc).
      rewrite Hc in Hida. cbn in Hida.
      assert (E : r = page_row h' None q).
      { apply NoDup_key_unique with (key := pr_id) (rows := pages db2);
          try assumption.
        - unfold db2, db1. now do 2 apply Save_pages_NoDup.
        - cbn. congruence. }
      subst r. discriminate.
Qed.

End Boundary.

(** ** The repository at concrete aggregates *)

Lemma exampleLib_OrderBy_Permutation (decode : string -> option splitData) :
  forall (R : Type) (col : R -> string) (l : list R),
    Permutation (@sql_OrderBy (exampleLib decode) R col l) l.
Proof. intros. apply insertionSort_Permutation. Qed.

(** C3.  The split [NewSplit] builds from one document with the URLs
    [page_2.png] and [page_10.png] holds the two pages in the order 2, 10;
    saved to the empty store and loaded again, the document holds them in
    the order 10, 2: the column [page_number] is [TEXT], its values are the
    texts [2] and [10], and [ORDER BY page_number] puts [10] first. *)
Theorem Save_Get_reorders_pages :
  exists (st : Store) (s : Split.t) (st' : Store) (s' : Split.t),
    @NewSplit ten_lib emptyStore 100 100 "ten.json" = (st, Ok s)
    /\ @Get ten_lib st (Save (cells st) emptyDB s) "s1" = (st', Some s')
    /\ map (fun d => map (fun p => Page.PageNumber (cells st p)) (Document.Pages d))
         (Split.Documents s) = [[2; 10]]
    /\ map (fun d => map (fun p => Page.PageNumber (cells st' p)) (Document.Pages d))
         (Split.Documents s') = [[10; 2]]
    /\ map (fun d => page_IDs (cells st) (Document.Pages d)) (Split.Documents s)
       = [["id-0"; "id-1"]]
    /\ map (fun d => page_IDs (cells st') (Document.Pages d)) (Split.Documents s')
       = [["id-1"; "id-0"]]
    /\ map page_number_text (pages (Save (cells st) emptyDB s)) = ["2"; "10"]
    /\ String.ltb "10" "2" = true.
Proof.
  do 4 eexists. split; [reflexivity |]. split; [reflexivity |].
  repeat split; reflexivity.
Qed.

Lemma assignment_is_list_membership_witness :
  Save assigned_heap emptyDB (two_docs_split SplitStatusDraft)
  = Save two_docs_heap emptyDB (two_docs_split SplitStatusDraft)
  /\ In (mkPageRow "p3" "split123" (Some "doc1") 3 "page_3.png")
       (pages (Save assigned_heap emptyDB (two_docs_split SplitStatusDraft)))
  /\ (Page.DocumentID
        (cells (fst (@Get w2_lib two_docs_store
                       (Save assigned_heap emptyDB (two_docs_split SplitStatusDraft))
                       "split123")) 7%nat) = None
      /\ IsAssigned
           (cells (fst (@Get w2_lib two_docs_store
                          (Save assigned_heap emptyDB
                             (two_docs_split SplitStatusDraft))
                          "split123"))) 7%nat = false
      /\ exists r,
           In r (pages (Save assigned_heap emptyDB (two_docs_split SplitStatusDraft)))
           /\ pr_id r
              = Page.ID
                  (cells (fst (@Get w2_lib two_docs_store
                                 (Save assigned_heap emptyDB
                                    (two_docs_split SplitStatusDraft))
                                 "split123")) 7%nat)
           /\ pr_document_id r = Some "doc1").
Proof.
  destruct (@assignment_is_list_membership w2_lib
              (exampleLib_OrderBy_Permutation _)) as (H1 & H2 & H3).
  split; [| split].
  - symmetry. apply H1. intros a. unfold assigned_heap, upd.
    destruct (Nat.eqb a 2) eqn:E; [| repeat split].
    apply Nat.eqb_eq in E. subst. repeat split.
  - apply (H2 assigned_heap emptyDB (two_docs_split SplitStatusDraft)
             (test_doc "doc1" [0; 1; 2]%nat "page_1.png" "page_3.png") 2%nat).
    + unfold SingleOwnership. vm_compute.
      repeat (constructor; [cbn; intuition discriminate |]). constructor.
    + now left.
    + cbn. tauto.
  - apply (H3 two_docs_store
             (Save assigned_heap emptyDB (two_docs_split SplitStatusDraft))
             "split123"
             (fst (@Get w2_lib two_docs_store
                     (Save assigned_heap emptyDB (two_docs_split SplitStatusDraft))
                     "split123"))
             (Split.mk "split123" "client456" "draft"
                [test_doc "doc1" [5; 6; 7]%nat "page_1.png" "page_3.png";
                 test_doc "doc2" [8; 9]%nat "page_4.png" "page_5.png"]
                [] 100 100 None)
             (test_doc "doc1" [5; 6; 7]%nat "page_1.png" "page_3.png") 7%nat).
    + reflexivity.
    + now left.
    + cbn. tauto.
Defined.

Lemma Save_after_RemoveDocument_witness :
  exists h' s',
    @Split.RemoveDocument w2_lib two_docs_heap (two_docs_split SplitStatusDraft) "doc1"
    = (h', s', None)
    /\ let db2 := Save h' (Save two_docs_heap emptyDB
                             (two_docs_split SplitStatusDraft)) s' in
       (forall r, In r (documents db2) -> dr_id r <> "doc1")
       /\ (forall r, In r (pages db2) -> pr_document_id r <> Some "doc1")
       /\ exists st' loaded,
            @Get w2_lib two_docs_store db2 "split123" = (st', Some loaded)
            /\ (forall d, In d (Split.Documents loaded) -> Document.ID d <> "doc1")
            /\ forall p, In p [0; 1; 2]%nat ->
                 (exists a, In a (Split.UnassignedPages loaded)
                            /\ Page.ID (cells st' a) = Page.ID (two_docs_heap p)
                            /\ IsAssigned (cells st') a = false)
                 /\ (forall d a, In d (Split.Documents loaded) ->
                       In a (Document.Pages d) ->
                       Page.ID (cells st' a) <> Page.ID (two_docs_heap p)).
Proof.
  apply (@Save_after_RemoveDocument w2_lib (exampleLib_OrderBy_Permutation _)
           two_docs_heap emptyDB (two_docs_split SplitStatusDraft)
           [] (test_doc "doc1" [0; 1; 2]%nat "page_1.png" "page_3.png")
           [test_doc "doc2" [3; 4]%nat "page_4.png" "page_5.png"] two_docs_store).
  - discriminate.
  - reflexivity.
  - intros d [<- | []]. discriminate.
  - reflexivity.
  - cbn. intros p [<- | [<- | [<- | []]]]; reflexivity.
  - constructor.
Defined.

(* ================================================================== *)
(** * Further properties of the documents                              *)
(* ================================================================== *)

Lemma last_default (A : Type) (l : list A) :
  forall a x y : A, last (a :: l) x = last (a :: l) y.
Proof.
  induction l as [| b l IH]; intros a x y; [reflexivity |].
  change (last (b :: l) x = last (b :: l) y). apply IH.
Qed.

Lemma last_In (A : Type) (l : list A) :
  forall a x : A, In (last (a :: l) x) (a :: l).
Proof.
  induction l as [| b l IH]; intros a x; [now left |].
  right. change (In (last (b :: l) x) (b :: l)). apply IH.
Qed.

(** In a sorted list the first element has the least key and the last the
    greatest. *)
Lemma sorted_first_last (A : Type) (key : A -> Z) (l : list A) :
  forall x : A,
  StronglySorted (fun a b => key a <= key b) (x :: l) ->
  forall p, In p (x :: l) -> key x <= key p <= key (last (x :: l) x).
Proof.
  induction l as [| y l IH]; intros x Hs p Hp.
  - destruct Hp as [<- | []]. cbn. lia.
  - inversion Hs as [| ? ? Hs' Hall]; subst.
    change (last (x :: y :: l) x) with (last (y :: l) x).
    rewrite (last_default l y x y).
    pose proof (IH y Hs') as IHy.
    assert (Hxy : key x <= key y) by (inversion Hall; assumption).
    destruct Hp as [<- | Hp].
    + specialize (IHy y (or_introl eq_refl)). lia.
    + specialize (IHy p Hp).
      rewrite Forall_forall in Hall. specialize (Hall p Hp). lia.
Qed.

Lemma Valid_pages_None (h : Heap) (ps : list addr) :
  Document.Valid_pages h ps = None
  <-> forall p, In p ps -> Page.Valid (h p) = None.
Proof.
  induction ps as [| a ps IH]; cbn.
  - split; [intros _ p [] | reflexivity].
  - destruct (Page.Valid (h a)) eqn:E.
    + split; [discriminate |]. intros H. specialize (H a (or_introl eq_refl)).
      congruence.
    + rewrite IH. split.
      * intros H p [<- | Hp]; auto.
      * intros H p Hp. apply H. now right.
Qed.

Lemma Page_Valid_same (p q : Page.t) :
  same_but_DocumentID p q -> Page.Valid q = Page.Valid p.
Proof.
  intros (H1 & H2 & _ & H4). unfold Page.Valid. now rewrite H1, H2, H4.
Qed.

Lemma Valid_pages_same (h h' : Heap) (ps : list addr) :
  heap_same_but_DocumentID h h' ->
  Document.Valid_pages h' ps = Document.Valid_pages h ps.
Proof.
  intros Hs. induction ps as [| a ps IH]; cbn; [reflexivity |].
  rewrite (Page_Valid_same (Hs a)). now rewrite IH.
Qed.

Lemma Document_Valid_same (h h' : Heap) (d : Document.t) :
  heap_same_but_DocumentID h h' ->
  Document.Valid h' d = Document.Valid h d.
Proof.
  intros Hs. unfold Document.Valid. now rewrite (Valid_pages_same _ Hs).
Qed.

(** The loop of [AddPages] runs to its end only over unassigned pages
    that are listed once. *)
Lemma AddPages_loop_None (docID : string) (pages : list addr) :
  forall (h : Heap) (acc : list addr) (h' : Heap) (ps : list addr),
  Document.AddPages_loop h docID acc pages = (h', ps, None) ->
  NoDup pages /\ forall q, In q pages -> IsAssigned h q = false.
Proof.
  induction pages as [| p rest IH]; intros h acc h' ps H.
  - split; [constructor | intros q []].
  - cbn in H. unfold AssignToDocument in H.
    destruct (IsAssigned h p) eqn:Ea; [discriminate |].
    apply IH in H. destruct H as [Hnd Hun].
    assert (Hp : ~ In p rest).
    { intros Hin. specialize (Hun p Hin). unfold IsAssigned in Hun.
      rewrite upd_same in Hun. discriminate. }
    split; [now constructor |].
    intros q [<- | Hq]; [assumption |].
    specialize (Hun q Hq). unfold IsAssigned in *.
    rewrite upd_other in Hun; [assumption |]. intros ->. contradiction.
Qed.

Lemma AddPages_loop_error (docID : string) (pages : list addr) :
  forall (h : Heap) (acc : list addr) (h' : Heap) (ps : list addr) (e : error),
  Document.AddPages_loop h docID acc pages = (h', ps, Some e) ->
  KindOf e = Some DomainErrorValidation
  /\ chainHasKind DomainErrorConflict e = true.
Proof.
  induction pages as [| p rest IH]; intros h acc h' ps e H.
  - discriminate.
  - cbn in H. unfold AssignToDocument in H.
    destruct (IsAssigned h p) eqn:Ea.
    + inversion H; subst. split; reflexivity.
    + now apply IH in H.
Qed.

Lemma Document_Valid_iff (h : Heap) (d : Document.t) :
  Document.Valid h d = None
  <-> Document.ID d <> "" /\ Document.SplitID d <> "" /\ Document.Name d <> ""
      /\ Document.Classification d <> "" /\ Document.Filename d <> ""
      /\ Document.Pages d <> []
      /\ forall p, In p (Document.Pages d) -> Page.Valid (h p) = None.
Proof.
  unfold Document.Valid.
  destruct (String.eqb_spec (Document.ID d) "") as [E | N1];
    [split; [discriminate | intros (N & _); now contradiction N] |].
  destruct (String.eqb_spec (Document.SplitID d) "") as [E | N2];
    [split; [discriminate | intros (_ & N & _); now contradiction N] |].
  destruct (String.eqb_spec (Document.Name d) "") as [E | N3];
    [split; [discriminate | intros (_ & _ & N & _); now contradiction N] |].
  destruct (String.eqb_spec (Document.Classification d) "") as [E | N4];
    [split; [discriminate | intros (_ & _ & _ & N & _); now contradiction N] |].
  destruct (String.eqb_spec (Document.Filename d) "") as [E | N5];
    [split; [discriminate
            | intros (_ & _ & _ & _ & N & _); now contradiction N] |].
  destruct (Document.Pages d) as [| p0 ps];
    [split; [discriminate
            | intros (_ & _ & _ & _ & _ & N & _); now contradiction N] |].
  cbn [List.length Nat.eqb]. rewrite Valid_pages_None. split.
  - intros Hv. repeat (split; [assumption || discriminate |]). exact Hv.
  - intros (_ & _ & _ & _ & _ & _ & Hv). exact Hv.
Qed.

(** Every error of [Document.Valid] is a Validation error. *)
Lemma Document_Valid_kind (h : Heap) (d : Document.t) (e : error) :
  Document.Valid h d = Some e -> KindOf e = Some DomainErrorValidation.
Proof.
  unfold Document.Valid.
  repeat match goal with
         | |- context [if ?b then _ else _] =>
             destruct b; [intros [= <-]; reflexivity |]
         end.
  generalize (Document.Pages d).
  intros ps. induction ps as [| a ps IH]; cbn; [discriminate |].
  destruct (Page.Valid (h a)) as [pe |] eqn:Ep; [| exact IH].
  intros [= <-]. reflexivity.
Qed.

Lemma InOrder_same (h h' : Heap) (ps : list addr) :
  heap_same_but_DocumentID h h' -> InOrder h ps -> InOrder h' ps.
Proof.
  intros Hs. unfold InOrder. apply StronglySorted_impl.
  intros a b. destruct (Hs a) as (_ & _ & Ha & _).
  destruct (Hs b) as (_ & _ & Hb & _). now rewrite Ha, Hb.
Qed.

Lemma BoundsOf_same (h h' : Heap) (d : Document.t) :
  heap_same_but_DocumentID h h' -> BoundsOf h d -> BoundsOf h' d.
Proof.
  intros Hs. unfold BoundsOf. destruct (Document.Pages d) as [| a t]; [auto |].
  destruct (Hs a) as (_ & _ & _ & Ha).
  destruct (Hs (last (a :: t) a)) as (_ & _ & _ & Hb). now rewrite Ha, Hb.
Qed.

(** A call of [AddPages] that returns no error was given unassigned pages,
    each once. *)
Lemma AddPages_None_inv {L : GoLib} (h : Heap) (d : Document.t)
  (pages : list addr) (h' : Heap) (d' : Document.t) :
  Document.AddPages h d pages = (h', d', None) ->
  NoDup pages /\ forall q, In q pages -> IsAssigned h q = false.
Proof.
  unfold Document.AddPages. intros H.
  destruct (Document.AddPages_loop h (Document.ID d) (Document.Pages d) pages)
    as [[h1 ps] [e |]] eqn:E; [discriminate |].
  eapply AddPages_loop_None, E.
Qed.

Section Documents.
Context {L : GoLib}.

(** X2: [AddPages] succeeds exactly on pages that are all unassigned and
  listed once; its only error is a Validation error whose cause is the
  Conflict of [AssignToDocument]. *)
Theorem AddPages_succeeds_iff (h : Heap) (d : Document.t) (pages : list addr) :
(snd (Document.AddPages h d pages) = None
 <-> NoDup pages /\ forall q, In q pages -> IsAssigned h q = false)
/\ forall e, snd (Document.AddPages h d pages) = Some e ->
     KindOf e = Some DomainErrorValidation
     /\ chainHasKind DomainErrorConflict e = true.
Proof.
split; [split |].
- unfold Document.AddPages.
  destruct (Document.AddPages_loop h (Document.ID d) (Document.Pages d) pages)
    as [[h' ps] [e |]] eqn:E; cbn; [discriminate |].
  intros _. eapply AddPages_loop_None, E.
- intros [Hnd Hun]. now rewrite AddPages_all.
- unfold Document.AddPages.
  destruct (Document.AddPages_loop h (Document.ID d) (Document.Pages d) pages)
    as [[h' ps] [e' |]] eqn:E; cbn; [| discriminate].
  intros e [= <-]. eapply AddPages_loop_error, E.
Qed.

Hypothesis SortFunc_Permutation :
forall (A : Type) (cmp : A -> A -> Z) (l : list A),
  Permutation (slices_SortFunc cmp l) l.
Hypothesis SortFunc_sorted :
forall (A : Type) (key : A -> Z) (l : list A),
  StronglySorted (fun a b => key a <= key b) (slices_SortFunc (cmpBy key) l).

Lemma updatePageNumbers_InOrder (h : Heap) (d : Document.t) :
InOrder h (Document.Pages (Document.updatePageNumbers h d)).
Proof.
rewrite updatePageNumbers_Pages. apply SortFunc_sorted.
Qed.

Lemma updatePageNumbers_Permutation (h : Heap) (d : Document.t) :
Permutation (Document.Pages (Document.updatePageNumbers h d)) (Document.Pages d).
Proof.
rewrite updatePageNumbers_Pages. apply SortFunc_Permutation.
Qed.

Lemma updatePageNumbers_BoundsOf (h : Heap) (d : Document.t) :
BoundsOf h (Document.updatePageNumbers h d).
Proof.
unfold BoundsOf, Document.updatePageNumbers.
destruct (slices_SortFunc _ (Document.Pages d)) as [| a t]; cbn; auto.
Qed.

(** X1: [updatePageNumbers] keeps the pages, puts them in the order of their
  page numbers and derives the bounds from them: no bounds for no page,
  else the URL of a page of the least number and the URL of a page of the
  greatest number. *)
Theorem updatePageNumbers_range (h : Heap) (d : Document.t) :
let d' := Document.updatePageNumbers h d in
Permutation (Document.Pages d') (Document.Pages d)
/\ InOrder h (Document.Pages d')
/\ SameMetadata d' d
/\ (Document.Pages d = [] ->
    Document.StartPage d' = "" /\ Document.EndPage d' = "")
/\ (Document.Pages d <> [] ->
    exists lo hi,
      In lo (Document.Pages d) /\ In hi (Document.Pages d)
      /\ Document.StartPage d' = Page.URL (h lo)
      /\ Document.EndPage d' = Page.URL (h hi)
      /\ forall p, In p (Document.Pages d) ->
           Page.PageNumber (h lo) <= Page.PageNumber (h p)
             <= Page.PageNumber (h hi)).
Proof.
intros d'.
pose proof (updatePageNumbers_Permutation h d) as Hperm.
pose proof (updatePageNumbers_InOrder h d) as Hsort.
pose proof (updatePageNumbers_BoundsOf h d) as Hb.
fold d' in Hperm, Hsort, Hb.
split; [exact Hperm |]. split; [exact Hsort |].
split; [apply updatePageNumbers_SameMetadata |].
unfold BoundsOf in Hb. split.
- intros Hnil. rewrite Hnil in Hperm.
  apply Permutation_sym, Permutation_nil in Hperm.
  now rewrite Hperm in Hb.
- intros Hne. destruct (Document.Pages d') as [| a t] eqn:E.
  + apply Permutation_nil in Hperm. contradiction.
  + destruct Hb as [Hs He]. exists a, (last (a :: t) a).
    split; [eapply Permutation_in; [exact Hperm | now left] |].
    split; [eapply Permutation_in; [exact Hperm | apply last_In] |].
    split; [exact Hs |]. split; [exact He |].
    intros p Hp.
    apply (sorted_first_last (fun q => Page.PageNumber (h q)) Hsort).
    eapply Permutation_in; [apply Permutation_sym; exact Hperm | exact Hp].
Qed.

(** X3: a successful [AddPages] appends exactly the given pages, marks each
  of them as assigned to the document, touches no other page, and leaves
  the pages in order with the bounds derived from them. *)
Theorem AddPages_effect (h : Heap) (d : Document.t) (pages : list addr)
(h' : Heap) (d' : Document.t) :
Document.AddPages h d pages = (h', d', None) ->
Permutation (Document.Pages d') (Document.Pages d ++ pages)
/\ InOrder h' (Document.Pages d')
/\ BoundsOf h' d'
/\ SameMetadata d' d
/\ (forall p, In p pages -> Page.DocumentID (h' p) = Some (Document.ID d))
/\ (forall a, ~ In a pages -> h' a = h a)
/\ heap_same_but_DocumentID h h'.
Proof.
intros H.
assert (Hok : NoDup pages /\ forall q, In q pages -> IsAssigned h q = false).
{ unfold Document.AddPages in H.
  destruct (Document.AddPages_loop h (Document.ID d) (Document.Pages d) pages)
    as [[h1 ps] [e |]] eqn:E; [discriminate |].
  eapply AddPages_loop_None, E. }
destruct Hok as [Hnd Hun]. rewrite AddPages_all in H by assumption.
inversion H; subst; clear H.
split; [| split; [| split; [| split; [| split; [| split]]]]].
- rewrite updatePageNumbers_Permutation. reflexivity.
- apply updatePageNumbers_InOrder.
- apply updatePageNumbers_BoundsOf.
- apply (updatePageNumbers_SameMetadata _
           (Document.set_Pages d (Document.Pages d ++ pages))).
- intros p Hp. now rewrite assignAll_in.
- intros a Ha. now apply assignAll_notin.
- apply assignAll_same.
Qed.

(** X4: [RemovePages] splits the page list in two: the pages whose ID was
  asked for are returned, unassigned, and the others stay, in order, with
  the bounds derived from them.  It fails, with a NotFound error and no
  change, only when IDs were given and none is the ID of a page of the
  document. *)
Theorem RemovePages_partition (h : Heap) (d : Document.t)
(pageIDs : list string) (h' : Heap) (d' : Document.t) (removed : list addr)
(err : option error) :
Document.RemovePages h d pageIDs = (h', d', removed, err) ->
Permutation (removed ++ Document.Pages d') (Document.Pages d)
/\ (forall p, In p removed ->
      In (Page.ID (h p)) pageIDs /\ Page.DocumentID (h' p) = None)
/\ (forall p, In p (Document.Pages d') -> ~ In (Page.ID (h p)) pageIDs)
/\ (forall a, ~ In a removed -> h' a = h a)
/\ heap_same_but_DocumentID h h'
/\ SameMetadata d' d
/\ (err = None -> pageIDs <> [] ->
    InOrder h' (Document.Pages d') /\ BoundsOf h' d')
/\ (err = None <->
    pageIDs = []
    \/ exists p, In p (Document.Pages d) /\ In (Page.ID (h p)) pageIDs)
/\ (forall e, err = Some e ->
      KindOf e = Some DomainErrorNotFound
      /\ h' = h /\ d' = d /\ removed = []).
Proof.
unfold Document.RemovePages. intros H.
destruct pageIDs as [| pid rest].
{ injection H as <- <- <- <-. cbn.
  repeat split; auto; try discriminate; try contradiction. }
destruct (filter (Document.shouldRemove h (pid :: rest)) (Document.Pages d))
  as [| r rs] eqn:Hrem.
{ injection H as <- <- <- <-. cbn [app].
  assert (Hnone : forall p, In p (Document.Pages d) ->
                    ~ In (Page.ID (h p)) (pid :: rest)).
  { intros p Hp Hin. apply shouldRemove_In in Hin.
    assert (Hf : In p (filter (Document.shouldRemove h (pid :: rest))
                         (Document.Pages d))) by (apply filter_In; auto).
    rewrite Hrem in Hf. contradiction. }
  split; [reflexivity |]. split; [intros p [] |]. split; [exact Hnone |].
  split; [reflexivity |]. split; [apply heap_same_refl |].
  split; [repeat split |]. split; [discriminate |].
  split.
  - split; [discriminate |]. intros [Hnil | (p & Hp & Hin)]; [discriminate |].
    exfalso. exact (Hnone p Hp Hin).
  - intros e [= <-]. repeat split. }
injection H as <- <- <- <-.
change (fold_left Unassign rs (Unassign h r))
  with (fold_left Unassign (r :: rs) h).
rewrite <- Hrem.
set (removed := filter (Document.shouldRemove h (pid :: rest)) (Document.Pages d)).
set (h1 := fold_left Unassign removed h).
split.
{ rewrite updatePageNumbers_Permutation. cbn [Document.Pages Document.set_Pages].
  exact (Permutation_trans (Permutation_app_comm _ _)
           (filter_split_Permutation (Document.shouldRemove h (pid :: rest))
              (Document.Pages d))). }
split.
{ intros p Hp. split.
  - apply filter_In in Hp. destruct Hp as [_ Hp].
    apply shouldRemove_In. exact Hp.
  - unfold h1. rewrite Unassign_all_in; [reflexivity | exact Hp]. }
split.
{ intros p Hp.
  apply (Permutation_in _ (updatePageNumbers_Permutation _ _)) in Hp.
  cbn [Document.Pages Document.set_Pages] in Hp.
  apply filter_In in Hp. destruct Hp as [_ Hp].
  apply shouldRemove_not_In. apply negb_true_iff in Hp. exact Hp. }
split; [intros a Ha; now apply Unassign_all_notin |].
split; [apply Unassign_all_same |].
split.
{ apply (updatePageNumbers_SameMetadata _ (Document.set_Pages d _)). }
split.
{ intros _ _. split; [apply updatePageNumbers_InOrder
                     | apply updatePageNumbers_BoundsOf]. }
split.
- split; [| reflexivity]. intros _. right. exists r.
  assert (Hr : In r removed) by (unfold removed; rewrite Hrem; now left).
  apply filter_In in Hr. destruct Hr as [Hr1 Hr2].
  split; [exact Hr1 | now apply shouldRemove_In].
- discriminate.
Qed.

(** X5: [NewDocument] returns a document exactly when the five required
  strings are not empty, there is at least one page and every page is
  valid; the document then holds the given pages in order, with the
  bounds derived from them, and is valid.  Every error it returns leads
  to a Validation error. *)
Theorem NewDocument_Ok_iff (h : Heap)
(id splitID name classification filename shortDescription : string)
(pages : list addr) :
((exists d, Document.NewDocument h id splitID name classification filename
             shortDescription pages = Ok d)
 <-> id <> "" /\ splitID <> "" /\ name <> "" /\ classification <> ""
     /\ filename <> "" /\ pages <> []
     /\ forall p, In p pages -> Page.Valid (h p) = None)
/\ (forall d, Document.NewDocument h id splitID name classification filename
                shortDescription pages = Ok d ->
      Document.Valid h d = None
      /\ SameMetadata d (Document.mk id splitID name classification filename
                           shortDescription pages "" "")
      /\ Permutation (Document.Pages d) pages
      /\ InOrder h (Document.Pages d) /\ BoundsOf h d)
/\ (forall e, Document.NewDocument h id splitID name classification filename
                shortDescription pages = Err e ->
      KindOf e = Some DomainErrorValidation).
Proof.
set (d0 := Document.mk id splitID name classification filename
             shortDescription pages "" "").
assert (Hperm := updatePageNumbers_Permutation h d0).
assert (Hmeta := updatePageNumbers_SameMetadata h d0).
destruct Hmeta as (M1 & M2 & M3 & M4 & M5 & M6).
assert (Hvalid : Document.Valid h (Document.updatePageNumbers h d0) = None
                 <-> id <> "" /\ splitID <> "" /\ name <> ""
                     /\ classification <> "" /\ filename <> "" /\ pages <> []
                     /\ forall p, In p pages -> Page.Valid (h p) = None).
{ unfold Document.Valid. rewrite M1, M2, M3, M4, M5. cbn [d0 Document.ID
    Document.SplitID Document.Name Document.Classification Document.Filename].
  rewrite (Permutation_length Hperm). cbn [d0 Document.Pages].
  destruct (String.eqb_spec id "") as [-> | N1];
    [split; [discriminate | intros (N & _); now contradiction N] |].
  destruct (String.eqb_spec splitID "") as [-> | N2];
    [split; [discriminate | intros (_ & N & _); now contradiction N] |].
  destruct (String.eqb_spec name "") as [-> | N3];
    [split; [discriminate | intros (_ & _ & N & _); now contradiction N] |].
  destruct (String.eqb_spec classification "") as [-> | N4];
    [split; [discriminate | intros (_ & _ & _ & N & _); now contradiction N] |].
  destruct (String.eqb_spec filename "") as [-> | N5];
    [split; [discriminate
            | intros (_ & _ & _ & _ & N & _); now contradiction N] |].
  destruct pages as [| p0 ps];
    [split; [discriminate
            | intros (_ & _ & _ & _ & _ & N & _); now contradiction N] |].
  cbn [List.length Nat.eqb]. rewrite Valid_pages_None. split.
  - intros Hv. repeat (split; [assumption || discriminate |]).
    intros p Hp. apply Hv.
    eapply Permutation_in; [apply Permutation_sym; exact Hperm | exact Hp].
  - intros (_ & _ & _ & _ & _ & _ & Hv) p Hp. apply Hv.
    eapply Permutation_in; [exact Hperm | exact Hp]. }
unfold Document.NewDocument. cbv zeta. fold d0.
destruct (Document.Valid h (Document.updatePageNumbers h d0)) as [e |] eqn:Ev.
- split; [split |]; [| | split].
  + intros [d Hd]. discriminate.
  + intros Hc. apply Hvalid in Hc. discriminate.
  + intros d Hd. discriminate.
  + intros e' [= <-]. revert Ev. unfold Document.Valid.
    repeat match goal with
           | |- context [if ?b then _ else _] =>
               destruct b; [intros [= <-]; reflexivity |]
           end.
    generalize (Document.Pages (Document.updatePageNumbers h d0)).
    intros ps. induction ps as [| a ps IH]; cbn; [discriminate |].
    destruct (Page.Valid (h a)) as [pe |] eqn:Ep; [| exact IH].
    intros [= <-]. reflexivity.
- split; [split |]; [| | split].
  + intros _. now apply Hvalid.
  + intros _. eexists. reflexivity.
  + intros d [= <-]. split; [exact Ev |]. split; [repeat split; assumption |].
    split; [exact Hperm |].
    split; [apply updatePageNumbers_InOrder | apply updatePageNumbers_BoundsOf].
  + intros e. discriminate.
Qed.

End Documents.

(* ================================================================== *)
(** * Further properties of the split                                  *)
(* ================================================================== *)

Lemma Valid_docs_None (h : Heap) (sid : string) (ds : list Document.t) :
  Split.Valid_docs h sid ds = None
  <-> forall d, In d ds -> Document.Valid h d = None.
Proof.
  induction ds as [| a ds IH]; cbn.
  - split; [intros _ d [] | reflexivity].
  - destruct (Document.Valid h a) eqn:E.
    + split; [discriminate |]. intros H. specialize (H a (or_introl eq_refl)).
      congruence.
    + rewrite IH. split.
      * intros H d [<- | Hd]; auto.
      * intros H d Hd. apply H. now right.
Qed.

Lemma map_ID_set_nth (l : list Document.t) :
  forall (i : nat) (d d' : Document.t),
  nth_error l i = Some d -> Document.ID d' = Document.ID d ->
  map Document.ID (set_nth i d' l) = map Document.ID l.
Proof.
  induction l as [| a l IH]; intros [| i] d d' Hn Hid; cbn in *;
    try discriminate.
  - injection Hn as ->. now rewrite Hid.
  - f_equal. eapply IH; eassumption.
Qed.

Lemma nth_error_set_nth_inv (A : Type) (l : list A) :
  forall (i j : nat) (x y z : A),
  nth_error l i = Some z ->
  nth_error (set_nth i x l) j = Some y ->
  (i = j /\ y = x) \/ (i <> j /\ nth_error l j = Some y).
Proof.
  induction l as [| a l IH]; intros [| i] [| j] x y z Hi Hj; cbn in *;
    try discriminate.
  - left. split; congruence.
  - right. split; [discriminate | assumption].
  - right. split; [discriminate | assumption].
  - destruct (IH i j x y z Hi Hj) as [[-> ->] | [Hne Hn]].
    + now left.
    + right. split; [congruence | assumption].
Qed.

Section SplitShape.
Context {L : GoLib}.

Lemma RemovePages_SameMetadata (h : Heap) (d : Document.t)
(pageIDs : list string) (h' : Heap) (d' : Document.t) (removed : list addr)
(err : option error) :
Document.RemovePages h d pageIDs = (h', d', removed, err) ->
SameMetadata d' d.
Proof.
unfold Document.RemovePages. intros H.
destruct pageIDs as [| pid rest].
{ injection H as <- <- <- <-. repeat split. }
destruct (filter _ (Document.Pages d)) as [| r rs].
{ injection H as <- <- <- <-. repeat split. }
injection H as <- <- <- <-.
apply (updatePageNumbers_SameMetadata _ (Document.set_Pages d _)).
Qed.

Lemma AddPages_SameMetadata (h : Heap) (d : Document.t) (pages : list addr)
(h' : Heap) (d' : Document.t) (err : option error) :
Document.AddPages h d pages = (h', d', err) -> SameMetadata d' d.
Proof.
unfold Document.AddPages. intros H.
destruct (Document.AddPages_loop h (Document.ID d) (Document.Pages d) pages)
  as [[h1 ps] [e |]].
- injection H as <- <- <-. repeat split.
- injection H as <- <- <-.
  apply (updatePageNumbers_SameMetadata _ (Document.set_Pages d _)).
Qed.

(** [MovePages] writes the documents of the split and nothing else of it,
  and keeps the ID at every position of the list. *)
Lemma MovePages_shape (h : Heap) (s : Split.t) (fromDocID toDocID : string)
(pageIDs : list string) (h' : Heap) (s' : Split.t) (err : option error) :
Split.MovePages h s fromDocID toDocID pageIDs = (h', s', err) ->
s' = Split.set_Documents s (Split.Documents s')
/\ doc_IDs s' = doc_IDs s.
Proof.
assert (Hsame : s = Split.set_Documents s (Split.Documents s))
  by now destruct s.
unfold Split.MovePages, doc_IDs. intros H.
destruct (String.eqb (Split.Status s) SplitStatusFinalized);
  [injection H as <- <- <-; now split |].
destruct (find_last _ (Split.Documents s)) as [i |];
  [| injection H as <- <- <-; now split].
destruct (find_last _ (Split.Documents s)) as [j |];
  [| injection H as <- <- <-; now split].
destruct (nth_error (Split.Documents s) i) as [fromDoc |] eqn:Hfrom;
  [| injection H as <- <- <-; now split].
destruct (nth_error (Split.Documents s) j) as [toDoc |] eqn:Hto;
  [| injection H as <- <- <-; now split].
destruct (existsb _ pageIDs); [injection H as <- <- <-; now split |].
destruct (Document.RemovePages h fromDoc pageIDs)
  as [[[h1 fromDoc'] removed] e1] eqn:Hrem.
apply RemovePages_SameMetadata in Hrem. destruct Hrem as (Hid1 & _).
assert (Hids1 : map Document.ID (set_nth i fromDoc' (Split.Documents s))
                = map Document.ID (Split.Documents s))
  by (eapply map_ID_set_nth; eassumption).
destruct e1 as [e1 |]; [injection H as <- <- <-; now split |].
destruct (nth_error (set_nth i fromDoc' (Split.Documents s)) j)
  as [toDoc1 |] eqn:Hto1; [| injection H as <- <- <-; now split].
destruct (Document.AddPages h1 toDoc1 removed) as [[h2 toDoc'] e2] eqn:Hadd.
apply AddPages_SameMetadata in Hadd. destruct Hadd as (Hid2 & _).
assert (Hids2 : map Document.ID
                  (set_nth j toDoc' (set_nth i fromDoc' (Split.Documents s)))
                = map Document.ID (Split.Documents s)).
{ rewrite <- Hids1. eapply map_ID_set_nth; eassumption. }
destruct e2; injection H as <- <- <-; now split.
Qed.

Lemma RemoveDocument_shape (h : Heap) (s : Split.t) (docID : string)
(h' : Heap) (s' : Split.t) (err : option error) :
Split.RemoveDocument h s docID = (h', s', err) ->
(err <> None /\ s' = s /\ h' = h)
\/ (err = None /\ Split.Status s <> SplitStatusFinalized
    /\ exists l1 doc l2,
         Split.Documents s = l1 ++ doc :: l2
         /\ Document.ID doc = docID
         /\ (forall d, In d l1 -> Document.ID d <> docID)
         /\ h' = fold_left Unassign (Document.Pages doc) h
         /\ s' = Split.mk (Split.ID s) (Split.ClientID s) (Split.Status s)
                   (l1 ++ l2) (Split.UnassignedPages s ++ Document.Pages doc)
                   (Split.CreatedAt s) (Split.UpdatedAt s)
                   (Split.FinalizedAt s)).
Proof.
intros H.
destruct (String.eqb (Split.Status s) SplitStatusFinalized) eqn:Est.
{ unfold Split.RemoveDocument in H. rewrite Est in H.
  injection H as <- <- <-. left. split; [discriminate | split; reflexivity]. }
apply String.eqb_neq in Est.
destruct (find_first (fun doc => String.eqb (Document.ID doc) docID)
            (Split.Documents s)) as [i |] eqn:Hfind.
- apply find_first_Some in Hfind.
  destruct Hfind as (l1 & doc & l2 & Hdocs & _ & Hdoc & Hl1).
  apply String.eqb_eq in Hdoc.
  assert (Hl1' : forall d, In d l1 -> Document.ID d <> docID).
  { intros d Hd. apply String.eqb_neq. now apply Hl1. }
  rewrite (@RemoveDocument_first _ h s docID l1 doc l2 Est Hdocs Hdoc Hl1') in H.
  injection H as <- <- <-. right. split; [reflexivity |].
  split; [assumption |]. exists l1, doc, l2. repeat split; assumption.
- unfold Split.RemoveDocument in H.
  apply String.eqb_neq in Est. rewrite Est, Hfind in H.
  injection H as <- <- <-. left. split; [discriminate | split; reflexivity].
Qed.

End SplitShape.

(** ** What no sequence of calls changes *)

Lemma NoDup_snoc (A : Type) (l : list A) (x : A) :
  NoDup l -> ~ In x l -> NoDup (l ++ [x]).
Proof.
  intros Hnd Hx. apply (Permutation_NoDup (l := x :: l)).
  - apply Permutation_cons_append.
  - now constructor.
Qed.

Lemma find_last_None (A : Type) (f : A -> bool) (l : list A) :
  (forall x, In x l -> f x = false) -> find_last f l = None.
Proof.
  induction l as [| a l IH]; intros H; [reflexivity |]. cbn.
  rewrite IH by (intros x Hx; apply H; now right).
  now rewrite (H a (or_introl eq_refl)).
Qed.

(** With one document per ID, the loops that stop at the first match and
    the loops that run to the end find the same document. *)
Lemma find_first_last_unique (docs : list Document.t) (docID : string) :
  NoDup (map Document.ID docs) ->
  find_first (fun d => String.eqb (Document.ID d) docID) docs
  = find_last (fun d => String.eqb (Document.ID d) docID) docs.
Proof.
  induction docs as [| a docs IH]; intros Hnd; [reflexivity |].
  cbn in Hnd. inversion Hnd as [| ? ? Hnotin Hnd']; subst. cbn.
  destruct (String.eqb_spec (Document.ID a) docID) as [E | E].
  - rewrite find_last_None; [reflexivity |].
    intros x Hx. apply String.eqb_neq. intros Ex. apply Hnotin.
    rewrite E, <- Ex. now apply in_map.
  - rewrite IH by assumption.
    now destruct (find_last _ docs).
Qed.

Section SplitSequences.
Context {L : GoLib}.

(** One call: what it can do to the fields of the split other than the
  documents. *)
Lemma step_shape (h : Heap) (s : Split.t) (op : Op) :
let s' := snd (step (h, s) op) in
SameIdentity s s'
/\ (exists extra,
      Split.UnassignedPages s' = Split.UnassignedPages s ++ extra)
/\ ((Split.Status s' = Split.Status s
     /\ Split.FinalizedAt s' = Split.FinalizedAt s)
    \/ (Split.Status s <> SplitStatusFinalized
        /\ Split.Status s' = SplitStatusFinalized
        /\ Split.UnassignedPages s = []
        /\ Split.Valid h s = None
        /\ exists t, op = CallFinalize t /\ Split.FinalizedAt s' = Some t)).
Proof.
assert (Hrefl : SameIdentity s s
          /\ (exists extra,
                Split.UnassignedPages s = Split.UnassignedPages s ++ extra)
          /\ ((Split.Status s = Split.Status s
               /\ Split.FinalizedAt s = Split.FinalizedAt s)
              \/ (Split.Status s <> SplitStatusFinalized
                  /\ Split.Status s = SplitStatusFinalized
                  /\ Split.UnassignedPages s = []
                  /\ Split.Valid h s = None
                  /\ exists t, op = CallFinalize t
                               /\ Split.FinalizedAt s = Some t))).
{ split; [repeat split |]. split; [exists []; now rewrite app_nil_r |].
  left. split; reflexivity. }
assert (Hdocs : forall ds,
          SameIdentity s (Split.set_Documents s ds)
          /\ (exists extra,
                Split.UnassignedPages (Split.set_Documents s ds)
                = Split.UnassignedPages s ++ extra)
          /\ ((Split.Status (Split.set_Documents s ds) = Split.Status s
               /\ Split.FinalizedAt (Split.set_Documents s ds)
                  = Split.FinalizedAt s)
              \/ (Split.Status s <> SplitStatusFinalized
                  /\ Split.Status (Split.set_Documents s ds)
                     = SplitStatusFinalized
                  /\ Split.UnassignedPages s = []
                  /\ Split.Valid h s = None
                  /\ exists t, op = CallFinalize t
                               /\ Split.FinalizedAt (Split.set_Documents s ds)
                                  = Some t))).
{ intros ds. split; [repeat split |].
  split; [exists []; cbn; now rewrite app_nil_r |].
  left. split; reflexivity. }
destruct op as [doc | docID | fromDocID toDocID pageIDs | docID meta | t];
  cbn [step snd fst].
- unfold Split.AddDocument.
  destruct (String.eqb (Split.Status s) SplitStatusFinalized); [exact Hrefl |].
  destruct (Document.Valid h doc); [exact Hrefl |].
  destruct (existsb _ (Split.Documents s)); [exact Hrefl |].
  destruct (existsb _ (Document.Pages doc)); [exact Hrefl | apply Hdocs].
- destruct (Split.RemoveDocument h s docID) as [[h' s'] e] eqn:E.
  apply RemoveDocument_shape in E.
  destruct E as [(_ & -> & _) | (_ & _ & l1 & doc & l2 & _ & _ & _ & _ & ->)];
    [exact Hrefl |].
  cbn. split; [repeat split |]. split; [now exists (Document.Pages doc) |].
  left. split; reflexivity.
- destruct (Split.MovePages h s fromDocID toDocID pageIDs) as [[h' s'] e] eqn:E.
  apply MovePages_shape in E. destruct E as [-> _]. apply Hdocs.
- unfold Split.UpdateDocumentMetadata.
  destruct (String.eqb (Split.Status s) SplitStatusFinalized); [exact Hrefl |].
  destruct (find_first _ (Split.Documents s)) as [i |]; [| exact Hrefl].
  destruct (nth_error (Split.Documents s) i); [apply Hdocs | exact Hrefl].
- unfold Split.Finalize.
  destruct (String.eqb_spec (Split.Status s) SplitStatusFinalized) as [E | E];
    [exact Hrefl |].
  clear Hrefl Hdocs.
  destruct (Split.UnassignedPages s) eqn:Eu;
    [| cbn [fst]; split; [repeat split |];
       split; [exists []; now rewrite app_nil_r | left; split; reflexivity]].
  destruct (Split.Valid h s) eqn:Ev;
    [cbn [fst]; split; [repeat split |];
     split; [exists []; now rewrite app_nil_r | left; split; reflexivity] |].
  cbn. split; [repeat split |]. split; [exists []; reflexivity |].
  right. repeat split; try assumption. now exists t.
Qed.

(** One call keeps the IDs of the documents pairwise distinct. *)
Lemma step_doc_IDs (h : Heap) (s : Split.t) (op : Op) :
NoDup (doc_IDs s) -> NoDup (doc_IDs (snd (step (h, s) op))).
Proof.
intros Hnd.
destruct op as [doc | docID | fromDocID toDocID pageIDs | docID meta | t];
  cbn [step snd fst].
- unfold Split.AddDocument.
  destruct (String.eqb (Split.Status s) SplitStatusFinalized); [exact Hnd |].
  destruct (Document.Valid h doc); [exact Hnd |].
  destruct (existsb _ (Split.Documents s)) eqn:Eex; [exact Hnd |].
  destruct (existsb _ (Document.Pages doc)); [exact Hnd |].
  unfold doc_IDs. cbn. rewrite map_app. cbn. apply NoDup_snoc; [exact Hnd |].
  intros Hin. apply in_map_iff in Hin. destruct Hin as (d & Hd & Hin).
  assert (Ht : existsb (fun existingDoc =>
                 String.eqb (Document.ID existingDoc) (Document.ID doc))
                 (Split.Documents s) = true).
  { apply existsb_exists. exists d. split; [assumption |].
    now apply String.eqb_eq. }
  congruence.
- destruct (Split.RemoveDocument h s docID) as [[h' s'] e] eqn:E.
  apply RemoveDocument_shape in E.
  destruct E as [(_ & -> & _) | (_ & _ & l1 & doc & l2 & Hdocs & _ & _ & _ & ->)];
    [exact Hnd |].
  unfold doc_IDs in *. cbn. rewrite Hdocs in Hnd.
  rewrite map_app in *. cbn in Hnd. now apply NoDup_remove_1 in Hnd.
- destruct (Split.MovePages h s fromDocID toDocID pageIDs) as [[h' s'] e] eqn:E.
  apply MovePages_shape in E. destruct E as [_ E]. cbn. now rewrite E.
- unfold Split.UpdateDocumentMetadata.
  destruct (String.eqb (Split.Status s) SplitStatusFinalized); [exact Hnd |].
  destruct (find_first _ (Split.Documents s)) as [i |]; [| exact Hnd].
  destruct (nth_error (Split.Documents s) i) as [d |] eqn:En; [| exact Hnd].
  unfold doc_IDs. cbn.
  erewrite map_ID_set_nth; [exact Hnd | exact En | reflexivity].
- unfold Split.Finalize.
  destruct (String.eqb (Split.Status s) SplitStatusFinalized); [exact Hnd |].
  destruct (Split.UnassignedPages s); [| exact Hnd].
  destruct (Split.Valid h s); exact Hnd.
Qed.

(** X6: no sequence of calls changes the ID, the client ID or the two
  time stamps of a split ([UpdatedAt] is never advanced), and none takes
  a page out of the unassigned pool: the pool only grows at its end. *)
Theorem identity_and_pool_kept (ops : list Op) :
forall (h : Heap) (s : Split.t),
Forall (fun st' =>
          SameIdentity s (snd st')
          /\ exists extra,
               Split.UnassignedPages (snd st')
               = Split.UnassignedPages s ++ extra)
  (trace (h, s) ops).
Proof.
induction ops as [| op ops IH]; intros h s; cbn [trace]; constructor.
- destruct (step_shape h s op) as (Hid & Hpool & _). split; assumption.
- destruct (step_shape h s op) as (Hid & [extra Hpool] & _).
  destruct (step (h, s) op) as [h1 s1]. cbn [snd] in *.
  eapply Forall_impl; [| apply IH].
  cbn beta. intros [h2 s2] ((I1 & I2 & I3 & I4) & [extra' Hpool']).
  destruct Hid as (J1 & J2 & J3 & J4). cbn [snd] in *.
  split; [repeat split; congruence |].
  exists (extra ++ extra'). now rewrite Hpool', Hpool, app_assoc.
Qed.

(** X7: a split with a page in its unassigned pool cannot be finalized by
  any sequence of calls: after every call [Finalize] still fails with a
  Validation error.  (Only code outside the aggregate, which writes the
  field itself, can empty the pool.) *)
Theorem unassigned_pool_blocks_Finalize (ops : list Op) :
forall (h : Heap) (s : Split.t),
Split.UnassignedPages s <> [] ->
Split.Status s <> SplitStatusFinalized ->
Forall (fun st' =>
          Split.Status (snd st') <> SplitStatusFinalized
          /\ forall t, exists e,
               Split.Finalize (fst st') (snd st') t = (snd st', Some e)
               /\ KindOf e = Some DomainErrorValidation)
  (trace (h, s) ops).
Proof.
induction ops as [| op ops IH]; intros h s Hpool Hst; cbn [trace];
  constructor.
- destruct (step_shape h s op) as (_ & [extra Hp] & Hstat).
  destruct (step (h, s) op) as [h1 s1]. cbn [snd fst] in *.
  assert (Hst1 : Split.Status s1 <> SplitStatusFinalized).
  { destruct Hstat as [[E _] | (_ & _ & Hnil & _)];
      [now rewrite E | contradiction]. }
  split; [exact Hst1 |]. intros t. unfold Split.Finalize.
  apply String.eqb_neq in Hst1. rewrite Hst1.
  destruct (Split.UnassignedPages s1) eqn:E1.
  + destruct (Split.UnassignedPages s); [contradiction | discriminate].
  + eexists. split; reflexivity.
- destruct (step_shape h s op) as (_ & [extra Hp] & Hstat).
  destruct (step (h, s) op) as [h1 s1]. cbn [snd fst] in *.
  apply IH.
  + rewrite Hp. destruct (Split.UnassignedPages s);
      [contradiction | discriminate].
  + destruct Hstat as [[E _] | (_ & _ & Hnil & _)];
      [now rewrite E | contradiction].
Qed.

(** X8: a finalized split is frozen: every call returns an error and leaves
  the heap and the split exactly as they were, along any sequence of
  calls.  The error is a Conflict error, except for
  [UpdateDocumentMetadata], whose error has no kind. *)
Theorem finalized_is_frozen (ops : list Op) (h : Heap) (s : Split.t) :
Split.Status s = SplitStatusFinalized ->
Forall (fun st' => st' = (h, s)) (trace (h, s) ops)
/\ forall op, exists e,
     outcome (h, s) op = Some e
     /\ match op with
        | CallUpdateDocumentMetadata _ _ => KindOf e = None
        | _ => KindOf e = Some DomainErrorConflict
        end.
Proof.
intros Hst.
assert (Hstep : forall op, step (h, s) op = (h, s)
          /\ exists e, outcome (h, s) op = Some e
               /\ match op with
                  | CallUpdateDocumentMetadata _ _ => KindOf e = None
                  | _ => KindOf e = Some DomainErrorConflict
                  end).
{ intros op. apply String.eqb_eq in Hst.
  destruct op as [doc | docID | fromDocID toDocID pageIDs | docID meta | t];
    cbn [step outcome];
    unfold Split.AddDocument, Split.RemoveDocument, Split.MovePages,
      Split.UpdateDocumentMetadata, Split.Finalize;
    rewrite Hst; cbn [fst snd];
    (split; [reflexivity | eexists; split; reflexivity]). }
split; [| intros op; apply Hstep].
induction ops as [| op ops IH]; cbn [trace]; [constructor |].
destruct (Hstep op) as [E _]. rewrite E. constructor; [reflexivity | exact IH].
Qed.

(** X9: when no two documents of a split have the same ID, no sequence of
  calls makes two of them share one; in every state reached the loops
  that stop at the first document of an ID ([RemoveDocument],
  [UpdateDocumentMetadata], [findDoc]) and the loops that keep the last
  one ([MovePages]) address the same document. *)
Theorem document_IDs_stay_unique (ops : list Op) :
forall (h : Heap) (s : Split.t),
NoDup (doc_IDs s) ->
Forall (fun st' =>
          NoDup (doc_IDs (snd st'))
          /\ forall docID,
               find_first (fun d => String.eqb (Document.ID d) docID)
                 (Split.Documents (snd st'))
               = find_last (fun d => String.eqb (Document.ID d) docID)
                   (Split.Documents (snd st')))
  (trace (h, s) ops).
Proof.
induction ops as [| op ops IH]; intros h s Hnd; cbn [trace]; constructor.
- pose proof (@step_doc_IDs h s op Hnd) as H1. split; [exact H1 |].
  intros docID. now apply find_first_last_unique.
- pose proof (@step_doc_IDs h s op Hnd) as H1.
  destruct (step (h, s) op) as [h1 s1]. now apply IH.
Qed.

End SplitSequences.

(** ** What MovePages does, and when it does nothing *)

Lemma length_set_nth (A : Type) (l : list A) :
  forall (i : nat) (x : A), List.length (set_nth i x l) = List.length l.
Proof.
  induction l as [| a l IH]; intros [| i] x; cbn; try reflexivity.
  now rewrite IH.
Qed.

Lemma In_set_nth (A : Type) (l : list A) :
  forall (i : nat) (x y : A), In y (set_nth i x l) -> y = x \/ In y l.
Proof.
  induction l as [| a l IH]; intros [| i] x y H; cbn in *; try contradiction.
  - destruct H as [<- | H]; auto.
  - destruct H as [<- | H]; auto.
    destruct (IH i x y H); auto.
Qed.

Lemma find_last_nth_error (A : Type) (f : A -> bool) (l : list A) (i : nat) :
  find_last f l = Some i -> exists x, nth_error l i = Some x /\ f x = true.
Proof.
  intros H. apply find_last_Some in H.
  destruct H as (l1 & x & l2 & -> & <- & Hx & _).
  exists x. split; [apply nth_error_middle | exact Hx].
Qed.

Lemma set_Pages_same (d : Document.t) : Document.set_Pages d (Document.Pages d) = d.
Proof. now destruct d. Qed.

Section MovePagesForm.
Context {L : GoLib}.

(** The two ways [MovePages] returns no error. *)
Lemma MovePages_success_form (h : Heap) (s : Split.t)
(fromDocID toDocID : string) (pageIDs : list string)
(h' : Heap) (s' : Split.t) :
Split.MovePages h s fromDocID toDocID pageIDs = (h', s', None) ->
exists i j A B,
  Split.Status s <> SplitStatusFinalized
  /\ find_last (fun d => String.eqb (Document.ID d) fromDocID)
       (Split.Documents s) = Some i
  /\ nth_error (Split.Documents s) i = Some A
  /\ find_last (fun d => String.eqb (Document.ID d) toDocID)
       (Split.Documents s) = Some j
  /\ nth_error (Split.Documents s) j = Some B
  /\ (forall p, In p (Document.Pages B) -> ~ In (Page.ID (h p)) pageIDs)
  /\ ((pageIDs = [] /\ h' = h
       /\ s' = Split.set_Documents s
                 (set_nth j (Document.updatePageNumbers h B)
                    (Split.Documents s)))
      \/ (pageIDs <> [] /\ i <> j
          /\ filter (Document.shouldRemove h pageIDs) (Document.Pages A) <> []
          /\ NoDup (filter (Document.shouldRemove h pageIDs) (Document.Pages A))
          /\ h' = assignAll (Document.ID B)
                    (filter (Document.shouldRemove h pageIDs) (Document.Pages A))
                    (fold_left Unassign
                       (filter (Document.shouldRemove h pageIDs)
                          (Document.Pages A)) h)
          /\ s' = Split.set_Documents s
                    (set_nth j
                       (Document.updatePageNumbers h'
                          (Document.set_Pages B
                             (Document.Pages B
                              ++ filter (Document.shouldRemove h pageIDs)
                                   (Document.Pages A))))
                       (set_nth i
                          (Document.updatePageNumbers
                             (fold_left Unassign
                                (filter (Document.shouldRemove h pageIDs)
                                   (Document.Pages A)) h)
                             (Document.set_Pages A
                                (filter (fun p =>
                                   negb (Document.shouldRemove h pageIDs p))
                                   (Document.Pages A))))
                          (Split.Documents s))))).
Proof.
intros H.
destruct (String.eqb_spec (Split.Status s) SplitStatusFinalized) as [Est | Est].
{ unfold Split.MovePages in H. apply String.eqb_eq in Est. rewrite Est in H.
  discriminate. }
destruct (find_last (fun d => String.eqb (Document.ID d) fromDocID)
            (Split.Documents s)) as [i |] eqn:Hi.
2:{ unfold Split.MovePages in H. apply String.eqb_neq in Est.
    rewrite Est, Hi in H. discriminate. }
destruct (find_last (fun d => String.eqb (Document.ID d) toDocID)
            (Split.Documents s)) as [j |] eqn:Hj.
2:{ unfold Split.MovePages in H. apply String.eqb_neq in Est.
    rewrite Est, Hi, Hj in H. discriminate. }
destruct (find_last_nth_error _ _ Hi) as (A & HA & _).
destruct (find_last_nth_error _ _ Hj) as (B & HB & _).
exists i, j, A, B.
destruct (MovePages_None h s fromDocID toDocID pageIDs Hi HA Hj HB H)
  as [Hchk Hcase].
repeat (split; [assumption || reflexivity |]).
destruct pageIDs as [| pid rest].
- left. split; [reflexivity |].
  unfold Split.MovePages in H. apply String.eqb_neq in Est.
  rewrite Est, Hi, Hj, HA, HB in H. cbn [existsb Document.RemovePages] in H.
  rewrite (set_nth_same _ _ HA), HB in H.
  unfold Document.AddPages in H. cbn [Document.AddPages_loop] in H.
  rewrite set_Pages_same in H. injection H as <- <-. split; reflexivity.
- right. destruct Hcase as [Hcase | Hne]; [discriminate |].
  split; [discriminate |].
  set (removed := filter (Document.shouldRemove h (pid :: rest))
                    (Document.Pages A)) in *.
  assert (Hij : i <> j).
  { intros ->. rewrite HA in HB. injection HB as ->.
    destruct removed as [| r rs] eqn:Er; [now apply Hne |].
    assert (Hr : In r removed) by (rewrite Er; now left).
    unfold removed in Hr. apply filter_In in Hr. destruct Hr as [Hr1 Hr2].
    apply shouldRemove_In in Hr2. exact (Hchk r Hr1 Hr2). }
  split; [exact Hij |]. split; [exact Hne |].
  assert (Hnd : NoDup removed).
  { unfold Split.MovePages in H. pose proof Est as Est'.
    apply String.eqb_neq in Est'.
    rewrite Est', Hi, Hj, HA, HB in H.
    destruct (existsb _ (pid :: rest)); [discriminate |].
    unfold Document.RemovePages in H. fold removed in H.
    destruct removed as [| r rs] eqn:Er; [now contradiction Hne |].
    rewrite nth_error_set_nth_other in H by assumption. rewrite HB in H.
    destruct (Document.AddPages _ B (r :: rs)) as [[h2 B'] [e |]] eqn:Eadd;
      [discriminate |].
    apply AddPages_None_inv in Eadd. apply Eadd. }
  split; [exact Hnd |].
  pose proof (MovePages_moves h s fromDocID toDocID (pid :: rest) Est Hi HA Hj
                HB Hij Hchk Hne Hnd) as Hm.
  cbv zeta in Hm. rewrite Hm in H. injection H as <- <-.
  split; reflexivity.
Qed.

(** The two ways [MovePages] returns an error: before anything is
  written, or from [AddPages], which needs a page listed twice in the
  source document. *)
Lemma MovePages_failure_form (h : Heap) (s : Split.t)
(fromDocID toDocID : string) (pageIDs : list string)
(h' : Heap) (s' : Split.t) (e : error) :
Split.MovePages h s fromDocID toDocID pageIDs = (h', s', Some e) ->
(h' = h /\ s' = s
 /\ (KindOf e = Some DomainErrorConflict /\ Split.Status s = SplitStatusFinalized
     \/ KindOf e = Some DomainErrorNotFound
        /\ Split.Status s <> SplitStatusFinalized
     \/ KindOf e = Some DomainErrorValidation
        /\ Split.Status s <> SplitStatusFinalized))
\/ (exists i A,
      find_last (fun d => String.eqb (Document.ID d) fromDocID)
        (Split.Documents s) = Some i
      /\ nth_error (Split.Documents s) i = Some A
      /\ ~ NoDup (filter (Document.shouldRemove h pageIDs) (Document.Pages A))
      /\ KindOf e = Some DomainErrorValidation).
Proof.
unfold Split.MovePages. intros H.
destruct (String.eqb_spec (Split.Status s) SplitStatusFinalized) as [Est | Est].
{ injection H as <- <- <-. left. repeat split. left. now split. }
destruct (find_last (fun d => String.eqb (Document.ID d) fromDocID)
            (Split.Documents s)) as [i |] eqn:Hi.
2:{ injection H as <- <- <-. left. repeat split. right. left. now split. }
destruct (find_last (fun d => String.eqb (Document.ID d) toDocID)
            (Split.Documents s)) as [j |] eqn:Hj.
2:{ injection H as <- <- <-. left. repeat split. right. left. now split. }
destruct (find_last_nth_error _ _ Hi) as (A & HA & _).
destruct (find_last_nth_error _ _ Hj) as (B & HB & _).
rewrite HA, HB in H.
destruct (existsb _ pageIDs).
{ injection H as <- <- <-. left. repeat split. right. right. now split. }
unfold Document.RemovePages in H.
destruct pageIDs as [| pid rest].
{ rewrite (set_nth_same _ _ HA), HB in H.
  unfold Document.AddPages in H. cbn [Document.AddPages_loop] in H.
  discriminate. }
destruct (filter (Document.shouldRemove h (pid :: rest)) (Document.Pages A))
  as [| r rs] eqn:Hrem.
{ rewrite (set_nth_same _ _ HA), set_Documents_same in H.
  injection H as <- <- <-. left. repeat split. right. right. now split. }
destruct (nth_error (set_nth i _ (Split.Documents s)) j) as [B1 |] eqn:HB1;
  [| discriminate].
destruct (Document.AddPages _ B1 (r :: rs)) as [[h2 B'] [e2 |]] eqn:Eadd;
  [| discriminate].
injection H as <- <- <-. right. exists i, A.
split; [reflexivity |]. split; [assumption |]. split; [| reflexivity].
intros Hnd. rewrite AddPages_all in Eadd.
- discriminate.
- rewrite <- Hrem. exact Hnd.
- intros q Hq. unfold IsAssigned. now rewrite Unassign_all_in.
Qed.

(** X10: [MovePages] is all or nothing as soon as no document of the split
  lists a page twice: when it returns an error, the heap and the split
  are exactly what they were.  The error is a Conflict (finalized split),
  NotFound (a document is missing) or Validation error. *)
Theorem MovePages_failure_changes_nothing (h : Heap) (s : Split.t)
(fromDocID toDocID : string) (pageIDs : list string)
(h' : Heap) (s' : Split.t) (e : error) :
(forall d, In d (Split.Documents s) -> NoDup (Document.Pages d)) ->
Split.MovePages h s fromDocID toDocID pageIDs = (h', s', Some e) ->
h' = h /\ s' = s
/\ (KindOf e = Some DomainErrorConflict
      /\ Split.Status s = SplitStatusFinalized
    \/ KindOf e = Some DomainErrorNotFound
       /\ Split.Status s <> SplitStatusFinalized
    \/ KindOf e = Some DomainErrorValidation
       /\ Split.Status s <> SplitStatusFinalized).
Proof.
intros Hnd H. apply MovePages_failure_form in H.
destruct H as [H | (i & A & _ & HA & Hdup & _)]; [exact H |].
exfalso. apply Hdup. apply NoDup_filter. apply Hnd.
eapply nth_error_In, HA.
Qed.

End MovePagesForm.

Section MovePagesEffect.
Context {L : GoLib}.
Hypothesis SortFunc_Permutation :
forall (A : Type) (cmp : A -> A -> Z) (l : list A),
  Permutation (slices_SortFunc cmp l) l.
Hypothesis SortFunc_sorted :
forall (A : Type) (key : A -> Z) (l : list A),
  StronglySorted (fun a b => key a <= key b) (slices_SortFunc (cmpBy key) l).

(** X11: a successful [MovePages] for at least one page ID takes the pages
  whose ID was asked for out of the source document, appends them to the
  target document and marks them as assigned to it; both documents keep
  their place and metadata and have their pages in order and their
  bounds derived from them; no other document, no other page and nothing
  else of the split changes. *)
Theorem MovePages_effect (h : Heap) (s : Split.t)
(fromDocID toDocID : string) (pageIDs : list string)
(h' : Heap) (s' : Split.t) :
pageIDs <> [] ->
Split.MovePages h s fromDocID toDocID pageIDs = (h', s', None) ->
exists i j A B A' B',
  i <> j
  /\ nth_error (Split.Documents s) i = Some A /\ Document.ID A = fromDocID
  /\ nth_error (Split.Documents s) j = Some B /\ Document.ID B = toDocID
  /\ nth_error (Split.Documents s') i = Some A'
  /\ nth_error (Split.Documents s') j = Some B'
  /\ (forall k, k <> i -> k <> j ->
        nth_error (Split.Documents s') k = nth_error (Split.Documents s) k)
  /\ List.length (Split.Documents s') = List.length (Split.Documents s)
  /\ SameMetadata A' A /\ SameMetadata B' B
  /\ (let moved :=
        filter (Document.shouldRemove h pageIDs) (Document.Pages A) in
      moved <> []
      /\ Permutation (Document.Pages A')
           (filter (fun p => negb (Document.shouldRemove h pageIDs p))
              (Document.Pages A))
      /\ Permutation (Document.Pages B') (Document.Pages B ++ moved)
      /\ (forall p, In p moved -> Page.DocumentID (h' p) = Some toDocID)
      /\ (forall a, ~ In a moved -> h' a = h a))
  /\ InOrder h' (Document.Pages A') /\ BoundsOf h' A'
  /\ InOrder h' (Document.Pages B') /\ BoundsOf h' B'
  /\ heap_same_but_DocumentID h h'
  /\ s' = Split.set_Documents s (Split.Documents s').
Proof.
intros Hids H. apply MovePages_success_form in H.
destruct H as (i & j & A & B & Hst & Hi & HA & Hj & HB & Hchk & Hcase).
destruct Hcase as [[Hnil _] | (_ & Hij & Hne & Hnd & Hh' & Hs')];
  [contradiction |].
set (moved := filter (Document.shouldRemove h pageIDs) (Document.Pages A)) in *.
set (h1 := fold_left Unassign moved h) in *.
set (A' := Document.updatePageNumbers h1
             (Document.set_Pages A
                (filter (fun p => negb (Document.shouldRemove h pageIDs p))
                   (Document.Pages A)))) in *.
set (B' := Document.updatePageNumbers h'
             (Document.set_Pages B (Document.Pages B ++ moved))) in *.
assert (Hh1 : heap_same_but_DocumentID h1 h')
  by (rewrite Hh'; apply assignAll_same).
assert (HidB : Document.ID B = toDocID).
{ apply String.eqb_eq. exact (find_last_found _ _ Hj HB). }
exists i, j, A, B, A', B'. rewrite Hs'. cbn [Split.Documents Split.set_Documents].
split; [exact Hij |]. split; [exact HA |].
split; [apply String.eqb_eq; exact (find_last_found _ _ Hi HA) |].
split; [exact HB |]. split; [exact HidB |].
split.
{ rewrite nth_error_set_nth_other by congruence.
  eapply nth_error_set_nth_same, HA. }
split.
{ eapply nth_error_set_nth_same.
  rewrite nth_error_set_nth_other by assumption. exact HB. }
split.
{ intros k Hki Hkj. now rewrite !nth_error_set_nth_other by congruence. }
split; [now rewrite !length_set_nth |].
split; [apply (updatePageNumbers_SameMetadata _ (Document.set_Pages A _)) |].
split; [apply (updatePageNumbers_SameMetadata _ (Document.set_Pages B _)) |].
split.
{ cbv zeta. split; [exact Hne |].
  split; [unfold A'; now rewrite updatePageNumbers_Permutation |].
  split; [unfold B'; now rewrite updatePageNumbers_Permutation |].
  split.
  - intros p Hp. rewrite Hh', assignAll_in by assumption. now rewrite HidB.
  - intros a Ha. rewrite Hh', assignAll_notin by assumption.
    now apply Unassign_all_notin. }
split; [eapply InOrder_same; [exact Hh1 | now apply updatePageNumbers_InOrder] |].
split; [eapply BoundsOf_same; [exact Hh1 | apply updatePageNumbers_BoundsOf] |].
split; [now apply updatePageNumbers_InOrder |].
split; [apply updatePageNumbers_BoundsOf |].
split; [| reflexivity].
eapply heap_same_trans; [apply (Unassign_all_same moved) | exact Hh1].
Qed.

End MovePagesEffect.

(** ** Validity of the split along the calls *)

Lemma Split_Valid_iff (h : Heap) (s : Split.t) :
  Split.Valid h s = None
  <-> Split.ID s <> "" /\ Split.ClientID s <> ""
      /\ forall d, In d (Split.Documents s) -> Document.Valid h d = None.
Proof.
  unfold Split.Valid.
  destruct (String.eqb_spec (Split.ID s) "") as [E | N1];
    [split; [discriminate | intros (N & _); now contradiction N] |].
  destruct (String.eqb_spec (Split.ClientID s) "") as [E | N2];
    [split; [discriminate | intros (_ & N & _); now contradiction N] |].
  rewrite Valid_docs_None. split.
  - intros H. repeat split; assumption.
  - intros (_ & _ & H). exact H.
Qed.

Lemma Split_Valid_same (h h' : Heap) (s : Split.t) :
  heap_same_but_DocumentID h h' -> Split.Valid h' s = Split.Valid h s.
Proof.
  intros Hs. unfold Split.Valid.
  destruct (String.eqb (Split.ID s) ""); [reflexivity |].
  destruct (String.eqb (Split.ClientID s) ""); [reflexivity |].
  induction (Split.Documents s) as [| d ds IH]; cbn; [reflexivity |].
  rewrite (Document_Valid_same d Hs). now rewrite IH.
Qed.

(** Whatever makes [Finalize] fail on a split that is not finalized, the
    error is a Validation error and the split is not changed. *)
Lemma Finalize_not_None (h : Heap) (s : Split.t) (t : Time) :
  Split.Status s <> SplitStatusFinalized ->
  Split.UnassignedPages s <> [] \/ Split.Valid h s <> None ->
  exists e, Split.Finalize h s t = (s, Some e)
            /\ KindOf e = Some DomainErrorValidation.
Proof.
  intros Hst Hc. unfold Split.Finalize.
  apply String.eqb_neq in Hst. rewrite Hst.
  destruct (Split.UnassignedPages s) as [| a l].
  - destruct Hc as [Hc | Hc]; [contradiction |].
    destruct (Split.Valid h s) as [e |]; [| contradiction].
    eexists. split; reflexivity.
  - eexists. split; reflexivity.
Qed.

Section Validity.
Context {L : GoLib}.

(** X12: [AddDocument] succeeds exactly on a split that is not finalized,
  with a valid document whose ID no document of the split has and whose
  pages are all unassigned; the document is then appended and nothing
  else changes.  On failure the split is unchanged; the error is a
  Validation error exactly when the split is not finalized and the
  document is invalid, and a Conflict error otherwise. *)
Theorem AddDocument_succeeds_iff (h : Heap) (s : Split.t) (doc : Document.t) :
(snd (Split.AddDocument h s doc) = None
 <-> Split.Status s <> SplitStatusFinalized
     /\ Document.Valid h doc = None
     /\ ~ In (Document.ID doc) (doc_IDs s)
     /\ forall p, In p (Document.Pages doc) -> IsAssigned h p = false)
/\ (snd (Split.AddDocument h s doc) = None ->
    fst (Split.AddDocument h s doc)
    = Split.set_Documents s (Split.Documents s ++ [doc]))
/\ (forall e, snd (Split.AddDocument h s doc) = Some e ->
      fst (Split.AddDocument h s doc) = s
      /\ (KindOf e = Some DomainErrorValidation
          <-> Split.Status s <> SplitStatusFinalized
              /\ Document.Valid h doc <> None)
      /\ (KindOf e = Some DomainErrorValidation
          \/ KindOf e = Some DomainErrorConflict)).
Proof.
unfold Split.AddDocument.
destruct (String.eqb_spec (Split.Status s) SplitStatusFinalized) as [Est | Est].
{ cbn. split; [split; [discriminate | intros (N & _); contradiction] |].
  split; [discriminate |]. intros e [= <-]. split; [reflexivity |].
  split; [| now right]. split; [discriminate | intros (N & _); contradiction]. }
destruct (Document.Valid h doc) as [ve |] eqn:Ev.
{ cbn. split; [split; [discriminate | intros (_ & N & _); discriminate] |].
  split; [discriminate |]. intros e [= <-]. split; [reflexivity |].
  split; [| now left]. split; [intros _; split; [assumption | discriminate]
                              | reflexivity]. }
destruct (existsb _ (Split.Documents s)) eqn:Eid.
{ cbn. split.
  - split; [discriminate |]. intros (_ & _ & N & _). exfalso. apply N.
    apply existsb_exists in Eid. destruct Eid as (d & Hd & E).
    apply String.eqb_eq in E. rewrite <- E. unfold doc_IDs. now apply in_map.
  - split; [discriminate |]. intros e [= <-]. split; [reflexivity |].
    split; [| now right].
    split; [discriminate | intros (_ & N); now contradiction N]. }
assert (Hnew : ~ In (Document.ID doc) (doc_IDs s)).
{ intros Hin. unfold doc_IDs in Hin. apply in_map_iff in Hin.
  destruct Hin as (d & E & Hd).
  assert (Ht : existsb (fun existingDoc =>
                 String.eqb (Document.ID existingDoc) (Document.ID doc))
                 (Split.Documents s) = true).
  { apply existsb_exists. exists d. split; [assumption |].
    now apply String.eqb_eq. }
  congruence. }
destruct (existsb (IsAssigned h) (Document.Pages doc)) eqn:Eas.
{ cbn. split.
  - split; [discriminate |]. intros (_ & _ & _ & N). exfalso.
    apply existsb_exists in Eas. destruct Eas as (p & Hp & E).
    rewrite (N p Hp) in E. discriminate.
  - split; [discriminate |]. intros e [= <-]. split; [reflexivity |].
    split; [| now right].
    split; [discriminate | intros (_ & N); now contradiction N]. }
cbn. split; [| split; [reflexivity | discriminate]].
split; [| reflexivity]. intros _. repeat (split; [assumption || reflexivity |]).
intros p Hp. destruct (IsAssigned h p) eqn:E; [| reflexivity].
assert (Ht : existsb (IsAssigned h) (Document.Pages doc) = true)
  by (apply existsb_exists; now exists p).
congruence.
Qed.

(** X13: a valid split stays valid under [AddDocument], [RemoveDocument] and
  [Finalize], whether they fail or not, and under
  [UpdateDocumentMetadata] when the metadata sets neither the name nor
  the classification to the empty string. *)
Theorem Valid_kept (h : Heap) (s : Split.t) :
Split.Valid h s = None ->
(forall doc, Split.Valid h (fst (Split.AddDocument h s doc)) = None)
/\ (forall docID h' s' err,
      Split.RemoveDocument h s docID = (h', s', err) ->
      Split.Valid h' s' = None)
/\ (forall t, Split.Valid h (fst (Split.Finalize h s t)) = None)
/\ (forall docID meta,
      Document.mName meta <> Some "" ->
      Document.mClassification meta <> Some "" ->
      Split.Valid h (fst (Split.UpdateDocumentMetadata s docID meta)) = None).
Proof.
intros Hv. pose proof Hv as Hv0.
apply Split_Valid_iff in Hv. destruct Hv as (N1 & N2 & Hdocs).
split; [| split; [| split]].
- intros doc. unfold Split.AddDocument.
  destruct (String.eqb (Split.Status s) SplitStatusFinalized); [exact Hv0 |].
  destruct (Document.Valid h doc) eqn:Ev; [exact Hv0 |].
  destruct (existsb _ (Split.Documents s)); [exact Hv0 |].
  destruct (existsb _ (Document.Pages doc)); [exact Hv0 |].
  cbn [fst]. apply Split_Valid_iff. cbn. repeat split; try assumption.
  intros d Hd. apply in_app_or in Hd. destruct Hd as [Hd | [<- | []]]; auto.
- intros docID h' s' err H. apply RemoveDocument_shape in H.
  destruct H as [(_ & -> & ->) | (_ & _ & l1 & doc & l2 & Hl & _ & _ & -> & ->)].
  + exact Hv0.
  + rewrite (Split_Valid_same _ (Unassign_all_same (Document.Pages doc) h)).
    apply Split_Valid_iff. cbn. repeat split; try assumption.
    intros d Hd. apply Hdocs. rewrite Hl.
    apply in_app_or in Hd. apply in_or_app.
    destruct Hd; [now left | right; now right].
- intros t. unfold Split.Finalize.
  destruct (String.eqb (Split.Status s) SplitStatusFinalized); [exact Hv0 |].
  destruct (Split.UnassignedPages s); [| exact Hv0].
  rewrite Hv0. cbn [fst]. apply Split_Valid_iff. cbn.
  repeat split; assumption.
- intros docID meta Hn Hc. unfold Split.UpdateDocumentMetadata.
  destruct (String.eqb (Split.Status s) SplitStatusFinalized); [exact Hv0 |].
  destruct (find_first _ (Split.Documents s)) as [i |]; [| exact Hv0].
  destruct (nth_error (Split.Documents s) i) as [d |] eqn:En; [| exact Hv0].
  cbn [Document.UpdateMetadata fst]. apply Split_Valid_iff. cbn.
  repeat split; try assumption.
  intros d' Hd'. apply In_set_nth in Hd'. destruct Hd' as [-> | Hd']; auto.
  assert (Hd : Document.Valid h d = None)
    by (apply Hdocs; eapply nth_error_In, En).
  apply Document_Valid_iff in Hd.
  destruct Hd as (D1 & D2 & D3 & D4 & D5 & D6 & D7).
  apply Document_Valid_iff. cbn. repeat split; try assumption.
  + destruct (Document.mName meta) as [n |]; [| assumption]. congruence.
  + destruct (Document.mClassification meta) as [c |]; [| assumption].
    congruence.
Qed.

(** X14: [UpdateDocumentMetadata] does not validate what it writes: on a
  split that is not finalized and has a document of the given ID, an
  empty name or classification is accepted without error, the split is
  then invalid and [Finalize] fails on it with a Validation error. *)
Theorem UpdateDocumentMetadata_accepts_empty (h : Heap) (s : Split.t)
(docID : string) (meta : Document.Metadata) :
Split.Status s <> SplitStatusFinalized ->
In docID (doc_IDs s) ->
Document.mName meta = Some "" \/ Document.mClassification meta = Some "" ->
let s' := fst (Split.UpdateDocumentMetadata s docID meta) in
snd (Split.UpdateDocumentMetadata s docID meta) = None
/\ Split.Valid h s' <> None
/\ forall t, exists e,
     Split.Finalize h s' t = (s', Some e)
     /\ KindOf e = Some DomainErrorValidation.
Proof.
intros Hst Hin Hempty. cbv zeta.
unfold Split.UpdateDocumentMetadata.
pose proof Hst as Hst'. apply String.eqb_neq in Hst'. rewrite Hst'.
destruct (find_first (fun d => String.eqb (Document.ID d) docID)
            (Split.Documents s)) as [i |] eqn:Hf.
2:{ exfalso. unfold doc_IDs in Hin. apply in_map_iff in Hin.
    destruct Hin as (d & E & Hd).
    rewrite find_first_None in Hf. specialize (Hf d Hd).
    apply String.eqb_neq in Hf. contradiction. }
pose proof Hf as Hf'. apply find_first_Some in Hf'.
destruct Hf' as (l1 & d & l2 & Hl & Hlen & _ & _).
assert (En : nth_error (Split.Documents s) i = Some d)
  by (rewrite Hl, <- Hlen; apply nth_error_middle).
rewrite En. cbn [Document.UpdateMetadata fst snd].
set (d' := Document.mk _ _ _ _ _ _ _ _ _).
assert (Hinv : Split.Valid h (Split.set_Documents s
                                (set_nth i d' (Split.Documents s))) <> None).
{ intros Hv. apply Split_Valid_iff in Hv. destruct Hv as (_ & _ & Hdocs).
  assert (Hd' : Document.Valid h d' = None).
  { apply Hdocs. cbn. eapply nth_error_In.
    eapply nth_error_set_nth_same, En. }
  apply Document_Valid_iff in Hd'. destruct Hd' as (_ & _ & D3 & D4 & _).
  unfold d' in D3, D4. cbn in D3, D4.
  destruct Hempty as [E | E]; rewrite E in *; congruence. }
split; [reflexivity |]. split; [exact Hinv |].
intros t. apply Finalize_not_None; [exact Hst | now right].
Qed.

(** X15: after [RemoveDocument] has removed a document of a valid split, the
  unassigned pool is not empty and [Finalize] fails with the Validation
  error "cannot finalize split with unassigned pages". *)
Theorem RemoveDocument_then_Finalize (h : Heap) (s : Split.t) (docID : string)
(h' : Heap) (s' : Split.t) (t : Time) :
Split.Valid h s = None ->
Split.RemoveDocument h s docID = (h', s', None) ->
Split.UnassignedPages s' <> []
/\ Split.Finalize h' s' t
   = (s', Some (NewValidationError
                  "cannot finalize split with unassigned pages" None)).
Proof.
intros Hv H. apply RemoveDocument_shape in H.
destruct H as [(N & _) | (_ & Hst & l1 & doc & l2 & Hl & _ & _ & -> & ->)];
  [now contradiction N |].
apply Split_Valid_iff in Hv. destruct Hv as (_ & _ & Hdocs).
assert (Hd : Document.Valid h doc = None).
{ apply Hdocs. rewrite Hl. apply in_or_app. right. now left. }
apply Document_Valid_iff in Hd. destruct Hd as (_ & _ & _ & _ & _ & Hp & _).
cbn [Split.UnassignedPages].
assert (Hpool : Split.UnassignedPages s ++ Document.Pages doc <> []).
{ destruct (Document.Pages doc); [contradiction |].
  destruct (Split.UnassignedPages s); discriminate. }
split; [exact Hpool |].
unfold Split.Finalize. cbn [Split.Status Split.UnassignedPages].
apply String.eqb_neq in Hst. rewrite Hst.
destruct (Split.UnassignedPages s ++ Document.Pages doc);
  [contradiction | reflexivity].
Qed.

End Validity.

Lemma Document_Valid_of (h h' : Heap) (d d' : Document.t) :
  SameMetadata d' d ->
  Document.Valid h d = None ->
  Document.Pages d' <> [] ->
  (forall p, In p (Document.Pages d') -> Page.Valid (h' p) = None) ->
  Document.Valid h' d' = None.
Proof.
  intros (M1 & M2 & M3 & M4 & M5 & _) Hv Hne Hp.
  apply Document_Valid_iff in Hv. destruct Hv as (D1 & D2 & D3 & D4 & D5 & _).
  apply Document_Valid_iff. rewrite M1, M2, M3, M4, M5.
  repeat split; assumption.
Qed.

Section MovePagesValidity.
Context {L : GoLib}.
Hypothesis SortFunc_Permutation :
forall (A : Type) (cmp : A -> A -> Z) (l : list A),
  Permutation (slices_SortFunc cmp l) l.

(** X16: a successful [MovePages] on a valid split leaves it valid exactly
  when the source document keeps a page.  When every page of the source
  is moved, the source document stays in the split with no page and
  empty bounds, the split is invalid and [Finalize] fails on it with a
  Validation error. *)
Theorem MovePages_valid_unless_emptied (h : Heap) (s : Split.t)
(fromDocID toDocID : string) (pageIDs : list string)
(h' : Heap) (s' : Split.t) (i : nat) (A : Document.t) :
Split.Valid h s = None ->
pageIDs <> [] ->
Split.MovePages h s fromDocID toDocID pageIDs = (h', s', None) ->
find_last (fun d => String.eqb (Document.ID d) fromDocID) (Split.Documents s)
  = Some i ->
nth_error (Split.Documents s) i = Some A ->
(Split.Valid h' s' = None
 <-> exists p, In p (Document.Pages A) /\ ~ In (Page.ID (h p)) pageIDs)
/\ ((forall p, In p (Document.Pages A) -> In (Page.ID (h p)) pageIDs) ->
    exists A',
      nth_error (Split.Documents s') i = Some A'
      /\ Document.Pages A' = []
      /\ Document.StartPage A' = "" /\ Document.EndPage A' = ""
      /\ forall t, exists e,
           Split.Finalize h' s' t = (s', Some e)
           /\ KindOf e = Some DomainErrorValidation).
Proof.
intros Hv Hids H Hi HA. apply MovePages_success_form in H.
destruct H as (i0 & j & A0 & B & Hst & Hi0 & HA0 & Hj & HB & Hchk & Hcase).
rewrite Hi in Hi0. injection Hi0 as <-. rewrite HA in HA0. injection HA0 as <-.
destruct Hcase as [[Hnil _] | (_ & Hij & Hne & Hnd & Hh' & Hs')];
  [contradiction |].
set (moved := filter (Document.shouldRemove h pageIDs) (Document.Pages A)) in *.
set (remaining := filter (fun p => negb (Document.shouldRemove h pageIDs p))
                    (Document.Pages A)) in *.
set (h1 := fold_left Unassign moved h) in *.
set (A' := Document.updatePageNumbers h1 (Document.set_Pages A remaining)) in *.
set (B' := Document.updatePageNumbers h'
             (Document.set_Pages B (Document.Pages B ++ moved))) in *.
assert (Hsame : heap_same_but_DocumentID h h').
{ rewrite Hh'. eapply heap_same_trans;
    [apply (Unassign_all_same moved) | apply assignAll_same]. }
apply Split_Valid_iff in Hv. destruct Hv as (N1 & N2 & Hdocs).
assert (HvA : Document.Valid h A = None)
  by (apply Hdocs; eapply nth_error_In, HA).
assert (HvB : Document.Valid h B = None)
  by (apply Hdocs; eapply nth_error_In, HB).
assert (HpA : forall p, In p (Document.Pages A) -> Page.Valid (h' p) = None).
{ intros p Hp. rewrite (Page_Valid_same (Hsame p)).
  apply Document_Valid_iff in HvA. now apply HvA. }
assert (HpB : forall p, In p (Document.Pages B) -> Page.Valid (h' p) = None).
{ intros p Hp. rewrite (Page_Valid_same (Hsame p)).
  apply Document_Valid_iff in HvB. now apply HvB. }
assert (HPA' : Permutation (Document.Pages A') remaining)
  by (unfold A'; now rewrite updatePageNumbers_Permutation).
assert (HPB' : Permutation (Document.Pages B') (Document.Pages B ++ moved))
  by (unfold B'; now rewrite updatePageNumbers_Permutation).
assert (HnA' : nth_error (Split.Documents s') i = Some A').
{ rewrite Hs'. cbn. rewrite nth_error_set_nth_other by congruence.
  eapply nth_error_set_nth_same, HA. }
assert (Hiff : Split.Valid h' s' = None
               <-> exists p, In p (Document.Pages A)
                             /\ ~ In (Page.ID (h p)) pageIDs).
{ split.
  - intros Hv'. apply Split_Valid_iff in Hv'. destruct Hv' as (_ & _ & Hd').
    assert (HvA' : Document.Valid h' A' = None)
      by (apply Hd'; eapply nth_error_In, HnA').
    apply Document_Valid_iff in HvA'.
    destruct HvA' as (_ & _ & _ & _ & _ & Hp & _).
    destruct (Document.Pages A') as [| p ps] eqn:Ep; [contradiction |].
    assert (Hin : In p remaining)
      by (eapply Permutation_in; [exact HPA' | now left]).
    apply filter_In in Hin. destruct Hin as [Hin Hnot].
    exists p. split; [exact Hin |].
    apply shouldRemove_not_In. now apply negb_true_iff in Hnot.
  - intros (p & Hp & Hnot). apply Split_Valid_iff. rewrite Hs'. cbn.
    repeat split; try assumption.
    intros d Hd. apply In_set_nth in Hd. destruct Hd as [-> | Hd].
    { apply (@Document_Valid_of h h' B).
      - apply (updatePageNumbers_SameMetadata _ (Document.set_Pages B _)).
      - exact HvB.
      - intros E. rewrite E in HPB'.
        apply Permutation_nil in HPB'.
        apply app_eq_nil in HPB'. now destruct HPB' as [_ HPB'].
      - intros q Hq. apply (Permutation_in _ HPB') in Hq.
        apply in_app_or in Hq. destruct Hq as [Hq | Hq]; [now apply HpB |].
        apply HpA. unfold moved in Hq. now apply filter_In in Hq. }
    apply In_set_nth in Hd. destruct Hd as [-> | Hd].
    { apply (@Document_Valid_of h h' A).
      - apply (updatePageNumbers_SameMetadata _ (Document.set_Pages A _)).
      - exact HvA.
      - intros E. rewrite E in HPA'. apply Permutation_nil in HPA'.
        assert (Hr : In p remaining).
        { apply filter_In. split; [exact Hp |].
          apply negb_true_iff. now apply shouldRemove_not_In. }
        rewrite HPA' in Hr. contradiction.
      - intros q Hq. apply (Permutation_in _ HPA') in Hq.
        apply HpA. unfold remaining in Hq. now apply filter_In in Hq. }
    rewrite (Document_Valid_same d Hsame). now apply Hdocs. }
split; [exact Hiff |].
intros Hall. exists A'.
assert (Hrem : remaining = []).
{ apply filter_none. intros p Hp. apply negb_false_iff.
  apply shouldRemove_In. now apply Hall. }
assert (HA'nil : Document.Pages A' = []).
{ rewrite Hrem in HPA'. now apply Permutation_sym, Permutation_nil in HPA'. }
split; [exact HnA' |]. split; [exact HA'nil |].
pose proof (updatePageNumbers_BoundsOf h1 (Document.set_Pages A remaining))
  as Hb.
fold A' in Hb. unfold BoundsOf in Hb. rewrite HA'nil in Hb.
split; [apply Hb |]. split; [apply Hb |].
intros t. apply Finalize_not_None.
- rewrite Hs'. exact Hst.
- right. intros Hv'. apply Hiff in Hv'. destruct Hv' as (p & Hp & Hnot).
  exact (Hnot (Hall p Hp)).
Qed.

End MovePagesValidity.

(** ** AssignToSplit *)

Lemma set_page_SplitID_notin (splitID : string) (l : list addr) :
  forall (h : Heap) (a : addr),
  ~ In a l -> fold_left (set_page_SplitID splitID) l h a = h a.
Proof.
  induction l as [| b l IH]; intros h a Ha; [reflexivity |]. cbn.
  rewrite IH by (intros Hin; apply Ha; now right).
  unfold set_page_SplitID. apply upd_other. intros ->. apply Ha. now left.
Qed.

Lemma set_page_SplitID_in (splitID : string) (l : list addr) :
  forall (h : Heap) (a : addr),
  In a l ->
  fold_left (set_page_SplitID splitID) l h a
  = Page.mk (Page.ID (h a)) splitID (Page.DocumentID (h a))
      (Page.PageNumber (h a)) (Page.URL (h a)).
Proof.
  induction l as [| b l IH]; intros h a Ha; [destruct Ha |]. cbn.
  destruct (in_dec Nat.eq_dec a l) as [Hin | Hnin].
  - rewrite IH by assumption. unfold set_page_SplitID, upd.
    destruct (Nat.eqb a b) eqn:E; [| reflexivity].
    apply Nat.eqb_eq in E. subst. reflexivity.
  - destruct Ha as [-> | Ha]; [| contradiction].
    rewrite set_page_SplitID_notin by assumption.
    unfold set_page_SplitID. apply upd_same.
Qed.

(** X17: [AssignToSplit] succeeds exactly when the document has no split yet
    or already has the given one; it then writes the split ID into the
    document and into every page of its list, and nothing else.  A document
    of another split is refused with a Conflict error and nothing changes. *)
Theorem AssignToSplit_spec (h : Heap) (d : Document.t) (splitID : string)
  (h' : Heap) (d' : Document.t) (err : option error) :
  AssignToSplit h d splitID = (h', d', err) ->
  (err = None <-> Document.SplitID d = "" \/ Document.SplitID d = splitID)
  /\ (err = None ->
      d' = Document.mk (Document.ID d) splitID (Document.Name d)
             (Document.Classification d) (Document.Filename d)
             (Document.ShortDescription d) (Document.Pages d)
             (Document.StartPage d) (Document.EndPage d)
      /\ (forall p, In p (Document.Pages d) ->
            h' p = Page.mk (Page.ID (h p)) splitID (Page.DocumentID (h p))
                     (Page.PageNumber (h p)) (Page.URL (h p)))
      /\ (forall a, ~ In a (Document.Pages d) -> h' a = h a))
  /\ (forall e, err = Some e ->
        KindOf e = Some DomainErrorConflict /\ h' = h /\ d' = d).
Proof.
  unfold AssignToSplit. intros H.
  assert (Hok : Document.SplitID d = "" \/ Document.SplitID d = splitID ->
                negb (String.eqb (Document.SplitID d) "")
                && negb (String.eqb (Document.SplitID d) splitID) = false).
  { intros [E | E]; rewrite E, String.eqb_refl; cbn; [reflexivity |].
    apply andb_false_r. }
  destruct (negb (String.eqb (Document.SplitID d) "")
            && negb (String.eqb (Document.SplitID d) splitID)) eqn:Eb.
  - injection H as <- <- <-.
    split; [split; [discriminate | intros Hc; apply Hok in Hc; discriminate] |].
    split; [discriminate |]. intros e [= <-]. repeat split.
  - injection H as <- <- <-. split; [| split; [| discriminate]].
    + split; [intros _ | reflexivity].
      apply andb_false_iff in Eb.
      destruct Eb as [Eb | Eb]; apply negb_false_iff, String.eqb_eq in Eb; auto.
    + intros _. split; [reflexivity |].
      split; [intros p Hp; now apply set_page_SplitID_in
             | intros a Ha; now apply set_page_SplitID_notin].
Qed.

(** ** NewSplit *)

Lemma InOrder_ext (h h' : Heap) (l : list addr) :
  (forall p, In p l -> h' p = h p) -> InOrder h l -> InOrder h' l.
Proof.
  unfold InOrder. induction l as [| a l IH]; intros Hag Hs; [constructor |].
  inversion Hs as [| ? ? Hs' Hall]; subst. constructor.
  - apply IH; [| exact Hs']. intros p Hp. apply Hag. now right.
  - rewrite Forall_forall in *. intros x Hx.
    rewrite (Hag a (or_introl eq_refl)), (Hag x (or_intror Hx)). now apply Hall.
Qed.

Lemma BoundsOf_ext (h h' : Heap) (d : Document.t) :
  (forall p, In p (Document.Pages d) -> h' p = h p) ->
  BoundsOf h d -> BoundsOf h' d.
Proof.
  unfold BoundsOf. intros Hag.
  destruct (Document.Pages d) as [| a l]; [auto |].
  rewrite (Hag a (or_introl eq_refl)), (Hag _ (last_In l a a)). auto.
Qed.

Lemma Document_Valid_ext (h h' : Heap) (d : Document.t) :
  (forall p, In p (Document.Pages d) -> h' p = h p) ->
  Document.Valid h d = None -> Document.Valid h' d = None.
Proof.
  intros Hag Hv. apply Document_Valid_iff in Hv. apply Document_Valid_iff.
  destruct Hv as (D1 & D2 & D3 & D4 & D5 & D6 & D7).
  repeat split; try assumption. intros p Hp. rewrite (Hag p Hp). now apply D7.
Qed.

Lemma Forall2_impl_In (A B : Type) (P Q : A -> B -> Prop) (l1 : list A)
  (l2 : list B) :
  Forall2 P l1 l2 ->
  (forall x y, In y l2 -> P x y -> Q x y) ->
  Forall2 Q l1 l2.
Proof.
  induction 1 as [| a b l1 l2 Hab _ IH]; intros Himp; constructor.
  - apply Himp; [now left | assumption].
  - apply IH. intros x0 y0 Hy. apply Himp. now right.
Qed.

Lemma Forall2_In_r (A B : Type) (P : A -> B -> Prop) (l1 : list A)
  (l2 : list B) :
  Forall2 P l1 l2 -> forall y0, In y0 l2 -> exists x0, In x0 l1 /\ P x0 y0.
Proof.
  induction 1 as [| a b l1 l2 Hab _ IH]; intros y0 Hy; [destruct Hy |].
  destruct Hy as [<- | Hy].
  - exists a. split; [now left | assumption].
  - destruct (IH _ Hy) as (x0 & Hx & Hp).
    exists x0. split; [now right | assumption].
Qed.

Lemma Forall2_In_l (A B : Type) (P : A -> B -> Prop) (l1 : list A)
  (l2 : list B) :
  Forall2 P l1 l2 -> forall x0, In x0 l1 -> exists y0, In y0 l2 /\ P x0 y0.
Proof.
  induction 1 as [| a b l1 l2 Hab _ IH]; intros x0 Hx; [destruct Hx |].
  destruct Hx as [<- | Hx].
  - exists b. split; [now left | assumption].
  - destruct (IH _ Hx) as (y0 & Hy & Hp).
    exists y0. split; [now right | assumption].
Qed.

Section NewSplitBuilds.
Context {L : GoLib}.

Lemma PageFromURL_ext (h h' : Heap) (splitID url : string) (a : addr) :
h' a = h a -> PageFromURL h splitID url a -> PageFromURL h' splitID url a.
Proof. unfold PageFromURL. intros ->. auto. Qed.

Lemma NewPage_Ok_cell (st : Store) (splitID url : string) (st' : Store)
(a : addr) :
NewPage st splitID url = (st', Ok a) ->
a = next st /\ next st' = S (next st)
/\ PageFromURL (cells st') splitID url a
/\ forall b, b <> a -> cells st' b = cells st b.
Proof.
unfold NewPage. intros H.
destruct (fmt_Sscanf_page url) as [n |] eqn:Es; [| discriminate].
destruct (Page.Valid _) eqn:Ev; [discriminate |].
injection H as <- <-. cbn [next cells].
split; [reflexivity |]. split; [reflexivity |]. split.
- unfold PageFromURL. rewrite upd_same. cbn. repeat split; assumption.
- intros b Hb. now apply upd_other.
Qed.

Lemma NewSplit_pages_build (splitID : string) (urls : list string) :
forall (st : Store) (acc : list addr) (st' : Store) (pages : list addr),
NewSplit_pages st splitID acc urls = (st', Ok pages) ->
pages = acc ++ seq (next st) (List.length urls)
/\ Forall2 (PageFromURL (cells st') splitID) urls
     (seq (next st) (List.length urls))
/\ next st' = (next st + List.length urls)%nat
/\ forall b, (b < next st)%nat -> cells st' b = cells st b.
Proof.
induction urls as [| url rest IH]; intros st acc st' pages H.
- cbn in H. injection H as <- <-. cbn.
  rewrite app_nil_r, Nat.add_0_r. repeat split. constructor.
- cbn [NewSplit_pages] in H.
  destruct (NewPage st splitID url) as [st1 [a | e]] eqn:Ep; [| discriminate].
  apply NewPage_Ok_cell in Ep. destruct Ep as (-> & Hn1 & Hp & Hc1).
  apply IH in H. destruct H as (-> & Hf & Hn & Hc).
  rewrite Hn1 in *. cbn [List.length seq].
  split; [now rewrite <- app_assoc |]. split; [| split; [lia |]].
  + constructor; [| exact Hf].
    eapply PageFromURL_ext; [| exact Hp]. apply Hc. lia.
  + intros b Hb. rewrite Hc by lia. apply Hc1. lia.
Qed.

Lemma NewDocument_Ok_inv (h : Heap)
(id splitID name classification filename shortDescription : string)
(pages : list addr) (d : Document.t) :
Document.NewDocument h id splitID name classification filename
  shortDescription pages = Ok d ->
d = Document.updatePageNumbers h
      (Document.mk id splitID name classification filename shortDescription
         pages "" "")
/\ Document.Valid h d = None.
Proof.
unfold Document.NewDocument. cbv zeta.
destruct (Document.Valid h _) eqn:Ev; [discriminate |].
intros [= <-]. split; [reflexivity | exact Ev].
Qed.

Hypothesis SortFunc_Permutation :
forall (A : Type) (cmp : A -> A -> Z) (l : list A),
  Permutation (slices_SortFunc cmp l) l.
Hypothesis SortFunc_sorted :
forall (A : Type) (key : A -> Z) (l : list A),
  StronglySorted (fun a b => key a <= key b) (slices_SortFunc (cmpBy key) l).

Lemma DocFromData_ext (h h' : Heap) (splitID : string) (dd : docData)
(d : Document.t) :
(forall p, In p (Document.Pages d) -> h' p = h p) ->
DocFromData h splitID dd d -> DocFromData h' splitID dd d.
Proof.
intros Hag (D1 & D2 & D3 & D4 & D5 & D6 & (ps & Hf & Hperm) & Ho & Hb & Hv).
unfold DocFromData. repeat (split; [assumption |]).
split; [| split; [| split]].
- exists ps. split; [| exact Hperm].
  eapply Forall2_impl_In; [exact Hf |].
  intros url a Ha. apply PageFromURL_ext. apply Hag.
  eapply Permutation_in; [apply Permutation_sym; exact Hperm | exact Ha].
- eapply InOrder_ext; eassumption.
- eapply BoundsOf_ext; eassumption.
- eapply Document_Valid_ext; eassumption.
Qed.

Lemma NewSplit_documents_build (splitID : string) (data : list docData) :
forall (st : Store) (acc : list Document.t) (st' : Store)
       (docs : list Document.t),
NewSplit_documents st splitID acc data = (st', Ok docs) ->
exists new,
  docs = acc ++ new
  /\ Forall2 (DocFromData (cells st') splitID) data new
  /\ Forall (fun d => forall p, In p (Document.Pages d) ->
               (next st <= p < next st')%nat) new
  /\ (next st <= next st')%nat
  /\ forall b, (b < next st)%nat -> cells st' b = cells st b.
Proof.
induction data as [| dd rest IH]; intros st acc st' docs H.
- cbn in H. injection H as <- <-. exists []. rewrite app_nil_r.
  repeat split; try constructor.
- cbn [NewSplit_documents] in H.
  destruct (NewSplit_pages st splitID [] (dd_PageURLs dd))
    as [st1 [pages | e]] eqn:Ep; [| discriminate].
  apply NewSplit_pages_build in Ep. cbn [app] in Ep.
  destruct Ep as (-> & Hf & Hn1 & Hc1).
  destruct (Document.NewDocument _ _ _ _ _ _ _ _) as [doc | e] eqn:Ed;
    [| discriminate].
  apply NewDocument_Ok_inv in Ed. destruct Ed as [Hdoc Hv].
  apply IH in H. destruct H as (new & -> & Hnew & Hrange & Hle & Hc).
  set (pages := seq (next st) (List.length (dd_PageURLs dd))) in *.
  assert (Hperm : Permutation (Document.Pages doc) pages).
  { rewrite Hdoc. now rewrite updatePageNumbers_Permutation. }
  assert (Hin : forall p, In p (Document.Pages doc) ->
                  (next st <= p < next st1)%nat).
  { intros p Hp. apply (Permutation_in _ Hperm) in Hp.
    unfold pages in Hp. apply in_seq in Hp. lia. }
  assert (Hd1 : DocFromData (cells st1) splitID dd doc).
  { unfold DocFromData.
    pose proof (updatePageNumbers_SameMetadata (cells st1)
                  (Document.mk (dd_ID dd) splitID (dd_Name dd)
                     (dd_Classification dd) (dd_Filename dd)
                     (dd_ShortDescription dd) pages "" "")) as Hm.
    rewrite <- Hdoc in Hm. destruct Hm as (M1 & M2 & M3 & M4 & M5 & M6).
    repeat (split; [assumption |]).
    split; [exists pages; split; assumption |].
    rewrite Hdoc.
    split; [now apply updatePageNumbers_InOrder |].
    split; [apply updatePageNumbers_BoundsOf |].
    rewrite <- Hdoc. exact Hv. }
  exists (doc :: new). split; [now rewrite <- app_assoc |].
  split; [| split; [| split; [lia |]]].
  + constructor; [| exact Hnew].
    eapply DocFromData_ext; [| exact Hd1].
    intros p Hp. apply Hc. apply Hin in Hp. lia.
  + constructor.
    * intros p Hp. apply Hin in Hp. lia.
    * eapply Forall_impl; [| exact Hrange]. cbn beta.
      intros d Hd p Hp. specialize (Hd p Hp). lia.
  + intros b Hb. rewrite Hc by lia. now apply Hc1.
Qed.

(** X18: what [NewSplit] returns is what the JSON says: the ID, client ID
  and status of the JSON (the status is taken as it is), the two time
  stamps, no [FinalizedAt], an empty unassigned pool and, in the order of
  the JSON, one document per entry with the strings of the entry and one
  unassigned page of this split per URL, in the order of the page
  numbers scanned from the URLs and with the bounds derived from them.
  The split is valid, and no page that existed before is written. *)
Theorem NewSplit_builds (st : Store) (createdAt updatedAt : Time)
(jsonRepr : string) (st' : Store) (s : Split.t) :
NewSplit st createdAt updatedAt jsonRepr = (st', Ok s) ->
exists data,
  json_Unmarshal jsonRepr = Some data
  /\ Split.ID s = sd_ID data
  /\ Split.ClientID s = sd_ClientID data
  /\ Split.Status s = sd_Status data
  /\ Split.CreatedAt s = createdAt
  /\ Split.UpdatedAt s = updatedAt
  /\ Split.FinalizedAt s = None
  /\ Split.UnassignedPages s = []
  /\ Forall2 (DocFromData (cells st') (sd_ID data)) (sd_Documents data)
       (Split.Documents s)
  /\ Split.Valid (cells st') s = None
  /\ forall b, (b < next st)%nat -> cells st' b = cells st b.
Proof.
unfold NewSplit. intros H.
destruct (json_Unmarshal jsonRepr) as [data |]; [| discriminate].
destruct (NewSplit_documents st (sd_ID data) [] (sd_Documents data))
  as [st1 [docs | e]] eqn:Ed; [| discriminate].
destruct (Split.Valid (cells st1) _) eqn:Ev; [discriminate |].
injection H as <- <-.
apply NewSplit_documents_build in Ed. cbn [app] in Ed.
destruct Ed as (new & -> & Hnew & _ & _ & Hc).
exists data. cbn. repeat split; assumption.
Qed.

End NewSplitBuilds.

(* ================================================================== *)
(** * Further properties of the repository                             *)
(* ================================================================== *)

(** ** Upserts that take every column from the new row *)

Lemma NoDup_app_intro (A : Type) (l1 l2 : list A) :
  NoDup l1 -> NoDup l2 -> (forall x, In x l1 -> ~ In x l2) -> NoDup (l1 ++ l2).
Proof.
  induction l1 as [| a l1 IH]; intros H1 H2 Hd; [exact H2 |].
  inversion H1 as [| ? ? Ha H1']; subst. cbn. constructor.
  - intros Hin. apply in_app_or in Hin. destruct Hin as [Hin | Hin];
      [contradiction | exact (Hd a (or_introl eq_refl) Hin)].
  - apply IH; [assumption | assumption |]. intros x Hx. apply Hd. now right.
Qed.

Lemma NoDup_map_key (A : Type) (key : A -> string) (l : list A) :
  NoDup (map key l) -> NoDup l.
Proof.
  induction l as [| a l IH]; cbn; intros H; [constructor |].
  inversion H as [| ? ? Ha H']; subst. constructor; [| now apply IH].
  intros Hin. apply Ha. now apply in_map.
Qed.

Section Upserts.
Variables (R : Type) (key : R -> string).

Lemma upserts_map (W : Type) (row : W -> R) (ws : list W) :
forall rows,
fold_left (fun rows w => upsert key (fun _ n => n) (row w) rows) ws rows
= upserts key (map row ws) rows.
Proof.
induction ws as [| w ws IH]; intros rows; [reflexivity |]. cbn. apply IH.
Qed.

Lemma upsert_present (new : R) (rows : list R) :
In (key new) (map key (upsert key (fun _ n => n) new rows)).
Proof.
apply in_map_iff. exists new. split; [reflexivity | apply upsert_In_new].
Qed.

Lemma upsert_keeps_keys (new : R) (rows : list R) (k : string) :
In k (map key rows) -> In k (map key (upsert key (fun _ n => n) new rows)).
Proof.
induction rows as [| old rest IH]; cbn; [contradiction |].
destruct (String.eqb_spec (key old) (key new)) as [E | E]; cbn.
- intros [<- | H]; [left; now symmetry | now right].
- intros [<- | H]; [now left | right; now apply IH].
Qed.

Lemma upserts_keeps_keys (ws : list R) :
forall rows k, In k (map key rows) -> In k (map key (upserts key ws rows)).
Proof.
induction ws as [| w ws IH]; intros rows k H; [exact H |].
cbn. apply IH. now apply upsert_keeps_keys.
Qed.

Lemma upserts_present (ws : list R) :
forall rows w, In w ws -> In (key w) (map key (upserts key ws rows)).
Proof.
induction ws as [| v ws IH]; intros rows w Hw; [destruct Hw |]. cbn.
destruct Hw as [-> | Hw]; [| now apply IH].
apply upserts_keeps_keys, upsert_present.
Qed.

Lemma upsert_same_key (a b : R) (rows : list R) :
key a = key b ->
upsert key (fun _ n => n) a (upsert key (fun _ n => n) b rows)
= upsert key (fun _ n => n) a rows.
Proof.
intros E. induction rows as [| old rest IH]; cbn.
- destruct (String.eqb_spec (key b) (key a)); [reflexivity | congruence].
- destruct (String.eqb_spec (key old) (key b)) as [Eo | Eo]; cbn.
  + destruct (String.eqb_spec (key b) (key a)); [| congruence].
    destruct (String.eqb_spec (key old) (key a)); [reflexivity | congruence].
  + destruct (String.eqb_spec (key old) (key a)); [congruence |].
    now rewrite IH.
Qed.

Lemma upsert_In_cases (new r : R) (rows : list R) :
In r (upsert key (fun _ n => n) new rows) -> r = new \/ In r rows.
Proof.
induction rows as [| old rest IH]; cbn.
- intros [<- | []]. now left.
- destruct (String.eqb (key old) (key new)); cbn.
  + intros [<- | H]; [now left | right; now right].
  + intros [<- | H]; [right; now left |].
    destruct (IH H); [now left | right; now right].
Qed.

Lemma upsert_comm (a b : R) (rows : list R) :
key a <> key b ->
In (key a) (map key rows) ->
upsert key (fun _ n => n) a (upsert key (fun _ n => n) b rows)
= upsert key (fun _ n => n) b (upsert key (fun _ n => n) a rows).
Proof.
intros Hab. induction rows as [| old rest IH]; cbn; [contradiction |].
intros Hin.
destruct (String.eqb_spec (key old) (key a)) as [Ea | Ea];
  destruct (String.eqb_spec (key old) (key b)) as [Eb | Eb]; cbn.
- congruence.
- apply String.eqb_neq in Hab. rewrite Hab.
  destruct (String.eqb_spec (key old) (key a)); [reflexivity | contradiction].
- assert (Hba : String.eqb (key b) (key a) = false)
    by (apply String.eqb_neq; congruence).
  rewrite Hba.
  destruct (String.eqb_spec (key old) (key b)); [reflexivity | contradiction].
- destruct (String.eqb_spec (key old) (key a)); [contradiction |].
  destruct (String.eqb_spec (key old) (key b)); [contradiction |].
  f_equal. apply IH. destruct Hin as [E | Hin]; [congruence | exact Hin].
Qed.

Lemma upserts_absorb (ws : list R) :
forall (rows : list R) (w : R),
(forall v, In v ws -> In (key v) (map key rows)) ->
upsert key (fun _ n => n) w (upserts key ws (upsert key (fun _ n => n) w rows))
= upsert key (fun _ n => n) w (upserts key ws rows).
Proof.
induction ws as [| v ws IH]; intros rows w Hk; cbn.
- apply upsert_same_key. reflexivity.
- destruct (string_dec (key v) (key w)) as [E | E].
  + now rewrite upsert_same_key.
  + rewrite upsert_comm; [| exact E | apply Hk; now left].
    apply IH. intros u Hu. apply upsert_keeps_keys. apply Hk. now right.
Qed.

Lemma upserts_app (ws1 ws2 rows : list R) :
upserts key (ws1 ++ ws2) rows = upserts key ws2 (upserts key ws1 rows).
Proof. unfold upserts. apply fold_left_app. Qed.

Lemma upserts_cons (w : R) (ws rows : list R) :
upserts key (w :: ws) rows = upserts key ws (upsert key (fun _ n => n) w rows).
Proof. reflexivity. Qed.

Lemma upserts_one (w : R) (rows : list R) :
upserts key [w] rows = upsert key (fun _ n => n) w rows.
Proof. reflexivity. Qed.

(** Writing the same rows a second time changes nothing. *)
Lemma upserts_idempotent (ws : list R) :
forall rows, upserts key ws (upserts key ws rows) = upserts key ws rows.
Proof.
induction ws as [| w ws IH] using rev_ind; intros rows; [reflexivity |].
rewrite !upserts_app, !upserts_one.
rewrite upserts_absorb.
- now rewrite IH.
- intros v Hv. now apply upserts_present.
Qed.

(** With unique keys, a row of the table after the writes is a row
  written or an old row whose key was not written. *)
Lemma upsert_In_unique (new r : R) (rows : list R) :
NoDup (map key rows) ->
In r (upsert key (fun _ n => n) new rows) ->
r = new \/ (In r rows /\ key r <> key new).
Proof.
induction rows as [| old rest IH]; cbn; intros Hnd Hin.
- destruct Hin as [<- | []]. now left.
- inversion Hnd as [| ? ? Hold Hnd']; subst.
  destruct (String.eqb_spec (key old) (key new)) as [E | E].
  + destruct Hin as [<- | Hin]; [now left |]. right. split; [now right |].
    intros Er. apply Hold. rewrite E, <- Er. now apply in_map.
  + destruct Hin as [<- | Hin]; [right; split; [now left | exact E] |].
    destruct (IH Hnd' Hin) as [-> | [H1 H2]]; [now left |].
    right. split; [now right | exact H2].
Qed.

Lemma upserts_In_unique (ws : list R) :
forall (rows : list R) (r : R),
NoDup (map key rows) ->
In r (upserts key ws rows) ->
In r ws \/ (In r rows /\ ~ In (key r) (map key ws)).
Proof.
induction ws as [| w ws IH]; intros rows r Hnd Hin; cbn in *.
- right. split; [exact Hin | tauto].
- apply IH in Hin; [| now apply upsert_NoDup].
  destruct Hin as [Hin | [Hin Hk]]; [left; now right |].
  apply upsert_In_unique in Hin; [| exact Hnd].
  destruct Hin as [-> | [Hin Hne]]; [left; now left |].
  right. split; [exact Hin |]. intros [E | E]; [congruence | contradiction].
Qed.

(** With unique keys among the rows written, each of them is in the table
  afterwards. *)
Lemma upserts_In_written (ws : list R) :
forall (rows : list R) (w : R),
NoDup (map key ws) -> In w ws -> In w (upserts key ws rows).
Proof.
induction ws as [| v ws IH]; intros rows w Hnd Hw; [destruct Hw |].
cbn in Hnd. inversion Hnd as [| ? ? Hv Hnd']; subst. cbn.
destruct Hw as [-> | Hw]; [| now apply IH].
clear IH. revert rows. induction ws as [| u ws IH2]; intros rows.
- apply upsert_In_new.
- cbn. cbn in Hv, Hnd'. inversion Hnd'; subst.
  assert (Hwu : key w <> key u) by (intros E; apply Hv; now left).
  assert (Hin : In w (upsert key (fun _ n => n) u
                        (upsert key (fun _ n => n) w rows))).
  { apply upsert_In_other; [apply upsert_In_new | exact Hwu]. }
  clear IH2. revert Hin.
  generalize (upsert key (fun _ n => n) u (upsert key (fun _ n => n) w rows)).
  assert (Hws : ~ In (key w) (map key ws)) by (intros E; apply Hv; now right).
  clear - Hws. induction ws as [| x ws IH3]; intros T Hin; [exact Hin |].
  cbn. apply IH3; [intros E; apply Hws; now right |].
  apply upsert_In_other; [exact Hin |]. intros E. apply Hws. left. now symmetry.
Qed.

(** The first row of a key, which is what a query by key returns. *)
Lemma filter_key_upsert (new : R) (rows : list R) (k : string) :
filter (fun r => String.eqb (key r) k) (upsert key (fun _ n => n) new rows)
= if String.eqb (key new) k then
    match filter (fun r => String.eqb (key r) k) rows with
    | [] => [new]
    | _ :: rest => new :: rest
    end
  else filter (fun r => String.eqb (key r) k) rows.
Proof.
induction rows as [| old rest IH]; cbn.
- now destruct (String.eqb (key new) k).
- destruct (String.eqb_spec (key old) (key new)) as [E | E]; cbn.
  + rewrite E. now destruct (String.eqb (key new) k).
  + rewrite IH. destruct (String.eqb_spec (key new) k) as [En | En].
    * assert (Eo : String.eqb (key old) k = false)
        by (apply String.eqb_neq; congruence).
      now rewrite Eo.
    * reflexivity.
Qed.

Lemma filter_key_upserts_other (ws : list R) (k : string) :
forall rows,
~ In k (map key ws) ->
filter (fun r => String.eqb (key r) k) (upserts key ws rows)
= filter (fun r => String.eqb (key r) k) rows.
Proof.
induction ws as [| w ws IH]; intros rows Hk; [reflexivity |].
rewrite upserts_cons.
rewrite IH by (intros E; apply Hk; now right).
rewrite filter_key_upsert.
destruct (String.eqb_spec (key w) k) as [E | E]; [| reflexivity].
exfalso. apply Hk. left. exact E.
Qed.

Lemma filter_key_upserts (ws : list R) :
forall (rows : list R) (w : R),
NoDup (map key ws) -> In w ws ->
exists rest,
  filter (fun r => String.eqb (key r) (key w)) (upserts key ws rows) = w :: rest.
Proof.
induction ws as [| v ws IH]; intros rows w Hnd Hw; [destruct Hw |].
cbn in Hnd. inversion Hnd as [| ? ? Hv Hnd']; subst. rewrite upserts_cons.
destruct Hw as [-> | Hw]; [| now apply IH].
rewrite filter_key_upserts_other by exact Hv.
rewrite filter_key_upsert, String.eqb_refl.
destruct (filter _ rows); eexists; reflexivity.
Qed.

(** Rows a predicate does not select stay unselected, in place, when the
  rows written and the rows they replace are not selected. *)
Lemma filter_upsert_other (f : R -> bool) (new : R) (rows : list R) :
f new = false ->
(forall old, In old rows -> key old = key new -> f old = false) ->
filter f (upsert key (fun _ n => n) new rows) = filter f rows.
Proof.
intros Hn. induction rows as [| old rest IH]; intros Ho; cbn.
- now rewrite Hn.
- destruct (String.eqb_spec (key old) (key new)) as [E | E]; cbn.
  + rewrite Hn. now rewrite (Ho old (or_introl eq_refl) E).
  + rewrite IH; [reflexivity |]. intros o Hin. apply Ho. now right.
Qed.

Lemma filter_upserts_other (f : R -> bool) (ws : list R) :
forall rows,
(forall w, In w ws -> f w = false) ->
(forall old, In old rows -> In (key old) (map key ws) -> f old = false) ->
filter f (upserts key ws rows) = filter f rows.
Proof.
induction ws as [| w ws IH]; intros rows Hw Ho; [reflexivity |].
rewrite upserts_cons.
rewrite IH.
- apply filter_upsert_other; [apply Hw; now left |].
  intros old Hin E. apply Ho; [exact Hin | left; now symmetry].
- intros v Hv. apply Hw. now right.
- intros old Hin Hk. apply upsert_In_cases in Hin.
  destruct Hin as [-> | Hin]; [apply Hw; now left |].
  apply Ho; [exact Hin | now right].
Qed.

End Upserts.

(** ** Save, table by table *)

Lemma upserts_In_cases (R : Type) (key : R -> string) (ws : list R) :
  forall (rows : list R) (r : R),
  In r (upserts key ws rows) -> In r ws \/ In r rows.
Proof.
  induction ws as [| w ws IH]; intros rows r Hin; [now right |].
  rewrite upserts_cons in Hin. apply IH in Hin.
  destruct Hin as [Hin | Hin]; [left; now right |].
  apply upsert_In_cases in Hin. destruct Hin as [-> | Hin];
    [left; now left | now right].
Qed.

Lemma Save_upserts (h : Heap) (db : DB) (s : Split.t) :
  Save h db s
  = mkDB (splits (save_split_row s db))
      (upserts dr_id (map document_row (Split.Documents s))
         (documents (reconciled h db s)))
      (upserts pr_id (page_rows h s) (pages (reconciled h db s))).
Proof.
  rewrite Save_tables. unfold page_rows. now rewrite !upserts_map.
Qed.

Lemma reconciled_tables (h : Heap) (db : DB) (s : Split.t) :
  reconciled h db s
  = mkDB (splits (save_split_row s db))
      (filter (fun r => negb (mem_string (dr_id r) (toDeleteDocIDs s db)))
         (documents db))
      (filter (fun r =>
                 negb (mem_string (pr_id r)
                         (toDeletePageIDs h s
                            (filter (fun r =>
                               negb (match pr_document_id r with
                                     | Some x => mem_string x (toDeleteDocIDs s db)
                                     | None => false
                                     end)) (pages db)))))
         (filter (fun r =>
                    negb (match pr_document_id r with
                          | Some x => mem_string x (toDeleteDocIDs s db)
                          | None => false
                          end)) (pages db))).
Proof.
  unfold reconciled, delete_absent_pages, delete_absent_documents.
  rewrite !delete_pages_closed, !delete_documents_closed. reflexivity.
Qed.

Lemma page_rows_ids (h : Heap) (s : Split.t) :
  map pr_id (page_rows h s) = page_IDs h (all_pages s).
Proof.
  unfold page_rows. rewrite <- page_writes_pages. unfold page_IDs.
  rewrite !map_map. reflexivity.
Qed.

Lemma document_rows_ids (s : Split.t) :
  map dr_id (map document_row (Split.Documents s)) = doc_IDs s.
Proof. unfold doc_IDs. rewrite map_map. reflexivity. Qed.

(** What the reconciliation leaves of the rows of this split. *)
Lemma reconciled_documents_In (h : Heap) (db : DB) (s : Split.t)
  (r : DocumentRow) :
  In r (documents (reconciled h db s)) ->
  In r (documents db)
  /\ (dr_split_id r = Split.ID s -> In (dr_id r) (doc_IDs s)).
Proof.
  rewrite reconciled_tables. cbn [documents]. intros H.
  apply filter_In in H. destruct H as [Hin Hkeep]. split; [exact Hin |].
  intros Es. destruct (in_dec string_dec (dr_id r) (doc_IDs s)) as [Y | N];
    [exact Y |].
  exfalso. apply negb_true_iff, mem_string_not_In in Hkeep. apply Hkeep.
  unfold toDeleteDocIDs. apply filter_In. split.
  - apply in_map. apply filter_In. split; [exact Hin | now apply String.eqb_eq].
  - apply negb_true_iff. now apply mem_string_not_In.
Qed.

Lemma reconciled_pages_In (h : Heap) (db : DB) (s : Split.t) (r : PageRow) :
  In r (pages (reconciled h db s)) ->
  In r (pages db)
  /\ (pr_split_id r = Split.ID s -> In (pr_id r) (page_IDs h (all_pages s)))
  /\ (forall x, pr_document_id r = Some x -> ~ In x (toDeleteDocIDs s db)).
Proof.
  rewrite reconciled_tables. cbn [pages]. intros H.
  apply filter_In in H. destruct H as [Hin Hkeep].
  pose proof Hin as Hin0.
  apply filter_In in Hin. destruct Hin as [Hin Hdoc].
  split; [exact Hin |]. split.
  - intros Es.
    destruct (in_dec string_dec (pr_id r) (page_IDs h (all_pages s))) as [Y | N];
      [exact Y |].
    exfalso. apply negb_true_iff, mem_string_not_In in Hkeep. apply Hkeep.
    unfold toDeletePageIDs. apply filter_In. split.
    + apply in_map. apply filter_In.
      split; [exact Hin0 | now apply String.eqb_eq].
    + apply negb_true_iff. now apply mem_string_not_In.
  - intros x Ex. rewrite Ex in Hdoc.
    apply negb_true_iff in Hdoc. now apply mem_string_not_In.
Qed.

(** When every row of this split is a row of the aggregate, the
    reconciliation deletes nothing. *)
Lemma reconciled_fixed (h : Heap) (db : DB) (s : Split.t) :
  (forall r, In r (documents db) -> dr_split_id r = Split.ID s ->
     In (dr_id r) (doc_IDs s)) ->
  (forall r, In r (pages db) -> pr_split_id r = Split.ID s ->
     In (pr_id r) (page_IDs h (all_pages s))) ->
  documents (reconciled h db s) = documents db
  /\ pages (reconciled h db s) = pages db.
Proof.
  intros Hd Hp. rewrite reconciled_tables. cbn [documents pages].
  assert (Hdel : toDeleteDocIDs s db = []).
  { unfold toDeleteDocIDs. apply filter_none. intros x Hx.
    apply in_map_iff in Hx. destruct Hx as (r & <- & Hr).
    apply filter_In in Hr. destruct Hr as [Hr Es]. apply String.eqb_eq in Es.
    apply negb_false_iff. apply mem_string_In. now apply Hd. }
  rewrite Hdel.
  assert (Hpages : filter (fun r : PageRow =>
                     negb (match pr_document_id r with
                           | Some x => mem_string x []
                           | None => false
                           end)) (pages db) = pages db).
  { apply filter_all. intros r _. now destruct (pr_document_id r). }
  rewrite Hpages.
  assert (Hdelp : toDeletePageIDs h s (pages db) = []).
  { unfold toDeletePageIDs. apply filter_none. intros x Hx.
    apply in_map_iff in Hx. destruct Hx as (r & <- & Hr).
    apply filter_In in Hr. destruct Hr as [Hr Es]. apply String.eqb_eq in Es.
    apply negb_false_iff. apply mem_string_In. now apply Hp. }
  rewrite Hdelp. split; now apply filter_all.
Qed.

Lemma save_split_row_twice (rows : list SplitRow) :
  let merge := fun old new =>
    mkSplitRow (sr_id old) (sr_client_id new) (sr_status new)
      (sr_created_at old) (sr_updated_at new) in
  forall new,
    upsert sr_id merge new (upsert sr_id merge new rows)
    = upsert sr_id merge new rows.
Proof.
  intros merge new. induction rows as [| old rest IH]; cbn.
  - rewrite String.eqb_refl. now destruct new.
  - destruct (String.eqb (sr_id old) (sr_id new)) eqn:E; cbn; rewrite E.
    + reflexivity.
    + now rewrite IH.
Qed.

(** X19: [Save] is idempotent: saving the same aggregate a second time
    leaves every table exactly as the first [Save] left it, whatever the
    store held before. *)
Theorem Save_idempotent (h : Heap) (db : DB) (s : Split.t) :
  Save h (Save h db s) s = Save h db s.
Proof.
  rewrite (Save_upserts h (Save h db s) s).
  destruct (@reconciled_fixed h (Save h db s) s) as [Ed Ep].
  - intros r Hr Es. rewrite Save_upserts in Hr. cbn [documents] in Hr.
    apply upserts_In_cases in Hr. destruct Hr as [Hr | Hr].
    + rewrite <- document_rows_ids. now apply in_map.
    + now apply (reconciled_documents_In h db s r).
  - intros r Hr Es. rewrite Save_upserts in Hr. cbn [pages] in Hr.
    apply upserts_In_cases in Hr. destruct Hr as [Hr | Hr].
    + rewrite <- page_rows_ids. now apply in_map.
    + now apply (reconciled_pages_In h db s r).
  - rewrite Ed, Ep. rewrite (Save_upserts h db s) at 4.
    rewrite Save_upserts. cbn [splits documents pages]. f_equal.
    + unfold save_split_row. cbn [splits]. apply save_split_row_twice.
    + apply upserts_idempotent.
    + apply upserts_idempotent.
Qed.

(** ** Get, row by row *)

Lemma map_seq_nth (A B : Type) (f : nat -> B) (g : A -> B) (rows : list A) :
  forall n,
  (forall k r, nth_error rows k = Some r -> f (n + k)%nat = g r) ->
  map f (seq n (List.length rows)) = map g rows.
Proof.
  induction rows as [| a rows IH]; intros n H; [reflexivity |]. cbn. f_equal.
  - rewrite <- (H 0%nat a eq_refl). f_equal. lia.
  - apply IH. intros k r Hk. rewrite <- (H (S k) r Hk). f_equal. lia.
Qed.

Section GetExact.
Context {L : GoLib}.

Lemma scanPages_exact (rows : list PageRow) (st st' : Store) (ps : list addr) :
scanPages st [] rows = (st', ps) ->
ps = seq (next st) (List.length rows)
/\ next st' = (next st + List.length rows)%nat
/\ map (cells st') ps = map page_of_row rows
/\ (forall b, (b < next st)%nat -> cells st' b = cells st b).
Proof.
intros H. apply scanPages_spec in H. cbn [app] in H.
destruct H as (-> & Hn & Hc & Hold).
repeat split; try assumption. now apply map_seq_nth.
Qed.

Lemma scanDocuments_exact (db : DB) (rows : list DocumentRow) :
forall (st : Store) (acc : list Document.t) (st' : Store)
       (docs : list Document.t),
scanDocuments st db acc rows = (st', docs) ->
exists new,
  docs = acc ++ new
  /\ Forall2 (DocLoaded db (cells st')) rows new
  /\ docs_pages new = seq (next st) (next st' - next st)
  /\ (next st <= next st')%nat
  /\ (forall b, (b < next st)%nat -> cells st' b = cells st b).
Proof.
induction rows as [| r rest IH]; intros st acc st' docs H.
- cbn in H. injection H as <- <-. exists []. rewrite app_nil_r, Nat.sub_diag.
  repeat split; try constructor.
- cbn [scanDocuments] in H.
  destruct (getPages st db (dr_id r)) as [st1 ps] eqn:Ep.
  unfold getPages in Ep. apply scanPages_exact in Ep.
  destruct Ep as (Hps & Hn1 & Hmap & Hc1).
  apply IH in H. destruct H as (new & -> & Hnew & Hpages & Hle & Hc).
  eexists (_ :: new). split; [now rewrite <- app_assoc |].
  split; [| split; [| split; [lia |]]].
  + constructor; [| exact Hnew]. split; [reflexivity |].
    cbn [Document.Pages]. rewrite <- Hmap. apply map_ext_in.
    intros a Ha. apply Hc. rewrite Hps in Ha. apply in_seq in Ha. lia.
  + rewrite docs_pages_cons. cbn [Document.Pages]. rewrite Hpages, Hps.
    rewrite Hn1. rewrite <- seq_app. f_equal. lia.
  + intros b Hb. rewrite Hc by lia. now apply Hc1.
Qed.

(** What [Get] returns, read off the three tables. *)
Lemma Get_exact (st : Store) (db : DB) (id : string) (st' : Store)
(s : Split.t) :
Get st db id = (st', Some s) ->
exists r rest,
  filter (fun r => String.eqb (sr_id r) id) (splits db) = r :: rest
  /\ Split.ID s = id
  /\ Split.ClientID s = sr_client_id r
  /\ Split.Status s = sr_status r
  /\ Split.CreatedAt s = sr_created_at r
  /\ Split.UpdatedAt s = sr_updated_at r
  /\ Split.FinalizedAt s = None
  /\ Forall2 (DocLoaded db (cells st'))
       (sql_OrderBy dr_start_page
          (filter (fun r => String.eqb (dr_split_id r) id) (documents db)))
       (Split.Documents s)
  /\ map (cells st') (Split.UnassignedPages s)
     = map page_of_row
         (sql_OrderBy page_number_text
            (filter (fun r => String.eqb (pr_split_id r) id
                              && is_null (pr_document_id r)) (pages db)))
  /\ all_pages s = seq (next st) (next st' - next st)
  /\ (next st <= next st')%nat
  /\ (forall b, (b < next st)%nat -> cells st' b = cells st b).
Proof.
unfold Get. intros H.
destruct (filter (fun r => String.eqb (sr_id r) id) (splits db))
  as [| r rest] eqn:Er; [discriminate |].
destruct (getDocuments st db id) as [st1 docs] eqn:Ed.
destruct (getUnassignedPages st1 db id) as [st2 ups] eqn:Eu.
injection H as <- <-.
unfold getDocuments in Ed. apply scanDocuments_exact in Ed. cbn [app] in Ed.
destruct Ed as (new & -> & Hdocs & Hpages & Hle & Hc1).
unfold getUnassignedPages in Eu. apply scanPages_exact in Eu.
destruct Eu as (Hups & Hn2 & Hmap & Hc2).
exists r, rest. cbn.
assert (Hr : In r (filter (fun r => String.eqb (sr_id r) id) (splits db)))
  by (rewrite Er; now left).
apply filter_In in Hr. destruct Hr as [_ Hr]. apply String.eqb_eq in Hr.
split; [reflexivity |]. split; [exact Hr |].
repeat (split; [reflexivity |]).
split.
{ eapply Forall2_impl_In; [exact Hdocs |].
  intros row d Hd [H1 H2]. split; [exact H1 |]. rewrite <- H2.
  apply map_ext_in. intros a Ha. apply Hc2.
  assert (Hin : In a (docs_pages new)).
  { unfold docs_pages. apply in_concat. exists (Document.Pages d).
    split; [now apply in_map | exact Ha]. }
  rewrite Hpages in Hin. apply in_seq in Hin. lia. }
split; [exact Hmap |].
split.
{ unfold all_pages. cbn. fold (docs_pages new). rewrite Hpages, Hups, Hn2.
  replace (next st1) with (next st + (next st1 - next st))%nat at 2 by lia.
  rewrite <- seq_app. f_equal. lia. }
split; [lia |].
intros b Hb. rewrite Hc2 by lia. now apply Hc1.
Qed.

End GetExact.

Lemma NoDup_map_incl (R : Type) (key : R -> string) (P L : list R) :
  NoDup (map key P) -> NoDup L -> incl L P -> NoDup (map key L).
Proof.
  intros HP. induction L as [| a L IH]; intros HL Hincl; cbn; [constructor |].
  inversion HL as [| ? ? Ha HL']; subst. constructor.
  - intros Hin. apply in_map_iff in Hin. destruct Hin as (b & E & Hb).
    assert (b = a).
    { apply (@NoDup_key_unique _ key P); [exact HP | | | exact E].
      - apply Hincl. now right.
      - apply Hincl. now left. }
    subst. contradiction.
  - apply IH; [exact HL' |]. intros x Hx. apply Hincl. now right.
Qed.

Section GetWellFormed.
Context {L : GoLib}.
Hypothesis OrderBy_Permutation :
forall (R : Type) (col : R -> string) (l : list R),
  Permutation (sql_OrderBy col l) l.

(** The rows [getPages] reads for a document row. *)
Lemma pages_of_document_In (db : DB) (r : DocumentRow) (x : PageRow) :
In x (sql_OrderBy page_number_text
        (filter (fun p => opt_eqb (pr_document_id p) (dr_id r)) (pages db)))
<-> In x (pages db) /\ pr_document_id x = Some (dr_id r).
Proof.
split.
- intros H. apply (Permutation_in _ (OrderBy_Permutation _ _)) in H.
  apply filter_In in H. destruct H as [H1 H2]. split; [exact H1 |].
  unfold opt_eqb in H2. destruct (pr_document_id x); [| discriminate].
  apply String.eqb_eq in H2. now subst.
- intros [H1 H2].
  apply (Permutation_in _ (Permutation_sym (OrderBy_Permutation _ _))).
  apply filter_In. split; [exact H1 |]. rewrite H2. cbn.
  apply String.eqb_refl.
Qed.

Lemma loaded_rows_NoDup (db : DB) (U : list PageRow) (rows : list DocumentRow) :
NoDup (pages db) ->
NoDup U -> (forall x, In x U -> pr_document_id x = None) ->
NoDup (map dr_id rows) ->
NoDup (List.concat
         (map (fun r =>
                 sql_OrderBy page_number_text
                   (filter (fun p => opt_eqb (pr_document_id p) (dr_id r))
                      (pages db))) rows) ++ U).
Proof.
intros HP HU Hnull. induction rows as [| r rows IH]; intros Hnd; [exact HU |].
cbn in Hnd. inversion Hnd as [| ? ? Hr Hnd']; subst.
cbn [map List.concat]. rewrite <- app_assoc. apply NoDup_app_intro.
- eapply Permutation_NoDup;
    [apply Permutation_sym, OrderBy_Permutation | now apply NoDup_filter].
- now apply IH.
- intros x Hx Hin. apply pages_of_document_In in Hx. destruct Hx as [_ Hx].
  apply in_app_or in Hin. destruct Hin as [Hin | Hin].
  + apply in_concat in Hin. destruct Hin as (l & Hl & Hxl).
    apply in_map_iff in Hl. destruct Hl as (r' & <- & Hr').
    apply pages_of_document_In in Hxl. destruct Hxl as [_ Hxl].
    rewrite Hx in Hxl. injection Hxl as E. apply Hr. rewrite E.
    now apply in_map.
  + rewrite (Hnull x Hin) in Hx. discriminate.
Qed.

Lemma loaded_pages_rows (db : DB) (h : Heap) (rows : list DocumentRow)
(docs : list Document.t) :
Forall2 (DocLoaded db h) rows docs ->
map h (docs_pages docs)
= map page_of_row
    (List.concat
       (map (fun r =>
               sql_OrderBy page_number_text
                 (filter (fun p => opt_eqb (pr_document_id p) (dr_id r))
                    (pages db))) rows)).
Proof.
induction 1 as [| r d rows docs [_ Hd] _ IH]; [reflexivity |].
rewrite docs_pages_cons. cbn [map List.concat]. rewrite !map_app.
now rewrite Hd, IH.
Qed.

Lemma loaded_doc_IDs (db : DB) (h : Heap) (rows : list DocumentRow)
(docs : list Document.t) :
Forall2 (DocLoaded db h) rows docs ->
map Document.ID docs = map dr_id rows
/\ map Document.SplitID docs = map dr_split_id rows.
Proof.
induction 1 as [| r d rows docs [Hd _] _ [IH1 IH2]]; [split; reflexivity |].
cbn. rewrite IH1, IH2.
assert (E1 : Document.ID d = dr_id r)
  by (change (Document.ID d) with (Document.ID (Document.set_Pages d []));
      now rewrite Hd).
assert (E2 : Document.SplitID d = dr_split_id r)
  by (change (Document.SplitID d)
        with (Document.SplitID (Document.set_Pages d []));
      now rewrite Hd).
now rewrite E1, E2.
Qed.

(** X20: when the keys of the [documents] and [pages] tables are unique, the
  aggregate [Get] returns is well formed: its documents have pairwise
  distinct IDs and carry the ID asked for as their split ID, its pages
  are new page objects, each in one place only, none marked as assigned,
  no page ID occurs twice, [FinalizedAt] is nil, and no page object that
  existed before is written. *)
Theorem Get_loads_well_formed (st : Store) (db : DB) (id : string)
(st' : Store) (s : Split.t) :
NoDup (map dr_id (documents db)) ->
NoDup (map pr_id (pages db)) ->
Get st db id = (st', Some s) ->
Split.ID s = id
/\ Split.FinalizedAt s = None
/\ NoDup (doc_IDs s)
/\ (forall d, In d (Split.Documents s) -> Document.SplitID d = id)
/\ NoDup (all_pages s)
/\ (forall p, In p (all_pages s) ->
      (next st <= p < next st')%nat /\ IsAssigned (cells st') p = false)
/\ (forall p, In p (Split.UnassignedPages s) ->
      Page.SplitID (cells st' p) = id)
/\ SingleOwnership (cells st') s
/\ (forall b, (b < next st)%nat -> cells st' b = cells st b).
Proof.
intros Hdk Hpk H. apply Get_exact in H.
destruct H as (r & rest & _ & Hid & _ & _ & _ & _ & Hfin & Hdocs & Hun
               & Hall & Hle & Hold).
set (R2 := sql_OrderBy dr_start_page
             (filter (fun r => String.eqb (dr_split_id r) id) (documents db)))
  in *.
set (U := sql_OrderBy page_number_text
            (filter (fun r => String.eqb (pr_split_id r) id
                              && is_null (pr_document_id r)) (pages db)))
  in *.
assert (HR2 : Permutation R2
                (filter (fun r => String.eqb (dr_split_id r) id)
                   (documents db))) by apply OrderBy_Permutation.
assert (HU : Permutation U
               (filter (fun r => String.eqb (pr_split_id r) id
                                 && is_null (pr_document_id r)) (pages db)))
  by apply OrderBy_Permutation.
destruct (loaded_doc_IDs Hdocs) as [Hids Hsids].
assert (HUin : forall x, In x U ->
          In x (pages db) /\ pr_split_id x = id /\ pr_document_id x = None).
{ intros x Hx. apply (Permutation_in _ HU) in Hx. apply filter_In in Hx.
  destruct Hx as [Hx Hc]. apply andb_true_iff in Hc. destruct Hc as [Hc1 Hc2].
  apply String.eqb_eq in Hc1. split; [exact Hx |]. split; [exact Hc1 |].
  now destruct (pr_document_id x). }
split; [exact Hid |]. split; [exact Hfin |].
split.
{ unfold doc_IDs. rewrite Hids.
  eapply Permutation_NoDup;
    [apply Permutation_map, Permutation_sym, HR2 | now apply NoDup_map_filter]. }
split.
{ intros d Hd. apply (in_map Document.SplitID) in Hd. rewrite Hsids in Hd.
  apply in_map_iff in Hd. destruct Hd as (row & <- & Hrow).
  apply (Permutation_in _ HR2) in Hrow. apply filter_In in Hrow.
  now apply String.eqb_eq. }
split; [rewrite Hall; apply seq_NoDup |].
assert (Hcells : map (cells st') (all_pages s)
                 = map page_of_row
                     (List.concat
                        (map (fun r =>
                           sql_OrderBy page_number_text
                             (filter (fun p =>
                                opt_eqb (pr_document_id p) (dr_id r))
                                (pages db))) R2) ++ U)).
{ unfold all_pages. rewrite !map_app. fold (docs_pages (Split.Documents s)).
  now rewrite (loaded_pages_rows Hdocs), Hun. }
split.
{ intros p Hp. split; [rewrite Hall in Hp; apply in_seq in Hp; lia |].
  apply (in_map (cells st')) in Hp. rewrite Hcells in Hp.
  apply in_map_iff in Hp. destruct Hp as (x & E & _).
  unfold IsAssigned. now rewrite <- E. }
split.
{ intros p Hp. apply (in_map (cells st')) in Hp. rewrite Hun in Hp.
  apply in_map_iff in Hp. destruct Hp as (x & E & Hx).
  rewrite <- E. cbn. now apply HUin. }
split; [| exact Hold].
unfold SingleOwnership, page_IDs.
rewrite <- (map_map (cells st') Page.ID), Hcells, map_map.
change (fun x => Page.ID (page_of_row x)) with pr_id.
apply (@NoDup_map_incl _ pr_id (pages db)); [exact Hpk | |].
- apply loaded_rows_NoDup.
  + now apply NoDup_map_key in Hpk.
  + eapply Permutation_NoDup; [apply Permutation_sym, HU |].
    apply NoDup_filter. now apply NoDup_map_key in Hpk.
  + intros x Hx. now apply HUin.
  + eapply Permutation_NoDup;
      [apply Permutation_map, Permutation_sym, HR2
      | now apply NoDup_map_filter].
- intros x Hx. apply in_app_or in Hx. destruct Hx as [Hx | Hx].
  + apply in_concat in Hx. destruct Hx as (l & Hl & Hxl).
    apply in_map_iff in Hl. destruct Hl as (row & <- & _).
    now apply pages_of_document_In in Hxl.
  + now apply HUin.
Qed.

End GetWellFormed.

(** ** Save, then Get *)

Lemma upserts_keys_NoDup (R : Type) (key : R -> string) (ws : list R) :
  forall rows, NoDup (map key rows) -> NoDup (map key (upserts key ws rows)).
Proof.
  induction ws as [| w ws IH]; intros rows H; [exact H |].
  rewrite upserts_cons. apply IH. apply upsert_NoDup; [| exact H].
  intros old new E. reflexivity.
Qed.

Lemma Forall2_map_l (A B C : Type) (f : A -> B) (P : B -> C -> Prop)
  (l : list A) :
  forall l' : list C,
  Forall2 P (map f l) l' -> Forall2 (fun x y => P (f x) y) l l'.
Proof.
  induction l as [| a l IH]; intros l' H; inversion H; subst; constructor;
    [assumption | now apply IH].
Qed.

Lemma Forall2_impl_In_l (A B : Type) (P Q : A -> B -> Prop) (l1 : list A)
  (l2 : list B) :
  Forall2 P l1 l2 ->
  (forall x y, In x l1 -> P x y -> Q x y) ->
  Forall2 Q l1 l2.
Proof.
  induction 1 as [| a b l1 l2 Hab _ IH]; intros Himp; constructor.
  - apply Himp; [now left | assumption].
  - apply IH. intros x0 y0 Hx. apply Himp. now right.
Qed.

(** The row of a split after the first statement of [Save]. *)
Lemma save_split_row_first (s : Split.t) (db : DB) :
  exists rest,
    filter (fun r => String.eqb (sr_id r) (Split.ID s))
      (splits (save_split_row s db))
    = mkSplitRow (Split.ID s) (Split.ClientID s) (Split.Status s)
        (match filter (fun r => String.eqb (sr_id r) (Split.ID s)) (splits db)
         with
         | [] => Split.CreatedAt s
         | old :: _ => sr_created_at old
         end)
        (Split.UpdatedAt s) :: rest.
Proof.
  unfold save_split_row. cbn [splits].
  induction (splits db) as [| old rows IH]; cbn.
  - rewrite String.eqb_refl. eexists. reflexivity.
  - destruct (String.eqb_spec (sr_id old) (Split.ID s)) as [E | E]; cbn.
    + rewrite E, String.eqb_refl. cbn. eexists. reflexivity.
    + apply String.eqb_neq in E. rewrite E. exact IH.
Qed.

Lemma NoDup_pages_of_document (h : Heap) (s : Split.t) (d : Document.t) :
  SingleOwnership h s -> In d (Split.Documents s) ->
  NoDup (page_IDs h (Document.Pages d)).
Proof.
  unfold SingleOwnership, page_IDs. intros H Hd.
  apply in_split in Hd. destruct Hd as (l1 & l2 & E).
  assert (E2 : all_pages s
               = List.concat (map Document.Pages l1)
                 ++ Document.Pages d
                 ++ (List.concat (map Document.Pages l2)
                     ++ Split.UnassignedPages s)).
  { unfold all_pages. rewrite E, map_app, concat_app. cbn.
    now rewrite <- !app_assoc. }
  rewrite E2, !map_app in H.
  apply NoDup_app_remove_l, NoDup_app_remove_r in H. exact H.
Qed.

Lemma NoDup_unassigned_pages (h : Heap) (s : Split.t) :
  SingleOwnership h s -> NoDup (page_IDs h (Split.UnassignedPages s)).
Proof.
  unfold SingleOwnership, all_pages, page_IDs. rewrite map_app.
  apply NoDup_app_remove_l.
Qed.

Lemma page_writes_inv (s : Split.t) (o : option string) (p : addr) :
  In (o, p) (page_writes s) ->
  (exists d, In d (Split.Documents s) /\ o = Some (Document.ID d)
             /\ In p (Document.Pages d))
  \/ (o = None /\ In p (Split.UnassignedPages s)).
Proof.
  unfold page_writes. intros H. apply in_app_or in H. destruct H as [H | H].
  - left. apply in_flat_map in H. destruct H as (d & Hd & H).
    apply in_map_iff in H. destruct H as (q & E & Hq). injection E as <- <-.
    exists d. repeat split; assumption.
  - right. apply in_map_iff in H. destruct H as (q & E & Hq).
    injection E as <- <-. split; [reflexivity | exact Hq].
Qed.

Lemma page_writes_In_unassigned (s : Split.t) (p : addr) :
  In p (Split.UnassignedPages s) -> In (None, p) (page_writes s).
Proof.
  intros H. unfold page_writes. apply in_or_app. right. now apply in_map.
Qed.

Section SaveGet.
Context {L : GoLib}.
Hypothesis OrderBy_Permutation :
forall (R : Type) (col : R -> string) (l : list R),
  Permutation (sql_OrderBy col l) l.

Variables (h : Heap) (db : DB) (s : Split.t).
Hypothesis documents_key : NoDup (map dr_id (documents db)).
Hypothesis pages_key : NoDup (map pr_id (pages db)).
Hypothesis doc_IDs_distinct : NoDup (doc_IDs s).
Hypothesis single_ownership : SingleOwnership h s.
Hypothesis documents_of_split :
forall d, In d (Split.Documents s) -> Document.SplitID d = Split.ID s.
Hypothesis pages_of_split :
forall p, In p (all_pages s) -> Page.SplitID (h p) = Split.ID s.
Hypothesis no_foreign_reference :
forall r, In r (pages db) -> pr_split_id r <> Split.ID s ->
forall d, In d (Split.Documents s) ->
  pr_document_id r <> Some (Document.ID d).

Lemma saved_documents :
Permutation
  (filter (fun r => String.eqb (dr_split_id r) (Split.ID s))
     (documents (Save h db s)))
  (map document_row (Split.Documents s)).
Proof.
assert (HW : NoDup (map dr_id (map document_row (Split.Documents s))))
  by now rewrite document_rows_ids.
assert (HT : NoDup (map dr_id (documents (reconciled h db s)))).
{ rewrite reconciled_tables. cbn [documents]. now apply NoDup_map_filter. }
rewrite Save_upserts. cbn [documents].
apply NoDup_Permutation.
- apply NoDup_filter. eapply NoDup_map_key. apply upserts_keys_NoDup, HT.
- now apply NoDup_map_key in HW.
- intros x. split.
  + intros Hx. apply filter_In in Hx. destruct Hx as [Hx Es].
    apply String.eqb_eq in Es.
    apply upserts_In_unique in Hx; [| exact HT].
    destruct Hx as [Hx | [Hx Hk]]; [exact Hx |].
    exfalso. apply Hk. rewrite document_rows_ids.
    now apply (reconciled_documents_In h db s x).
  + intros Hx. apply filter_In. split.
    * now apply upserts_In_written.
    * apply in_map_iff in Hx. destruct Hx as (d & <- & Hd). cbn.
      apply String.eqb_eq. now apply documents_of_split.
Qed.

Lemma saved_pages_keys : NoDup (map pr_id (pages (reconciled h db s))).
Proof. now apply reconciled_pages_NoDup. Qed.

Lemma saved_page_In (x : PageRow) :
In x (pages (Save h db s)) ->
(exists o p, In (o, p) (page_writes s) /\ x = page_row h o p)
\/ (In x (pages db) /\ pr_split_id x <> Split.ID s).
Proof.
rewrite Save_upserts. cbn [pages]. intros Hx.
apply upserts_In_unique in Hx; [| exact saved_pages_keys].
destruct Hx as [Hx | [Hx Hk]].
- left. unfold page_rows in Hx. apply in_map_iff in Hx.
  destruct Hx as ([o p] & <- & Hw). now exists o, p.
- right. apply reconciled_pages_In in Hx. destruct Hx as (Hin & Hs & _).
  split; [exact Hin |]. intros Es. apply Hk. rewrite page_rows_ids.
  now apply Hs.
Qed.

Lemma saved_page_written (o : option string) (p : addr) :
In (o, p) (page_writes s) -> In (page_row h o p) (pages (Save h db s)).
Proof.
intros Hw. rewrite Save_upserts. cbn [pages]. apply upserts_In_written.
- rewrite page_rows_ids. exact single_ownership.
- unfold page_rows. apply in_map_iff. now exists (o, p).
Qed.

Lemma saved_pages_of_document (d : Document.t) :
In d (Split.Documents s) ->
Permutation
  (filter (fun r => opt_eqb (pr_document_id r) (Document.ID d))
     (pages (Save h db s)))
  (map (page_row h (Some (Document.ID d))) (Document.Pages d)).
Proof.
intros Hd. apply NoDup_Permutation.
- apply NoDup_filter. eapply NoDup_map_key, Save_pages_NoDup, pages_key.
- apply (@NoDup_map_key _ pr_id). rewrite map_map.
  now apply NoDup_pages_of_document with (s := s).
- intros x. split.
  + intros Hx. apply filter_In in Hx. destruct Hx as [Hx Ed].
    unfold opt_eqb in Ed.
    destruct (pr_document_id x) as [y |] eqn:Ey; [| discriminate].
    apply String.eqb_eq in Ed. subst y.
    apply saved_page_In in Hx.
    destruct Hx as [(o & p & Hw & ->) | [Hin Hs]].
    * cbn in Ey. subst o. apply page_writes_inv in Hw.
      destruct Hw as [(d' & Hd' & E & Hp) | [E _]]; [| discriminate].
      injection E as E.
      assert (d' = d).
      { apply (@NoDup_key_unique _ Document.ID (Split.Documents s));
          [exact doc_IDs_distinct | exact Hd' | exact Hd | now symmetry]. }
      subst d'. now apply in_map.
    * exfalso. exact (no_foreign_reference x Hin Hs d Hd Ey).
  + intros Hx. apply in_map_iff in Hx. destruct Hx as (p & <- & Hp).
    apply filter_In. split.
    * apply saved_page_written. now apply page_writes_In_document.
    * cbn. apply String.eqb_refl.
Qed.

Lemma saved_unassigned_pages :
Permutation
  (filter (fun r => String.eqb (pr_split_id r) (Split.ID s)
                    && is_null (pr_document_id r))
     (pages (Save h db s)))
  (map (page_row h None) (Split.UnassignedPages s)).
Proof.
apply NoDup_Permutation.
- apply NoDup_filter. eapply NoDup_map_key, Save_pages_NoDup, pages_key.
- apply (@NoDup_map_key _ pr_id). rewrite map_map.
  now apply NoDup_unassigned_pages.
- intros x. split.
  + intros Hx. apply filter_In in Hx. destruct Hx as [Hx Ec].
    apply andb_true_iff in Ec. destruct Ec as [Es En].
    apply String.eqb_eq in Es.
    apply saved_page_In in Hx.
    destruct Hx as [(o & p & Hw & ->) | [_ Hs]]; [| contradiction].
    apply page_writes_inv in Hw.
    destruct Hw as [(d' & _ & -> & _) | [-> Hp]]; [discriminate |].
    now apply in_map.
  + intros Hx. apply in_map_iff in Hx. destruct Hx as (p & <- & Hp).
    apply filter_In. split.
    * apply saved_page_written. now apply page_writes_In_unassigned.
    * cbn. rewrite pages_of_split, String.eqb_refl; [reflexivity |].
      unfold all_pages. apply in_or_app. now right.
Qed.

(** X21: [Get] after [Save] gives the aggregate back, up to order and to
  what the tables do not hold.  For a store with unique keys, a split
  with one document per document ID and no page ID in two places, whose
  documents and pages carry its ID, and no page row of another split
  that points to one of its documents: [Get] finds the split, with the
  same ID, client ID, status and [UpdatedAt]; [CreatedAt] is that of the
  row the store already had for this ID, if any; [FinalizedAt] is nil;
  the documents are the saved ones in some order, each with the same
  strings and bounds and the same pages in some order, and so is the
  unassigned pool; of a page everything but [DocumentID] comes back. *)
Theorem Save_Get_round_trip (st : Store) :
exists st' s',
  Get st (Save h db s) (Split.ID s) = (st', Some s')
  /\ Split.ID s' = Split.ID s
  /\ Split.ClientID s' = Split.ClientID s
  /\ Split.Status s' = Split.Status s
  /\ Split.UpdatedAt s' = Split.UpdatedAt s
  /\ Split.CreatedAt s'
     = match filter (fun r => String.eqb (sr_id r) (Split.ID s)) (splits db)
       with
       | [] => Split.CreatedAt s
       | old :: _ => sr_created_at old
       end
  /\ Split.FinalizedAt s' = None
  /\ (exists ds,
        Permutation ds (Split.Documents s)
        /\ Forall2 (SameDocument h (cells st')) ds (Split.Documents s'))
  /\ Permutation (map (cells st') (Split.UnassignedPages s'))
       (map (fun p => stored_page (h p)) (Split.UnassignedPages s)).
Proof.
destruct (save_split_row_first s db) as [rest0 Hrow].
assert (Hsplits : splits (Save h db s) = splits (save_split_row s db))
  by now rewrite Save_upserts.
destruct (Get st (Save h db s) (Split.ID s)) as [st' [s' |]] eqn:EG.
2:{ exfalso. unfold Get in EG. rewrite Hsplits, Hrow in EG.
    destruct (getDocuments _ _ _) as [st1 ds].
    destruct (getUnassignedPages _ _ _) as [st2 us]. discriminate. }
exists st', s'. split; [reflexivity |].
apply Get_exact in EG.
destruct EG as (r & rest & Hr & Hid & Hcl & Hst & Hcr & Hup & Hfin & Hdocs
                & Hun & _).
rewrite Hsplits, Hrow in Hr. injection Hr as <- <-.
cbn in Hcl, Hst, Hcr, Hup.
repeat (split; [assumption |]).
split.
- pose proof (Permutation_trans (OrderBy_Permutation dr_start_page _)
                saved_documents) as Hperm.
  apply Permutation_map_inv in Hperm. destruct Hperm as (ds & Eds & Hds).
  exists ds. split; [now apply Permutation_sym |].
  rewrite Eds in Hdocs. apply Forall2_map_l in Hdocs.
  eapply Forall2_impl_In_l; [exact Hdocs |].
  intros d d' Hd [H1 H2]. split.
  + rewrite H1. now destruct d.
  + rewrite H2.
    assert (Hd' : In d (Split.Documents s))
      by (eapply Permutation_in; [apply Permutation_sym; exact Hds | exact Hd]).
    etransitivity;
      [apply Permutation_map;
       exact (Permutation_trans (OrderBy_Permutation page_number_text _)
                (@saved_pages_of_document d Hd')) |].
    rewrite map_map. reflexivity.
- rewrite Hun.
  etransitivity;
    [apply Permutation_map;
     exact (Permutation_trans (OrderBy_Permutation page_number_text _)
              saved_unassigned_pages) |].
  rewrite map_map. reflexivity.
Qed.

End SaveGet.

(** ** What a query sees is all that Get depends on *)

Section GetCongruence.
Context {L : GoLib}.
Hypothesis OrderBy_Permutation :
forall (R : Type) (col : R -> string) (l : list R),
  Permutation (sql_OrderBy col l) l.

Lemma scanDocuments_congr (db db' : DB) (rows : list DocumentRow) :
forall (st : Store) (acc : list Document.t),
(forall r, In r rows ->
   filter (fun p => opt_eqb (pr_document_id p) (dr_id r)) (pages db)
   = filter (fun p => opt_eqb (pr_document_id p) (dr_id r)) (pages db')) ->
scanDocuments st db acc rows = scanDocuments st db' acc rows.
Proof.
induction rows as [| r rows IH]; intros st acc H; [reflexivity |].
cbn [scanDocuments]. unfold getPages.
rewrite (H r (or_introl eq_refl)).
destruct (scanPages st [] _) as [st1 ps].
apply IH. intros r' Hr'. apply H. now right.
Qed.

(** [Get] gives the same result on two stores in which its four queries
  select the same rows. *)
Lemma Get_congr (st : Store) (db db' : DB) (id : string) :
filter (fun r => String.eqb (sr_id r) id) (splits db)
= filter (fun r => String.eqb (sr_id r) id) (splits db') ->
filter (fun r => String.eqb (dr_split_id r) id) (documents db)
= filter (fun r => String.eqb (dr_split_id r) id) (documents db') ->
(forall r, In r (documents db) -> dr_split_id r = id ->
   filter (fun p => opt_eqb (pr_document_id p) (dr_id r)) (pages db)
   = filter (fun p => opt_eqb (pr_document_id p) (dr_id r)) (pages db')) ->
filter (fun r => String.eqb (pr_split_id r) id && is_null (pr_document_id r))
  (pages db)
= filter (fun r => String.eqb (pr_split_id r) id && is_null (pr_document_id r))
    (pages db') ->
Get st db id = Get st db' id.
Proof.
intros H1 H2 H3 H4. unfold Get, getDocuments, getUnassignedPages.
rewrite <- H1, <- H2, <- H4.
destruct (filter (fun r => String.eqb (sr_id r) id) (splits db));
  [reflexivity |].
rewrite (@scanDocuments_congr db db').
- reflexivity.
- intros r Hr. apply (Permutation_in _ (OrderBy_Permutation _ _)) in Hr.
  apply filter_In in Hr. destruct Hr as [Hr Es]. apply String.eqb_eq in Es.
  now apply H3.
Qed.

(** X22: [Delete] removes the split: afterwards [Get] finds nothing for its
  ID, no row of the three tables carries it, and a second [Delete] changes
  nothing.  When the page rows of the split point only to document rows
  of the split, what [Get] returns for any other ID is unchanged. *)
Theorem Delete_spec (st : Store) (db : DB) (id : string) :
(forall p, In p (pages db) -> pr_split_id p = id ->
 forall r, In r (documents db) -> pr_document_id p = Some (dr_id r) ->
   dr_split_id r = id) ->
Get st (Delete db id) id = (st, None)
/\ (forall r, In r (splits (Delete db id)) -> sr_id r <> id)
/\ (forall r, In r (documents (Delete db id)) -> dr_split_id r <> id)
/\ (forall r, In r (pages (Delete db id)) -> pr_split_id r <> id)
/\ Delete (Delete db id) id = Delete db id
/\ forall id', id' <> id -> Get st (Delete db id) id' = Get st db id'.
Proof.
intros Href.
assert (Hs : forall r, In r (splits (Delete db id)) -> sr_id r <> id).
{ intros r Hr. apply filter_In in Hr. destruct Hr as [_ Hr].
  apply negb_true_iff in Hr. now apply String.eqb_neq. }
assert (Hd : forall r, In r (documents (Delete db id)) -> dr_split_id r <> id).
{ intros r Hr. apply filter_In in Hr. destruct Hr as [_ Hr].
  apply negb_true_iff in Hr. now apply String.eqb_neq. }
assert (Hp : forall r, In r (pages (Delete db id)) -> pr_split_id r <> id).
{ intros r Hr. apply filter_In in Hr. destruct Hr as [_ Hr].
  apply negb_true_iff in Hr. now apply String.eqb_neq. }
split; [| split; [exact Hs | split; [exact Hd | split; [exact Hp | split]]]].
- unfold Get. rewrite filter_none; [reflexivity |].
  intros r Hr. apply String.eqb_neq. now apply Hs.
- transitivity (mkDB (splits (Delete db id)) (documents (Delete db id))
                  (pages (Delete db id)));
    [| now destruct (Delete db id)].
  unfold Delete at 1. unfold delete_where. f_equal; apply filter_all.
  + intros r Hr. apply negb_true_iff, String.eqb_neq. now apply Hs.
  + intros r Hr. apply negb_true_iff, String.eqb_neq. now apply Hd.
  + intros r Hr. apply negb_true_iff, String.eqb_neq. now apply Hp.
- intros id' Hne. apply Get_congr; unfold Delete, delete_where;
    cbn [splits documents pages].
  + rewrite filter_filter. apply filter_ext. intros r.
    destruct (String.eqb_spec (sr_id r) id') as [E | E];
      [| now rewrite andb_false_r].
    rewrite andb_true_r. apply negb_true_iff, String.eqb_neq. congruence.
  + rewrite filter_filter. apply filter_ext. intros r.
    destruct (String.eqb_spec (dr_split_id r) id') as [E | E];
      [| now rewrite andb_false_r].
    rewrite andb_true_r. apply negb_true_iff, String.eqb_neq. congruence.
  + intros r Hr Es. apply filter_In in Hr. destruct Hr as [Hr _].
    rewrite filter_filter. apply filter_ext_in. intros p Hp'.
    destruct (opt_eqb (pr_document_id p) (dr_id r)) eqn:Eo;
      [| now rewrite andb_false_r].
    rewrite andb_true_r. apply negb_true_iff, String.eqb_neq.
    intros Ep. unfold opt_eqb in Eo.
    destruct (pr_document_id p) as [x |] eqn:Ex; [| discriminate].
    apply String.eqb_eq in Eo. subst x.
    pose proof (Href p Hp' Ep r Hr Ex). congruence.
  + rewrite filter_filter. apply filter_ext. intros r.
    destruct (String.eqb_spec (pr_split_id r) id') as [E | E];
      [| now rewrite andb_false_r].
    cbn. destruct (is_null (pr_document_id r)); [| now rewrite andb_false_r].
    rewrite andb_true_r. apply negb_true_iff, String.eqb_neq. congruence.
Qed.

End GetCongruence.

(** ** Save and the rows of other splits *)

Lemma filter_split_row_other (s : Split.t) (db : DB) (id' : string) :
  id' <> Split.ID s ->
  filter (fun r => String.eqb (sr_id r) id') (splits (save_split_row s db))
  = filter (fun r => String.eqb (sr_id r) id') (splits db).
Proof.
  intros Hne. unfold save_split_row. cbn [splits].
  induction (splits db) as [| old rows IH]; cbn.
  - destruct (String.eqb_spec (Split.ID s) id'); [congruence | reflexivity].
  - destruct (String.eqb_spec (sr_id old) (Split.ID s)) as [E | E]; cbn.
    + destruct (String.eqb_spec (sr_id old) id'); [congruence | reflexivity].
    + now rewrite IH.
Qed.

Section OtherSplits.
Context {L : GoLib}.
Hypothesis OrderBy_Permutation :
forall (R : Type) (col : R -> string) (l : list R),
  Permutation (sql_OrderBy col l) l.

Variables (h : Heap) (db : DB) (s : Split.t).
Hypothesis documents_key : NoDup (map dr_id (documents db)).
Hypothesis pages_key : NoDup (map pr_id (pages db)).
Hypothesis documents_of_split :
forall d, In d (Split.Documents s) -> Document.SplitID d = Split.ID s.
Hypothesis pages_of_split :
forall p, In p (all_pages s) -> Page.SplitID (h p) = Split.ID s.
Hypothesis document_IDs_own :
forall r, In r (documents db) -> In (dr_id r) (doc_IDs s) ->
dr_split_id r = Split.ID s.
Hypothesis page_IDs_own :
forall p, In p (pages db) -> In (pr_id p) (page_IDs h (all_pages s)) ->
pr_split_id p = Split.ID s.
Hypothesis references_own :
forall p, In p (pages db) -> pr_split_id p = Split.ID s ->
forall r, In r (documents db) -> pr_document_id p = Some (dr_id r) ->
dr_split_id r = Split.ID s.

Lemma kept_document (r : DocumentRow) :
In r (documents db) -> dr_split_id r <> Split.ID s ->
~ In (dr_id r) (toDeleteDocIDs s db).
Proof.
intros Hr Hs Hin. unfold toDeleteDocIDs in Hin.
apply filter_In in Hin. destruct Hin as [Hin _].
apply in_map_iff in Hin. destruct Hin as (r' & E & Hr').
apply filter_In in Hr'. destruct Hr' as [Hr' Es]. apply String.eqb_eq in Es.
assert (r' = r)
  by (apply (@NoDup_key_unique _ dr_id (documents db)); assumption).
congruence.
Qed.

Lemma kept_page (rows : list PageRow) (p : PageRow) :
incl rows (pages db) ->
In p (pages db) -> pr_split_id p <> Split.ID s ->
~ In (pr_id p) (toDeletePageIDs h s rows).
Proof.
intros Hincl Hp Hs Hin. unfold toDeletePageIDs in Hin.
apply filter_In in Hin. destruct Hin as [Hin _].
apply in_map_iff in Hin. destruct Hin as (p' & E & Hp').
apply filter_In in Hp'. destruct Hp' as [Hp' Es]. apply String.eqb_eq in Es.
assert (p' = p).
{ apply (@NoDup_key_unique _ pr_id (pages db));
    [assumption | now apply Hincl | assumption | assumption]. }
congruence.
Qed.

(** The rows a predicate selects among the pages are not touched by the
  reconciliation when none of them is of this split and none points to a
  document row of this split. *)
Lemma reconciled_pages_filter (g : PageRow -> bool) :
(forall p, In p (pages db) -> g p = true ->
   pr_split_id p <> Split.ID s
   /\ forall x, pr_document_id p = Some x -> ~ In x (toDeleteDocIDs s db)) ->
filter g (pages (reconciled h db s)) = filter g (pages db).
Proof.
intros Hg. rewrite reconciled_tables. cbn [pages].
rewrite !filter_filter. apply filter_ext_in. intros p Hp.
destruct (g p) eqn:Eg; [| now rewrite !andb_false_r].
rewrite andb_true_r. destruct (Hg p Hp Eg) as [Hs Hx].
apply andb_true_iff. split.
- apply negb_true_iff. destruct (pr_document_id p) as [x |]; [| reflexivity].
  apply mem_string_not_In. now apply Hx.
- apply negb_true_iff, mem_string_not_In.
  apply kept_page; [| exact Hp | exact Hs].
  intros q Hq. apply filter_In in Hq. tauto.
Qed.

Lemma saved_pages_filter (g : PageRow -> bool) :
(forall p, In p (pages db) -> g p = true ->
   pr_split_id p <> Split.ID s
   /\ forall x, pr_document_id p = Some x -> ~ In x (toDeleteDocIDs s db)) ->
(forall o p, In (o, p) (page_writes s) -> g (page_row h o p) = false) ->
filter g (pages (Save h db s)) = filter g (pages db).
Proof.
intros Hg Hw. rewrite Save_upserts. cbn [pages].
rewrite filter_upserts_other.
- now apply reconciled_pages_filter.
- intros w Hin. unfold page_rows in Hin. apply in_map_iff in Hin.
  destruct Hin as ([o p] & <- & Hin). now apply Hw.
- intros old Hin Hk. apply reconciled_pages_In in Hin.
  destruct Hin as (Hin & _ & _). rewrite page_rows_ids in Hk.
  destruct (g old) eqn:Eg; [| reflexivity].
  destruct (Hg old Hin Eg) as [Hs _]. exfalso. apply Hs.
  now apply page_IDs_own.
Qed.

(** X23: [Save] is local to its aggregate.  For a store with unique keys in
  which no row of another split has the ID of a document or page of this
  aggregate and the page rows of this split point only to document rows
  of this split, and an aggregate whose documents and pages carry its
  ID: what [Get] returns for any other split ID is the same before and
  after [Save]. *)
Theorem Save_keeps_other_splits (st : Store) (id' : string) :
id' <> Split.ID s ->
Get st (Save h db s) id' = Get st db id'.
Proof.
intros Hne. apply Get_congr; [exact OrderBy_Permutation | | | |].
- rewrite Save_upserts. cbn [splits]. now apply filter_split_row_other.
- rewrite Save_upserts. cbn [documents].
  rewrite filter_upserts_other.
  + rewrite reconciled_tables. cbn [documents].
    rewrite filter_filter. apply filter_ext_in. intros r Hr.
    destruct (String.eqb_spec (dr_split_id r) id') as [E | E];
      [| now rewrite andb_false_r].
    rewrite andb_true_r. apply negb_true_iff, mem_string_not_In.
    apply kept_document; [exact Hr | congruence].
  + intros w Hw. apply in_map_iff in Hw. destruct Hw as (d & <- & Hd).
    cbn. apply String.eqb_neq. rewrite (documents_of_split d Hd). congruence.
  + intros old Hin Hk. apply reconciled_documents_In in Hin.
    destruct Hin as [Hin _]. rewrite document_rows_ids in Hk.
    apply String.eqb_neq. rewrite (document_IDs_own old Hin Hk). congruence.
- intros r Hr Es. symmetry.
  assert (Hr0 : In r (documents db)).
  { rewrite Save_upserts in Hr. cbn [documents] in Hr.
    apply upserts_In_cases in Hr. destruct Hr as [Hr | Hr].
    - exfalso. apply in_map_iff in Hr. destruct Hr as (d & <- & Hd).
      cbn in Es. rewrite (documents_of_split d Hd) in Es. congruence.
    - now apply (reconciled_documents_In h db s r). }
  assert (Hrs : dr_split_id r <> Split.ID s) by congruence.
  symmetry. apply saved_pages_filter.
  + intros p Hp Eg. unfold opt_eqb in Eg.
    destruct (pr_document_id p) as [x |] eqn:Ex; [| discriminate].
    apply String.eqb_eq in Eg. subst x. split.
    * intros Eps. apply Hrs. exact (references_own p Hp Eps r Hr0 Ex).
    * intros x [= <-]. now apply kept_document.
  + intros o p Hw. cbn. apply page_writes_inv in Hw.
    destruct Hw as [(d & Hd & -> & _) | [-> _]]; [| reflexivity].
    cbn. apply String.eqb_neq. intros E. apply Hrs.
    apply document_IDs_own; [exact Hr0 |]. rewrite <- E.
    unfold doc_IDs. now apply in_map.
- apply saved_pages_filter.
  + intros p Hp Eg. apply andb_true_iff in Eg. destruct Eg as [E1 E2].
    apply String.eqb_eq in E1. split; [congruence |].
    intros x Ex. rewrite Ex in E2. discriminate.
  + intros o p Hw. cbn.
    assert (Hp : In p (all_pages s)).
    { rewrite <- page_writes_pages. apply in_map_iff. now exists (o, p). }
    rewrite (pages_of_split p Hp).
    destruct (String.eqb_spec (Split.ID s) id'); [congruence | reflexivity].
Qed.

End OtherSplits.

(** ** GetSplitIDByDocumentID *)

(** After [Save], no row is left of a document ID that the aggregate does
    not have and that the store only had on rows of this split. *)
Lemma Save_drops_document_rows (h : Heap) (db : DB) (s : Split.t)
  (docID : string) :
  ~ In docID (doc_IDs s) ->
  (forall r, In r (documents db) -> dr_id r = docID ->
     dr_split_id r = Split.ID s) ->
  forall r, In r (documents (Save h db s)) -> dr_id r <> docID.
Proof.
  intros Hnot Hown r Hr E.
  rewrite Save_upserts in Hr. cbn [documents] in Hr.
  apply upserts_In_cases in Hr. destruct Hr as [Hr | Hr].
  - apply Hnot. rewrite <- E, <- document_rows_ids. now apply in_map.
  - apply reconciled_documents_In in Hr. destruct Hr as [Hin Hs].
    apply Hnot. rewrite <- E. apply Hs. now apply Hown.
Qed.

Lemma GetSplitIDByDocumentID_missing (db : DB) (docID : string) :
  (forall r, In r (documents db) -> dr_id r <> docID) ->
  GetSplitIDByDocumentID db docID
  = Err (Errorf ("document " ++ docID ++ " not found") None).
Proof.
  intros H. unfold GetSplitIDByDocumentID. rewrite filter_none; [reflexivity |].
  intros r Hr. apply String.eqb_neq. now apply H.
Qed.

(** X24: after [Save] of an aggregate with one document per document ID,
    [GetSplitIDByDocumentID] answers the [SplitID] of each of its
    documents.  For an ID that no document of the aggregate has and that
    the store only had on rows of this split, it answers an error made by
    [fmt.Errorf] without wrapping: no [DomainError] is on its chain and
    [errors.Is(err, ErrNotFound)] is false. *)
Theorem GetSplitIDByDocumentID_after_Save (h : Heap) (db : DB) (s : Split.t) :
  NoDup (doc_IDs s) ->
  (forall d, In d (Split.Documents s) ->
     GetSplitIDByDocumentID (Save h db s) (Document.ID d)
     = Ok (Document.SplitID d))
  /\ (forall docID,
        ~ In docID (doc_IDs s) ->
        (forall r, In r (documents db) -> dr_id r = docID ->
           dr_split_id r = Split.ID s) ->
        exists e,
          GetSplitIDByDocumentID (Save h db s) docID = Err e
          /\ KindOf e = None
          /\ errors_Is e ErrNotFound = false).
Proof.
  intros Hnd. split.
  - intros d Hd. unfold GetSplitIDByDocumentID.
    rewrite Save_upserts. cbn [documents].
    destruct (@filter_key_upserts _ dr_id (map document_row (Split.Documents s))
                (documents (reconciled h db s)) (document_row d)) as [rest E].
    + now rewrite document_rows_ids.
    + now apply in_map.
    + cbn [dr_id document_row] in E. rewrite E. reflexivity.
  - intros docID Hnot Hown.
    rewrite GetSplitIDByDocumentID_missing.
    + eexists. split; [reflexivity |]. split; reflexivity.
    + now apply Save_drops_document_rows.
Qed.

(* ================================================================== *)
(** * Properties of the service layer                                  *)
(* ================================================================== *)

(** [errors.Is(err, ErrNotFound)] looks through a [DomainError] at its
    cause, and fails on an error that wraps another. *)
Lemma errors_Is_DomainError (k m : string) (c : option error) :
  errors_Is (DomainError k m c) ErrNotFound
  = match c with Some c' => errors_Is c' ErrNotFound | None => false end.
Proof. reflexivity. Qed.

Ltac through_cause :=
  match goal with
  | |- errors_Is (_ _ (Some ?c)) ErrNotFound = false =>
      change (errors_Is c ErrNotFound = false)
  end.

Lemma errors_Is_wrapped (text : string) (w : error) :
  errors_Is (Errorf text (Some w)) ErrNotFound = errors_Is w ErrNotFound.
Proof. cbn. now rewrite andb_false_r. Qed.

Lemma Page_Valid_not_ErrNotFound (p : Page.t) (e : error) :
  Page.Valid p = Some e -> errors_Is e ErrNotFound = false.
Proof.
  unfold Page.Valid.
  repeat match goal with
         | |- context [if ?b then _ else _] =>
             destruct b; [intros [= <-]; reflexivity |]
         end.
  discriminate.
Qed.

Lemma Document_Valid_not_ErrNotFound (h : Heap) (d : Document.t) (e : error) :
  Document.Valid h d = Some e -> errors_Is e ErrNotFound = false.
Proof.
  unfold Document.Valid.
  repeat match goal with
         | |- context [if ?b then _ else _] =>
             destruct b; [intros [= <-]; reflexivity |]
         end.
  generalize (Document.Pages d).
  intros ps. induction ps as [| a ps IH]; cbn; [discriminate |].
  destruct (Page.Valid (h a)) as [pe |] eqn:Ep; [| exact IH].
  intros [= <-]. through_cause.
  eapply Page_Valid_not_ErrNotFound, Ep.
Qed.

Lemma Split_Valid_not_ErrNotFound (h : Heap) (s : Split.t) (e : error) :
  Split.Valid h s = Some e -> errors_Is e ErrNotFound = false.
Proof.
  unfold Split.Valid.
  destruct (String.eqb (Split.ID s) ""); [intros [= <-]; reflexivity |].
  destruct (String.eqb (Split.ClientID s) ""); [intros [= <-]; reflexivity |].
  induction (Split.Documents s) as [| d ds IH]; cbn; [discriminate |].
  destruct (Document.Valid h d) as [de |] eqn:Ed; [| exact IH].
  intros [= <-]. rewrite errors_Is_wrapped.
  eapply Document_Valid_not_ErrNotFound, Ed.
Qed.

Section AggregateErrors.
Context {L : GoLib}.

Lemma AddPages_not_ErrNotFound (h : Heap) (d : Document.t) (pages : list addr)
(e : error) :
snd (Document.AddPages h d pages) = Some e -> errors_Is e ErrNotFound = false.
Proof.
unfold Document.AddPages.
destruct (Document.AddPages_loop h (Document.ID d) (Document.Pages d) pages)
  as [[h' ps] [e' |]] eqn:E; cbn; [| discriminate].
intros [= <-]. revert h E. generalize (Document.Pages d) as acc.
induction pages as [| p rest IH]; intros acc h E; [discriminate |].
cbn in E. unfold AssignToDocument in E.
destruct (IsAssigned h p).
- injection E as _ _ <-. reflexivity.
- eapply IH, E.
Qed.

Lemma RemovePages_not_ErrNotFound (h : Heap) (d : Document.t)
(pageIDs : list string) (e : error) :
snd (Document.RemovePages h d pageIDs) = Some e ->
errors_Is e ErrNotFound = false.
Proof.
unfold Document.RemovePages.
destruct pageIDs as [| pid rest]; [discriminate |].
destruct (filter _ (Document.Pages d)); cbn; [| discriminate].
intros [= <-]. reflexivity.
Qed.

(** X25: no error of the aggregate is [ErrNotFound]: for each of the five
  mutation methods of [Split], [errors.Is(err, ErrNotFound)] is false on
  the error it returns, also when that error is a NotFound
  [DomainError].  (The HTTP handlers answer 404 only on [ErrNotFound].) *)
Theorem aggregate_errors_are_not_ErrNotFound (h : Heap) (s : Split.t)
(op : Op) (e : error) :
outcome (h, s) op = Some e -> errors_Is e ErrNotFound = false.
Proof.
destruct op as [doc | docID | fromDocID toDocID pageIDs | docID meta | t];
  cbn [outcome].
- unfold Split.AddDocument.
  destruct (String.eqb (Split.Status s) SplitStatusFinalized);
    [intros [= <-]; reflexivity |].
  destruct (Document.Valid h doc) as [ve |] eqn:Ev.
  { intros [= <-]. through_cause.
    eapply Document_Valid_not_ErrNotFound, Ev. }
  destruct (existsb _ (Split.Documents s)); [intros [= <-]; reflexivity |].
  destruct (existsb _ (Document.Pages doc)); [intros [= <-]; reflexivity |].
  discriminate.
- intros H.
  destruct (Split.RemoveDocument h s docID) as [[h' s'] e'] eqn:E.
  cbn in H. subst e'. unfold Split.RemoveDocument in E.
  destruct (String.eqb (Split.Status s) SplitStatusFinalized);
    [injection E as _ _ <-; reflexivity |].
  destruct (find_first _ (Split.Documents s)) as [i |];
    [| injection E as _ _ <-; reflexivity].
  destruct (nth_error (Split.Documents s) i) as [doc |];
    [| injection E as _ _ <-; reflexivity].
  destruct (Document.RemovePages h doc _) as [[[h1 d1] removed] [e1 |]] eqn:Er;
    [| discriminate].
  assert (H1 : errors_Is e1 ErrNotFound = false).
  { eapply RemovePages_not_ErrNotFound. rewrite Er. reflexivity. }
  destruct (errors_As e1); injection E as _ _ <-; [exact H1 |].
  now through_cause.
- intros H.
  destruct (Split.MovePages h s fromDocID toDocID pageIDs)
    as [[h' s'] e'] eqn:E.
  cbn in H. subst e'. unfold Split.MovePages in E.
  destruct (String.eqb (Split.Status s) SplitStatusFinalized);
    [injection E as _ _ <-; reflexivity |].
  destruct (find_last _ (Split.Documents s)) as [i |];
    [| injection E as _ _ <-; reflexivity].
  destruct (find_last _ (Split.Documents s)) as [j |];
    [| injection E as _ _ <-; reflexivity].
  destruct (nth_error (Split.Documents s) i) as [fromDoc |];
    [| injection E as _ _ <-; reflexivity].
  destruct (nth_error (Split.Documents s) j) as [toDoc |];
    [| injection E as _ _ <-; reflexivity].
  destruct (existsb _ pageIDs); [injection E as _ _ <-; reflexivity |].
  destruct (Document.RemovePages h fromDoc pageIDs)
    as [[[h1 d1] removed] [e1 |]] eqn:Er.
  { injection E as _ _ <-. through_cause.
    eapply RemovePages_not_ErrNotFound. rewrite Er. reflexivity. }
  destruct (nth_error (set_nth i d1 (Split.Documents s)) j) as [toDoc1 |];
    [| discriminate].
  destruct (Document.AddPages h1 toDoc1 removed) as [[h2 d2] [e2 |]] eqn:Ea;
    [| discriminate].
  injection E as _ _ <-. through_cause.
  eapply AddPages_not_ErrNotFound. rewrite Ea. reflexivity.
- unfold Split.UpdateDocumentMetadata.
  destruct (String.eqb (Split.Status s) SplitStatusFinalized);
    [intros [= <-]; reflexivity |].
  destruct (find_first _ (Split.Documents s)) as [i |];
    [| intros [= <-]; reflexivity].
  destruct (nth_error (Split.Documents s) i);
    [discriminate | intros [= <-]; reflexivity].
- unfold Split.Finalize.
  destruct (String.eqb (Split.Status s) SplitStatusFinalized);
    [intros [= <-]; reflexivity |].
  destruct (Split.UnassignedPages s); [| intros [= <-]; reflexivity].
  destruct (Split.Valid h s) as [ve |] eqn:Ev; [| discriminate].
  intros [= <-]. through_cause.
  eapply Split_Valid_not_ErrNotFound, Ev.
Qed.

End AggregateErrors.

Section Services.
Context {L : GoLib}.

Lemma Get_row (st : Store) (db : DB) (id : string) (r : SplitRow)
(rest : list SplitRow) :
filter (fun r => String.eqb (sr_id r) id) (splits db) = r :: rest ->
exists st' s,
  Get st db id = (st', Some s) /\ Split.Status s = sr_status r.
Proof.
intros H. unfold Get. rewrite H.
destruct (getDocuments st db id) as [st1 docs].
destruct (getUnassignedPages st1 db id) as [st2 ups].
eexists. eexists. split; reflexivity.
Qed.

Lemma Get_None (st : Store) (db : DB) (id : string) :
(forall r, In r (splits db) -> sr_id r <> id) -> Get st db id = (st, None).
Proof.
intros H. unfold Get. rewrite filter_none; [reflexivity |].
intros r Hr. apply String.eqb_neq. now apply H.
Qed.

(** X26: a split stored as finalized is read-only through the service: every
  call of [MovePages], [CreateDocument], [FinalizeSplit],
  [DeleteDocument] and [UpdateDocumentMetadata] addressed to it returns
  an error and commits nothing.  The error is a Conflict error (for
  [CreateDocument], a Validation error when no requested page is in the
  pool); for [UpdateDocumentMetadata] it carries no [DomainError].  None
  of them is [ErrNotFound]. *)
Theorem finalized_split_is_read_only (db : DB) (id : string) (r : SplitRow)
(rest : list SplitRow) :
filter (fun r => String.eqb (sr_id r) id) (splits db) = r :: rest ->
sr_status r = SplitStatusFinalized ->
id <> "" ->
(forall b st req, SplitService.mp_SplitID req = id ->
   exists st' e,
     SplitService.MovePages b st db req = (st', db, Err e)
     /\ KindOf e = Some DomainErrorConflict)
/\ (forall st req, SplitService.cd_SplitID req = id ->
      exists st' e,
        SplitService.CreateDocument st db req = (st', db, Err e)
        /\ (KindOf e = Some DomainErrorConflict
            \/ KindOf e = Some DomainErrorValidation)
        /\ errors_Is e ErrNotFound = false)
/\ (forall st now,
      exists st' e,
        SplitService.FinalizeSplit st db id now = (st', db, Some e)
        /\ KindOf e = Some DomainErrorConflict)
/\ (forall st docID, GetSplitIDByDocumentID db docID = Ok id ->
      exists st' e,
        SplitService.DeleteDocument st db docID = (st', db, Some e)
        /\ KindOf e = Some DomainErrorConflict)
/\ (forall st docID req, GetSplitIDByDocumentID db docID = Ok id ->
      exists st' e,
        SplitService.UpdateDocumentMetadata st db docID req
        = (st', db, Err e)
        /\ KindOf e = None
        /\ errors_Is e ErrNotFound = false).
Proof.
intros Hrow Hfin Hid.
assert (Hget : forall st, exists st' s,
          Get st db id = (st', Some s)
          /\ String.eqb (Split.Status s) SplitStatusFinalized = true).
{ intros st. destruct (@Get_row st db id r rest Hrow) as (st' & s & E & Hs).
  exists st', s. split; [exact E |]. rewrite Hs, Hfin. reflexivity. }
apply String.eqb_neq in Hid.
split; [| split; [| split; [| split]]].
- intros b st req <-. destruct (Hget st) as (st' & s & E & Hs).
  unfold SplitService.MovePages. rewrite E.
  unfold Split.MovePages. rewrite Hs.
  eexists. eexists. split; reflexivity.
- intros st req <-. destruct (Hget st) as (st' & s & E & Hs).
  unfold SplitService.CreateDocument. rewrite E. cbv zeta.
  destruct (filter _ (Split.UnassignedPages s)) as [| p ps].
  + eexists. eexists. split; [reflexivity |]. split; [now right | reflexivity].
  + unfold Split.AddDocument. cbn [Split.Status]. rewrite Hs.
    eexists. eexists. split; [reflexivity |]. split; [now left | reflexivity].
- intros st now. destruct (Hget st) as (st' & s & E & Hs).
  unfold SplitService.FinalizeSplit. rewrite E.
  unfold Split.Finalize. rewrite Hs.
  eexists. eexists. split; reflexivity.
- intros st docID Hdoc. destruct (Hget st) as (st' & s & E & Hs).
  unfold SplitService.DeleteDocument. rewrite Hdoc, Hid, E.
  unfold Split.RemoveDocument. rewrite Hs.
  eexists. eexists. split; reflexivity.
- intros st docID req Hdoc. destruct (Hget st) as (st' & s & E & Hs).
  unfold SplitService.UpdateDocumentMetadata. rewrite Hdoc, Hid, E.
  unfold Split.UpdateDocumentMetadata. rewrite Hs.
  eexists. eexists. split; [reflexivity |]. split; reflexivity.
Qed.

(** X27: an unknown split ID is answered [ErrNotFound] by [LoadSplit],
  [MovePages], [CreateDocument] and [FinalizeSplit]; an unknown document
  ID is not: [DeleteDocument] and [UpdateDocumentMetadata] return the
  error of [GetSplitIDByDocumentID], for which
  [errors.Is(err, ErrNotFound)] is false (the test for an empty split ID
  that follows is never reached in that case).  Nothing is committed in
  either case. *)
Theorem unknown_IDs_through_the_service (st : Store) (db : DB) :
(forall id, (forall r, In r (splits db) -> sr_id r <> id) ->
   SplitService.LoadSplit st db id = (st, db, Err ErrNotFound)
   /\ (forall b req, SplitService.mp_SplitID req = id ->
         SplitService.MovePages b st db req = (st, db, Err ErrNotFound))
   /\ (forall req, SplitService.cd_SplitID req = id ->
         SplitService.CreateDocument st db req = (st, db, Err ErrNotFound))
   /\ (forall now,
         SplitService.FinalizeSplit st db id now = (st, db, Some ErrNotFound)))
/\ (forall docID, (forall r, In r (documents db) -> dr_id r <> docID) ->
      exists e,
        SplitService.DeleteDocument st db docID = (st, db, Some e)
        /\ (forall req,
              SplitService.UpdateDocumentMetadata st db docID req
              = (st, db, Err e))
        /\ errors_Is e ErrNotFound = false
        /\ KindOf e = None).
Proof.
split.
- intros id Hid. pose proof (@Get_None st db id Hid) as E.
  unfold SplitService.LoadSplit, SplitService.MovePages,
    SplitService.CreateDocument, SplitService.FinalizeSplit.
  rewrite E. split; [reflexivity |].
  split; [intros b req ->; now rewrite E |].
  split; [intros req ->; now rewrite E | reflexivity].
- intros docID Hdoc.
  pose proof (@GetSplitIDByDocumentID_missing db docID Hdoc) as E.
  unfold SplitService.DeleteDocument, SplitService.UpdateDocumentMetadata.
  rewrite E. eexists. split; [reflexivity |].
  split; [reflexivity |]. split; reflexivity.
Qed.

(** X28: [FinalizeSplit] succeeds only on a stored split that is not
  finalized, has no unassigned page row and loads as a valid aggregate;
  it then stores the split with status [finalized] (and no finalize
  time, for which there is no column), and every later [FinalizeSplit]
  on the same ID fails with a Conflict error and commits nothing. *)
Theorem FinalizeSplit_spec (st : Store) (db : DB) (id : string) (now : Time)
(st' : Store) (db' : DB) :
SplitService.FinalizeSplit st db id now = (st', db', None) ->
exists split,
  Get st db id = (st', Some split)
  /\ Split.Status split <> SplitStatusFinalized
  /\ Split.UnassignedPages split = []
  /\ Split.Valid (cells st') split = None
  /\ db' = Save (cells st') db
             (Split.mk (Split.ID split) (Split.ClientID split)
                SplitStatusFinalized (Split.Documents split) []
                (Split.CreatedAt split) (Split.UpdatedAt split) (Some now))
  /\ (exists r rest,
        filter (fun r => String.eqb (sr_id r) id) (splits db') = r :: rest
        /\ sr_status r = SplitStatusFinalized)
  /\ forall st2 now2, exists st3 e,
       SplitService.FinalizeSplit st2 db' id now2 = (st3, db', Some e)
       /\ KindOf e = Some DomainErrorConflict.
Proof.
unfold SplitService.FinalizeSplit at 1. intros H.
destruct (Get st db id) as [st1 [split |]] eqn:EG; [| discriminate].
unfold Split.Finalize in H.
destruct (String.eqb_spec (Split.Status split) SplitStatusFinalized)
  as [Est | Est]; [discriminate |].
destruct (Split.UnassignedPages split) as [| p ps] eqn:Eu; [| discriminate].
destruct (Split.Valid (cells st1) split) eqn:Ev; [discriminate |].
injection H as <- <-.
assert (Hid : Split.ID split = id).
{ unfold Get in EG.
  destruct (filter (fun r => String.eqb (sr_id r) id) (splits db))
    as [| r rest] eqn:Er; [discriminate |].
  destruct (getDocuments st db id) as [sta docs].
  destruct (getUnassignedPages sta db id) as [stb ups].
  injection EG as _ <-. cbn.
  assert (Hr : In r (filter (fun r => String.eqb (sr_id r) id) (splits db)))
    by (rewrite Er; now left).
  apply filter_In in Hr. destruct Hr as [_ Hr]. now apply String.eqb_eq. }
set (fin := Split.mk (Split.ID split) (Split.ClientID split)
              SplitStatusFinalized (Split.Documents split) []
              (Split.CreatedAt split) (Split.UpdatedAt split) (Some now)).
assert (Hrow : exists r rest,
          filter (fun r => String.eqb (sr_id r) id)
            (splits (Save (cells st1) db fin)) = r :: rest
          /\ sr_status r = SplitStatusFinalized).
{ destruct (save_split_row_first fin db) as [rest E].
  rewrite Save_upserts. cbn [splits]. cbn [fin Split.ID] in E.
  rewrite Hid in E. eexists. eexists. split; [exact E | reflexivity]. }
exists split. split; [reflexivity |]. split; [exact Est |].
split; [exact Eu |]. split; [exact Ev |]. split; [reflexivity |].
split; [exact Hrow |].
intros st2 now2. destruct Hrow as (r & rest & Er & Hs).
destruct (@Get_row st2 _ id r rest Er) as (st3 & s3 & E3 & Hs3).
unfold SplitService.FinalizeSplit. rewrite E3.
unfold Split.Finalize. rewrite Hs3, Hs. cbn.
eexists. eexists. split; reflexivity.
Qed.

(** X29: [CreateDocument] makes the new document out of the unassigned pool
  only: of the requested page IDs, those of pool pages are taken, in pool
  order, and the others are ignored; with none in the pool it fails with
  a Validation error and commits nothing.  On success the response has
  the ID drawn from the generator, the strings of the request, empty
  [StartPage] and [EndPage] (the bounds are not computed) and the pages
  taken; the split was not finalized, no document had the new ID, and
  what is committed is [Save] of the loaded aggregate with the document
  appended and the taken pages out of the pool. *)
Theorem CreateDocument_spec (st : Store) (db : DB)
(req : SplitService.CreateDocumentRequest) (st1 : Store) (split : Split.t) :
Get st db (SplitService.cd_SplitID req) = (st1, Some split) ->
let h := cells st1 in
let taken :=
  filter (fun p => mem_string (Page.ID (h p)) (SplitService.cd_PageIDs req))
    (Split.UnassignedPages split) in
let left :=
  filter (fun p =>
            negb (mem_string (Page.ID (h p)) (SplitService.cd_PageIDs req)))
    (Split.UnassignedPages split) in
let doc :=
  Document.mk (uuid_New (drawn st1)) (SplitService.cd_SplitID req)
    (SplitService.cd_Name req) (SplitService.cd_Classification req)
    (SplitService.cd_Filename req) (SplitService.cd_ShortDescription req)
    taken "" "" in
(taken = [] ->
 exists st' e,
   SplitService.CreateDocument st db req = (st', db, Err e)
   /\ KindOf e = Some DomainErrorValidation)
/\ (forall st' db' resp,
      SplitService.CreateDocument st db req = (st', db', Ok resp) ->
      taken <> []
      /\ resp = SplitService.convertDocumentToResponse h doc
      /\ SplitService.doc_StartPage resp = ""
      /\ SplitService.doc_EndPage resp = ""
      /\ map SplitService.pg_ID (SplitService.doc_Pages resp)
         = page_IDs h taken
      /\ Split.Status split <> SplitStatusFinalized
      /\ Document.Valid h doc = None
      /\ ~ In (Document.ID doc) (doc_IDs split)
      /\ db' = Save h db
                 (Split.mk (Split.ID split) (Split.ClientID split)
                    (Split.Status split) (Split.Documents split ++ [doc])
                    left (Split.CreatedAt split) (Split.UpdatedAt split)
                    (Split.FinalizedAt split))).
Proof.
intros EG h taken left doc.
unfold SplitService.CreateDocument. rewrite EG. cbv zeta.
fold h. fold taken. fold left. fold doc.
split.
- intros ->. eexists. eexists. split; reflexivity.
- intros st' db' resp H.
  clearbody taken. destruct taken as [| p ps]; [discriminate |].
  set (split1 := Split.mk _ _ _ _ left _ _ _) in H.
  destruct (Split.AddDocument h split1 doc) as [split2 [e |]] eqn:Ea;
    [discriminate |].
  injection H as <- <- <-.
  unfold Split.AddDocument in Ea. cbn [Split.Status split1] in Ea.
  destruct (String.eqb_spec (Split.Status split) SplitStatusFinalized)
    as [Es | Es]; [discriminate |].
  destruct (Document.Valid h doc) eqn:Ev; [discriminate |].
  destruct (existsb _ (Split.Documents split1)) eqn:Eid; [discriminate |].
  destruct (existsb _ (Document.Pages doc)); [discriminate |].
  injection Ea as <-.
  split; [discriminate |]. split; [reflexivity |].
  split; [reflexivity |]. split; [reflexivity |].
  split.
  { cbn. unfold page_IDs. rewrite map_map. reflexivity. }
  split; [exact Es |]. split; [reflexivity |].
  split; [| reflexivity].
  intros Hin. unfold doc_IDs in Hin. apply in_map_iff in Hin.
  destruct Hin as (d & E & Hd).
  assert (Ht : existsb (fun existingDoc =>
                 String.eqb (Document.ID existingDoc) (Document.ID doc))
                 (Split.Documents split1) = true).
  { apply existsb_exists. exists d. split; [exact Hd |].
    now apply String.eqb_eq. }
  congruence.
Qed.

End Services.

Section DeleteDocument.
Context {L : GoLib}.
Hypothesis OrderBy_Permutation :
forall (R : Type) (col : R -> string) (l : list R),
  Permutation (sql_OrderBy col l) l.

Lemma Get_doc_IDs (st : Store) (db : DB) (id : string) (st' : Store)
(s : Split.t) :
NoDup (map dr_id (documents db)) ->
Get st db id = (st', Some s) ->
Split.ID s = id /\ NoDup (doc_IDs s).
Proof.
intros Hdk H. apply Get_exact in H.
destruct H as (r & rest & _ & Hid & _ & _ & _ & _ & _ & Hdocs & _).
split; [exact Hid |].
destruct (loaded_doc_IDs Hdocs) as [Hids _].
unfold doc_IDs. rewrite Hids.
eapply Permutation_NoDup;
  [apply Permutation_map, Permutation_sym, OrderBy_Permutation
  | now apply NoDup_map_filter].
Qed.

(** X30: when document IDs are unique in the store, a successful
  [DeleteDocument] leaves no row of the document: afterwards
  [GetSplitIDByDocumentID] fails for its ID, and a second
  [DeleteDocument] of the same ID commits nothing and returns an error
  for which [errors.Is(err, ErrNotFound)] is false. *)
Theorem DeleteDocument_spec (st : Store) (db : DB) (docID : string)
(st' : Store) (db' : DB) :
NoDup (map dr_id (documents db)) ->
SplitService.DeleteDocument st db docID = (st', db', None) ->
(forall r, In r (documents db') -> dr_id r <> docID)
/\ (exists e, GetSplitIDByDocumentID db' docID = Err e)
/\ forall st2, exists e,
     SplitService.DeleteDocument st2 db' docID = (st2, db', Some e)
     /\ errors_Is e ErrNotFound = false.
Proof.
intros Hdk H. unfold SplitService.DeleteDocument in H.
unfold GetSplitIDByDocumentID in H.
destruct (filter (fun r => String.eqb (dr_id r) docID) (documents db))
  as [| r0 rest] eqn:Er; [discriminate |].
destruct (String.eqb (dr_split_id r0) ""); [discriminate |].
destruct (Get st db (dr_split_id r0)) as [st1 [split |]] eqn:EG;
  [| discriminate].
destruct (Split.RemoveDocument (cells st1) split docID)
  as [[h s'] [e |]] eqn:Erem; [discriminate |].
injection H as <- <-.
destruct (@Get_doc_IDs st db _ st1 split Hdk EG) as [Hid Hnd].
apply RemoveDocument_shape in Erem.
destruct Erem as [(N & _) | (_ & _ & l1 & doc & l2 & Hl & Hdoc & _ & _ & ->)];
  [now contradiction N |].
assert (Hr0 : In r0 (documents db) /\ dr_id r0 = docID).
{ assert (Hin : In r0 (filter (fun r => String.eqb (dr_id r) docID)
                         (documents db))) by (rewrite Er; now left).
  apply filter_In in Hin. destruct Hin as [Hin Hk].
  split; [exact Hin | now apply String.eqb_eq]. }
assert (Hrows : forall r, In r (documents (Save h db
                  (Split.mk (Split.ID split) (Split.ClientID split)
                     (Split.Status split) (l1 ++ l2)
                     (Split.UnassignedPages split ++ Document.Pages doc)
                     (Split.CreatedAt split) (Split.UpdatedAt split)
                     (Split.FinalizedAt split)))) -> dr_id r <> docID).
{ apply Save_drops_document_rows.
  - unfold doc_IDs in *. cbn [Split.Documents]. rewrite Hl in Hnd.
    rewrite map_app in *. cbn [map] in Hnd.
    apply NoDup_remove_2 in Hnd. now rewrite Hdoc in Hnd.
  - intros r Hr E. cbn [Split.ID]. rewrite Hid.
    destruct Hr0 as [Hin0 E0].
    assert (r = r0).
    { apply (@NoDup_key_unique _ dr_id (documents db));
        [exact Hdk | exact Hr | exact Hin0 | congruence]. }
    now subst. }
split; [exact Hrows |].
pose proof (@GetSplitIDByDocumentID_missing _ docID Hrows) as Emiss.
split; [eexists; exact Emiss |].
intros st2. unfold SplitService.DeleteDocument. rewrite Emiss.
eexists. split; reflexivity.
Qed.

End DeleteDocument.

(* ================================================================== *)
(** * The further properties on the aggregates of the tests            *)
(* ================================================================== *)

(** The pages 3, 1, 2 of [doc1], given out of order, are put in order and
    the bounds become [page_1.png] and [page_3.png]. *)
Lemma updatePageNumbers_range_witness :
  let d' := @Document.updatePageNumbers w2_lib two_docs_heap
              (test_doc "doc1" [2; 0; 1]%nat "" "") in
  Permutation (Document.Pages d') [2; 0; 1]%nat
  /\ InOrder two_docs_heap (Document.Pages d')
  /\ Document.StartPage d' = "page_1.png"
  /\ Document.EndPage d' = "page_3.png".
Proof.
  destruct (@updatePageNumbers_range w2_lib
              (exampleLib_SortFunc_Permutation _) (exampleLib_SortFunc_sorted _)
              two_docs_heap (test_doc "doc1" [2; 0; 1]%nat "" ""))
    as (Hperm & Hord & _).
  cbv zeta. split; [exact Hperm |]. split; [exact Hord |].
  split; reflexivity.
Defined.

(** The pages 2 and 1 of the heap of the tests are added to [doc2]. *)
Lemma AddPages_effect_witness :
  let r := @Document.AddPages w2_lib two_docs_heap
             (test_doc "doc2" [3; 4]%nat "page_4.png" "page_5.png")
             [1; 0]%nat in
  Permutation (Document.Pages (snd (fst r))) ([3; 4] ++ [1; 0])%nat
  /\ BoundsOf (fst (fst r)) (snd (fst r))
  /\ Page.DocumentID (fst (fst r) 1%nat) = Some "doc2".
Proof.
  cbv zeta.
  destruct (@AddPages_effect w2_lib
              (exampleLib_SortFunc_Permutation _) (exampleLib_SortFunc_sorted _)
              two_docs_heap
              (test_doc "doc2" [3; 4]%nat "page_4.png" "page_5.png")
              [1; 0]%nat _ _ eq_refl)
    as (Hperm & _ & Hb & _ & Has & _).
  split; [exact Hperm |]. split; [exact Hb |].
  apply Has. now left.
Defined.

(** The pages [p1] and [p3] are removed from [doc1]; [p9] is not there. *)
Lemma RemovePages_partition_witness :
  let r := @Document.RemovePages w2_lib two_docs_heap
             (test_doc "doc1" [0; 1; 2]%nat "page_1.png" "page_3.png")
             ["p3"; "p9"; "p1"] in
  snd r = None
  /\ Permutation (snd (fst r) ++ Document.Pages (snd (fst (fst r))))
       [0; 1; 2]%nat
  /\ BoundsOf (fst (fst (fst r))) (snd (fst (fst r))).
Proof.
  cbv zeta.
  destruct (@RemovePages_partition w2_lib
              (exampleLib_SortFunc_Permutation _) (exampleLib_SortFunc_sorted _)
              two_docs_heap
              (test_doc "doc1" [0; 1; 2]%nat "page_1.png" "page_3.png")
              ["p3"; "p9"; "p1"] _ _ _ _ eq_refl)
    as (Hperm & _ & _ & _ & _ & _ & Hb & _).
  split; [reflexivity |]. split; [exact Hperm |].
  apply Hb; [reflexivity | discriminate].
Defined.

(** [NewDocument] on the pages 2 and 1 of the heap of the tests. *)
Lemma NewDocument_Ok_iff_witness :
  exists d,
    @Document.NewDocument w2_lib two_docs_heap "doc9" "split123" "Name" "W-2"
      "f.pdf" "" [1; 0]%nat = Ok d.
Proof.
  apply (@NewDocument_Ok_iff w2_lib
           (exampleLib_SortFunc_Permutation _) (exampleLib_SortFunc_sorted _)
           two_docs_heap "doc9" "split123" "Name" "W-2" "f.pdf" "" [1; 0]%nat).
  repeat (split; [discriminate |]).
  intros p [<- | [<- | []]]; reflexivity.
Defined.

(** A split with two unassigned pages is never finalized. *)
Lemma unassigned_pool_blocks_Finalize_witness :
  Forall (fun st' =>
            Split.Status (snd st') <> SplitStatusFinalized
            /\ forall t, exists e,
                 Split.Finalize (fst st') (snd st') t = (snd st', Some e)
                 /\ KindOf e = Some DomainErrorValidation)
    (@trace w2_lib (two_docs_heap, unassigned_split)
       [CallAddDocument (test_doc "doc1" [2%nat] "" ""); CallFinalize 7]).
Proof.
  apply (@unassigned_pool_blocks_Finalize w2_lib); discriminate.
Defined.

(** The finalized split of the tests. *)
Lemma finalized_is_frozen_witness :
  Forall (fun st' => st' = (two_docs_heap, two_docs_split SplitStatusFinalized))
    (@trace w2_lib (two_docs_heap, two_docs_split SplitStatusFinalized)
       [CallMovePages "doc1" "doc2" ["p1"]; CallRemoveDocument "doc1";
        CallFinalize 7]).
Proof.
  apply (@finalized_is_frozen w2_lib). reflexivity.
Defined.

Lemma document_IDs_stay_unique_witness :
  Forall (fun st' => NoDup (doc_IDs (snd st')))
    (@trace w2_lib (two_docs_heap, two_docs_split SplitStatusDraft)
       [CallAddDocument (test_doc "doc1" [2%nat] "" "");
        CallMovePages "doc1" "doc2" ["p1"]]).
Proof.
  eapply Forall_impl;
    [| apply (@document_IDs_stay_unique w2_lib _ two_docs_heap
                (two_docs_split SplitStatusDraft))].
  - intros st' [H _]. exact H.
  - repeat (constructor; [cbn; intuition discriminate |]). constructor.
Defined.

(** Asking for a page that [doc1] does not hold fails and changes nothing. *)
Lemma MovePages_failure_changes_nothing_witness :
  let r := @Split.MovePages w2_lib two_docs_heap
             (two_docs_split SplitStatusDraft) "doc1" "doc2" ["p9"] in
  fst (fst r) = two_docs_heap /\ snd (fst r) = two_docs_split SplitStatusDraft.
Proof.
  cbv zeta.
  assert (Hnd : forall d, In d (Split.Documents (two_docs_split SplitStatusDraft)) ->
                  NoDup (Document.Pages d)).
  { intros d [<- | [<- | []]]; cbn;
      repeat (constructor; [cbn; intuition discriminate |]); constructor. }
  destruct (@MovePages_failure_changes_nothing w2_lib two_docs_heap
              (two_docs_split SplitStatusDraft) "doc1" "doc2" ["p9"] _ _ _
              Hnd eq_refl) as (H1 & H2 & _).
  split; assumption.
Defined.

(** The pages [p1] and [p2] move from [doc1] to [doc2]. *)
Lemma MovePages_effect_witness :
  let r := @Split.MovePages w2_lib two_docs_heap
             (two_docs_split SplitStatusDraft) "doc1" "doc2" ["p1"; "p2"] in
  exists A' B',
    nth_error (Split.Documents (snd (fst r))) 0 = Some A'
    /\ nth_error (Split.Documents (snd (fst r))) 1 = Some B'
    /\ Document.Pages A' = [2%nat]
    /\ Document.Pages B' = [0; 1; 3; 4]%nat
    /\ heap_same_but_DocumentID two_docs_heap (fst (fst r)).
Proof.
  cbv zeta.
  assert (Hne : ["p1"; "p2"] <> @nil string) by discriminate.
  destruct (@MovePages_effect w2_lib
              (exampleLib_SortFunc_Permutation _) (exampleLib_SortFunc_sorted _)
              two_docs_heap (two_docs_split SplitStatusDraft) "doc1" "doc2"
              ["p1"; "p2"] _ _ Hne eq_refl)
    as (i & j & A & B & A' & B' & _ & _ & _ & _ & _ & _ & _ & _ & _ & _ & _
        & _ & _ & _ & _ & _ & Hsame & _).
  eexists. eexists. split; [reflexivity |]. split; [reflexivity |].
  split; [reflexivity |]. split; [reflexivity |]. exact Hsame.
Defined.

(** The split of the tests is valid and stays so when [doc1] is removed. *)
Lemma Valid_kept_witness :
  let r := @Split.RemoveDocument w2_lib two_docs_heap
             (two_docs_split SplitStatusDraft) "doc1" in
  Split.Valid (fst (fst r)) (snd (fst r)) = None.
Proof.
  cbv zeta.
  destruct (@Valid_kept w2_lib two_docs_heap (two_docs_split SplitStatusDraft)
              eq_refl) as (_ & H & _).
  exact (H "doc1" _ _ None eq_refl).
Defined.

(** The name of [doc1] is set to the empty string. *)
Lemma UpdateDocumentMetadata_accepts_empty_witness :
  snd (Split.UpdateDocumentMetadata (two_docs_split SplitStatusDraft) "doc1"
         (Document.mkMetadata (Some "") None None)) = None
  /\ Split.Valid two_docs_heap
       (fst (Split.UpdateDocumentMetadata (two_docs_split SplitStatusDraft)
               "doc1" (Document.mkMetadata (Some "") None None))) <> None.
Proof.
  destruct (@UpdateDocumentMetadata_accepts_empty two_docs_heap
              (two_docs_split SplitStatusDraft) "doc1"
              (Document.mkMetadata (Some "") None None))
    as (H1 & H2 & _).
  - discriminate.
  - now left.
  - now left.
  - split; assumption.
Defined.

(** [doc2] is removed from the split of the tests, then [Finalize]. *)
Lemma RemoveDocument_then_Finalize_witness :
  let r := @Split.RemoveDocument w2_lib two_docs_heap
             (two_docs_split SplitStatusDraft) "doc2" in
  Split.UnassignedPages (snd (fst r)) <> []
  /\ Split.Finalize (fst (fst r)) (snd (fst r)) 7
     = (snd (fst r),
        Some (NewValidationError
                "cannot finalize split with unassigned pages" None)).
Proof.
  cbv zeta.
  apply (@RemoveDocument_then_Finalize w2_lib two_docs_heap
           (two_docs_split SplitStatusDraft) "doc2"); reflexivity.
Defined.

(** Both pages of [doc2] move to [doc1]: [doc2] stays, empty. *)
Lemma MovePages_valid_unless_emptied_witness :
  let r := @Split.MovePages w2_lib two_docs_heap
             (two_docs_split SplitStatusDraft) "doc2" "doc1" ["p4"; "p5"] in
  exists A',
    nth_error (Split.Documents (snd (fst r))) 1 = Some A'
    /\ Document.Pages A' = []
    /\ Document.StartPage A' = "" /\ Document.EndPage A' = ""
    /\ forall t, exists e,
         Split.Finalize (fst (fst r)) (snd (fst r)) t = (snd (fst r), Some e)
         /\ KindOf e = Some DomainErrorValidation.
Proof.
  cbv zeta.
  assert (Hne : ["p4"; "p5"] <> @nil string) by discriminate.
  apply (@MovePages_valid_unless_emptied w2_lib
           (exampleLib_SortFunc_Permutation _)
           two_docs_heap (two_docs_split SplitStatusDraft) "doc2" "doc1"
           ["p4"; "p5"] _ _ 1%nat
           (test_doc "doc2" [3; 4]%nat "page_4.png" "page_5.png")
           eq_refl Hne eq_refl eq_refl eq_refl).
  intros p [<- | [<- | []]]; cbn; auto.
Defined.

(** A document without split is assigned to [split123]; a document of
    [split123] is refused by another split. *)
Lemma AssignToSplit_spec_witness :
  snd (AssignToSplit two_docs_heap
         (Document.mk "d" "" "n" "c" "f" "" [0; 1]%nat "" "") "split123") = None
  /\ KindOf (NewConflictError
               "document is already assigned to a different split" None)
     = Some DomainErrorConflict.
Proof.
  split.
  - apply (@AssignToSplit_spec two_docs_heap
             (Document.mk "d" "" "n" "c" "f" "" [0; 1]%nat "" "") "split123"
             _ _ _ eq_refl).
    now left.
  - apply (@AssignToSplit_spec two_docs_heap
             (test_doc "doc1" [0; 1]%nat "" "") "other" _ _ _ eq_refl).
    reflexivity.
Defined.

(** The scenario of the specification: one document of two pages. *)
Lemma NewSplit_builds_witness :
  let r := @NewSplit w2_lib emptyStore 1 2 "{...}" in
  exists s,
    snd r = Ok s
    /\ Split.UnassignedPages s = []
    /\ Split.Status s = "draft"
    /\ Forall2 (@DocFromData w2_lib (cells (fst r)) "s1") (sd_Documents w2_data)
         (Split.Documents s).
Proof.
  cbv zeta. eexists. split; [reflexivity |].
  destruct (@NewSplit_builds w2_lib
              (exampleLib_SortFunc_Permutation _) (exampleLib_SortFunc_sorted _)
              emptyStore 1 2 "{...}" _ _ eq_refl)
    as (data & Hd & _ & _ & _ & _ & _ & _ & Hpool & Hdocs & _).
  injection Hd as <-.
  split; [exact Hpool |]. split; [reflexivity |]. exact Hdocs.
Defined.

(** ** The repository and the service on a store with two splits *)

Ltac rows_cases H :=
  vm_compute in H;
  repeat (let H' := fresh in destruct H as [H' | H]; [subst |]);
  try contradiction.

Lemma saved_db_documents_key : NoDup (map dr_id (documents saved_db)).
Proof.
  vm_compute. repeat (constructor; [cbn; intuition discriminate |]). constructor.
Qed.

Lemma saved_db_pages_key : NoDup (map pr_id (pages saved_db)).
Proof.
  vm_compute. repeat (constructor; [cbn; intuition discriminate |]). constructor.
Qed.

Lemma other_db_documents_key : NoDup (map dr_id (documents other_db)).
Proof.
  vm_compute. repeat (constructor; [cbn; intuition discriminate |]). constructor.
Qed.

Lemma other_db_pages_key : NoDup (map pr_id (pages other_db)).
Proof.
  vm_compute. repeat (constructor; [cbn; intuition discriminate |]). constructor.
Qed.

Lemma two_docs_SingleOwnership :
  SingleOwnership two_docs_heap (two_docs_split SplitStatusDraft).
Proof.
  unfold SingleOwnership. vm_compute.
  repeat (constructor; [cbn; intuition discriminate |]). constructor.
Qed.

(** [Get] of the split of the tests from the store with two splits. *)
Lemma Get_loads_well_formed_witness :
  let r := @Get w2_lib two_docs_store saved_db "split123" in
  exists s,
    snd r = Some s
    /\ SingleOwnership (cells (fst r)) s
    /\ NoDup (all_pages s)
    /\ NoDup (doc_IDs s).
Proof.
  cbv zeta. eexists. split; [reflexivity |].
  destruct (@Get_loads_well_formed w2_lib (exampleLib_OrderBy_Permutation _)
              two_docs_store saved_db "split123" _ _
              saved_db_documents_key saved_db_pages_key eq_refl)
    as (_ & _ & Hids & _ & Hnd & _ & _ & Hso & _).
  split; [exact Hso |]. split; [exact Hnd | exact Hids].
Defined.

(** The split of the tests, saved into the store of the other client and
    loaded again. *)
Lemma Save_Get_round_trip_witness :
  exists st' s',
    @Get w2_lib two_docs_store saved_db "split123" = (st', Some s')
    /\ Split.ClientID s' = "client456"
    /\ Split.Status s' = "draft"
    /\ Split.FinalizedAt s' = None
    /\ exists ds,
         Permutation ds (Split.Documents (two_docs_split SplitStatusDraft))
         /\ Forall2 (SameDocument two_docs_heap (cells st')) ds
              (Split.Documents s').
Proof.
  destruct (@Save_Get_round_trip w2_lib (exampleLib_OrderBy_Permutation _)
              two_docs_heap other_db (two_docs_split SplitStatusDraft)
              other_db_documents_key other_db_pages_key)
    with (st := two_docs_store)
    as (st' & s' & HG & _ & Hc & Hs & _ & _ & Hf & Hd & _).
  - vm_compute. repeat (constructor; [cbn; intuition discriminate |]).
    constructor.
  - exact two_docs_SingleOwnership.
  - intros d [<- | [<- | []]]; reflexivity.
  - intros p Hp. rows_cases Hp; reflexivity.
  - intros r Hr Hs d Hd E. rows_cases Hr; rows_cases Hd; discriminate.
  - exists st', s'. split; [exact HG |]. split; [exact Hc |].
    split; [exact Hs |]. split; [exact Hf | exact Hd].
Defined.

(** The split of the tests is deleted; the split of the other client is
    what it was. *)
Lemma Delete_spec_witness :
  @Get w2_lib two_docs_store (Delete saved_db "split123") "split123"
  = (two_docs_store, None)
  /\ @Get w2_lib two_docs_store (Delete saved_db "split123") "other"
     = @Get w2_lib two_docs_store saved_db "other".
Proof.
  destruct (@Delete_spec w2_lib (exampleLib_OrderBy_Permutation _)
              two_docs_store saved_db "split123")
    as (H1 & _ & _ & _ & _ & H2).
  - intros p Hp Es r Hr E. rows_cases Hp; rows_cases Hr;
      try discriminate; reflexivity.
  - split; [exact H1 |]. apply H2. discriminate.
Defined.

(** Saving the split of the tests does not change what [Get] returns for
    the split of the other client. *)
Lemma Save_keeps_other_splits_witness :
  @Get w2_lib two_docs_store saved_db "other"
  = @Get w2_lib two_docs_store other_db "other".
Proof.
  apply (@Save_keeps_other_splits w2_lib (exampleLib_OrderBy_Permutation _)
           two_docs_heap other_db (two_docs_split SplitStatusDraft)
           other_db_documents_key other_db_pages_key).
  - intros d [<- | [<- | []]]; reflexivity.
  - intros p Hp. rows_cases Hp; reflexivity.
  - intros r Hr Hin. rows_cases Hr. rows_cases Hin; discriminate.
  - intros p Hp Hin. rows_cases Hp; rows_cases Hin; discriminate.
  - intros p Hp Es. rows_cases Hp; discriminate.
  - discriminate.
Defined.

Lemma GetSplitIDByDocumentID_after_Save_witness :
  GetSplitIDByDocumentID saved_db "doc2" = Ok "split123"
  /\ exists e, GetSplitIDByDocumentID saved_db "doc9" = Err e
               /\ errors_Is e ErrNotFound = false.
Proof.
  destruct (@GetSplitIDByDocumentID_after_Save two_docs_heap other_db
              (two_docs_split SplitStatusDraft)) as [H1 H2].
  - vm_compute. repeat (constructor; [cbn; intuition discriminate |]).
    constructor.
  - split.
    + apply (H1 (test_doc "doc2" [3; 4]%nat "page_4.png" "page_5.png")).
      right. now left.
    + destruct (H2 "doc9") as (e & He & _ & Hn).
      * cbn. intuition discriminate.
      * intros r Hr E. rows_cases Hr. discriminate.
      * exists e. split; assumption.
Defined.

(** [RemoveDocument] of a document the split does not have: the error is
    a NotFound error, and it is not [ErrNotFound]. *)
Lemma aggregate_errors_are_not_ErrNotFound_witness :
  KindOf (NewNotFoundError "document not found in split" None)
  = Some DomainErrorNotFound
  /\ errors_Is (NewNotFoundError "document not found in split" None) ErrNotFound
     = false.
Proof.
  split; [reflexivity |].
  apply (@aggregate_errors_are_not_ErrNotFound w2_lib two_docs_heap
           (two_docs_split SplitStatusDraft) (CallRemoveDocument "doc9")).
  reflexivity.
Defined.

(** The finalized split of the tests, through the service. *)
Lemma finalized_split_is_read_only_witness :
  (exists st' e,
     @SplitService.FinalizeSplit w2_lib two_docs_store finalized_db "split123" 9
     = (st', finalized_db, Some e)
     /\ KindOf e = Some DomainErrorConflict)
  /\ exists st' e,
       @SplitService.DeleteDocument w2_lib two_docs_store finalized_db "doc1"
       = (st', finalized_db, Some e)
       /\ KindOf e = Some DomainErrorConflict.
Proof.
  destruct (@finalized_split_is_read_only w2_lib finalized_db "split123"
              (mkSplitRow "split123" "client456" "finalized" 100 100) [])
    as (_ & _ & H3 & H4 & _).
  - reflexivity.
  - reflexivity.
  - discriminate.
  - split; [apply H3 | apply H4; reflexivity].
Defined.

(** [FinalizeSplit] of the split of the tests, then once more. *)
Lemma FinalizeSplit_spec_witness :
  let r := @SplitService.FinalizeSplit w2_lib two_docs_store saved_db
             "split123" 9 in
  snd r = None
  /\ exists st3 e,
       @SplitService.FinalizeSplit w2_lib two_docs_store (snd (fst r))
         "split123" 10
       = (st3, snd (fst r), Some e)
       /\ KindOf e = Some DomainErrorConflict.
Proof.
  cbv zeta. split; [reflexivity |].
  destruct (@FinalizeSplit_spec w2_lib two_docs_store saved_db "split123" 9
              _ _ eq_refl)
    as (split & _ & _ & _ & _ & _ & _ & H).
  apply H.
Defined.

(** A document is made of the page [p3] of the pool; the page [p1], which
    is in [doc1], is asked for too and is ignored. *)
Lemma CreateDocument_spec_witness :
  let r := @SplitService.CreateDocument w2_lib two_docs_store pool_db
             new_document_request in
  exists resp,
    snd r = Ok resp
    /\ SplitService.doc_ID resp = "id-0"
    /\ map SplitService.pg_ID (SplitService.doc_Pages resp) = ["p3"]
    /\ SplitService.doc_StartPage resp = ""
    /\ SplitService.doc_EndPage resp = "".
Proof.
  cbv zeta. eexists. split; [reflexivity |].
  destruct (@CreateDocument_spec w2_lib two_docs_store pool_db
              new_document_request _ _ eq_refl) as [_ H].
  destruct (H _ _ _ eq_refl) as (_ & _ & Hs & He & _).
  split; [reflexivity |]. split; [reflexivity |]. split; [exact Hs | exact He].
Defined.

(** [doc1] is deleted through the service, twice. *)
Lemma DeleteDocument_spec_witness :
  let r := @SplitService.DeleteDocument w2_lib two_docs_store saved_db "doc1" in
  snd r = None
  /\ exists e,
       @SplitService.DeleteDocument w2_lib two_docs_store (snd (fst r)) "doc1"
       = (two_docs_store, snd (fst r), Some e)
       /\ errors_Is e ErrNotFound = false.
Proof.
  cbv zeta. split; [reflexivity |].
  destruct (@DeleteDocument_spec w2_lib (exampleLib_OrderBy_Permutation _)
              two_docs_store saved_db "doc1" _ _ saved_db_documents_key eq_refl)
    as (_ & _ & H).
  apply H.
Defined.
